(** * SQL assistant: routing policy, approval workflow and query tool

    A shallow embedding of [src/sql_assistant/agent.py] (tools, nodes,
    routers and the compiled graph), [src/sql_assistant/api.py] (the two
    endpoints and their helpers), [src/sql_assistant/skills/repository.py]
    and [src/sql_assistant/database.py].  The language model, the
    database and the skill repository are external collaborators: they
    enter as section variables, so every statement holds for all of their
    behaviours.  The engine that runs the graph is the library's; its
    loop, interrupt, checkpoint and [update_state] are modelled as the
    graph built in [create_agent_graph] uses them.

    Text is modelled by [string]; a character stands for one code point
    below 256.  What a run does to the outside (a model call, a tool run,
    a local query) is kept in a journal; the entry is made by the function
    that performs the call, from the argument it passes. *)

From Stdlib Require Import Ascii String.
From stdpp Require Import base option list strings pretty gmap.

Local Open Scope string_scope.
Local Open Scope list_scope.

(** ** Messages (langchain_core.messages) *)

(** One entry of [AIMessage.tool_calls]; both bound tools take a single
    string argument ([skill_name], resp. [query]). *)
Record ToolCall := {
  tc_name : string;
  tc_arg : string;
  tc_id : string
}.

Inductive Message :=
| HumanMessage (content : string)
| AIMessage (content : string) (tool_calls : list ToolCall)
| ToolMessage (content : string) (name : string) (tool_call_id : string)
| SystemMessage (content : string).

Definition content_of (m : Message) : string :=
  match m with
  | HumanMessage c | AIMessage c _ | ToolMessage c _ _ | SystemMessage c => c
  end.

(** [AgentState]: the [messages] channel, reduced with [operator.add]. *)
Abbreviation AgentState := (list Message).

(** ** Graph nodes and routing targets *)

Inductive Node := agent | tools | human_approval.

(** What a conditional edge returns: a node name or [END]. *)
Inductive Target := To (n : Node) | END.

#[global] Instance Node_eq_dec : EqDecision Node.
Proof. solve_decision. Defined.
#[global] Instance Target_eq_dec : EqDecision Target.
Proof. solve_decision. Defined.
#[global] Instance ToolCall_eq_dec : EqDecision ToolCall.
Proof. solve_decision. Defined.
#[global] Instance Message_eq_dec : EqDecision Message.
Proof. solve_decision. Defined.

Module Routing.

(** The designated execute-action tool. *)
Definition execute_tool_name : string := "execute_postgres_query".

(** The reserved control prefix. *)
Definition control_prefix : string := "<SYSTEM:".

(** [isinstance(m, ToolMessage) and m.name == "execute_postgres_query"] *)
Definition is_execute_result (m : Message) : bool :=
  match m with
  | ToolMessage _ name _ => bool_decide (name = execute_tool_name)
  | _ => false
  end.

(** [hasattr(m, "tool_calls") and m.tool_calls]: only an [AIMessage] has
    the attribute, and an empty list is falsy. *)
Definition has_tool_calls (m : Message) : bool :=
  match m with
  | AIMessage _ (_ :: _) => true
  | _ => false
  end.

(** [messages[-2]], read only under the guard [len(messages) > 1]. *)
Definition second_last (messages : AgentState) : option Message :=
  if decide (1 < length messages) then messages !! (length messages - 2)
  else None.

(** The routers return [None] where the Python raises [IndexError]
    ([messages[-1]] on an empty log). *)

Definition should_continue (messages : AgentState) : option Target :=
  match last messages with
  | None => None
  | Some last_message =>
      if has_tool_calls last_message then Some (To tools)
      else
        match second_last messages with
        | Some m =>
            if is_execute_result m then Some END
            else Some (To human_approval)
        | None => Some (To human_approval)
        end
  end.

Definition route_tool_output (messages : AgentState) : option Target :=
  match last messages with
  | None => None
  | Some last_message =>
      if is_execute_result last_message then Some END
      else Some (To agent)
  end.

Definition check_approval_outcome (messages : AgentState) : option Target :=
  match last messages with
  | None => None
  | Some (HumanMessage content) =>
      if String.prefix control_prefix content then Some END
      else Some (To agent)
  | Some _ => Some END
  end.

End Routing.

(** ** Python string helpers *)

Module Py.

Definition nl : string := String (ascii_of_nat 10) EmptyString.

(** [sep.join(ls)] *)
Definition join (sep : string) (ls : list string) : string :=
  String.concat sep ls.

(** [str.isspace] on one character (code points below 256). *)
Definition isspace (c : ascii) : bool :=
  let n := nat_of_ascii c in
  bool_decide (9 <= n <= 13) || bool_decide (28 <= n <= 32)
  || bool_decide (n = 133) || bool_decide (n = 160).

Fixpoint lstrip (s : string) : string :=
  match s with
  | EmptyString => EmptyString
  | String c s' => if isspace c then lstrip s' else s
  end.

Fixpoint rstrip (s : string) : string :=
  match s with
  | EmptyString => EmptyString
  | String c s' =>
      match rstrip s' with
      | EmptyString => if isspace c then EmptyString else String c EmptyString
      | r => String c r
      end
  end.

(** [s.strip()] *)
Definition strip (s : string) : string := rstrip (lstrip s).

(** [s[len(p):]] when [s.startswith(p)]. *)
Fixpoint strip_prefix (p s : string) : option string :=
  match p, s with
  | EmptyString, _ => Some s
  | String a p', String b s' =>
      if decide (a = b) then strip_prefix p' s' else None
  | String _ _, EmptyString => None
  end.

(** [p in s] *)
Fixpoint contains (p s : string) : bool :=
  match strip_prefix p s with
  | Some _ => true
  | None =>
      match s with
      | EmptyString => false
      | String _ s' => contains p s'
      end
  end.

(** Truthiness of a string: [bool(s)]. *)
Definition truthy (s : string) : bool := negb (bool_decide (s = EmptyString)).

End Py.

(** ** The pattern [```(?:sql)?(.*?)```] under [re.DOTALL]

    A backtracking matcher for this one pattern, in the order [re.search]
    explores: start positions from left to right; at a position the
    literal fence, then the optional group (greedy: first with ["sql"],
    then without), then the lazy group extended one character at a time
    until the closing fence matches.  The result is [match.group(1)]. *)

Module Re.

Definition fence : string := "```".

(** [(.*?)```] anchored at the start of [s]. *)
Fixpoint lazy_until_fence (s : string) : option string :=
  match Py.strip_prefix fence s with
  | Some _ => Some EmptyString
  | None =>
      match s with
      | EmptyString => None
      | String c s' => String c <$> lazy_until_fence s'
      end
  end.

(** The whole pattern anchored at the start of [s]. *)
Definition match_here (s : string) : option string :=
  match Py.strip_prefix fence s with
  | None => None
  | Some r =>
      match Py.strip_prefix "sql" r with
      | Some r' =>
          match lazy_until_fence r' with
          | Some g => Some g
          | None => lazy_until_fence r
          end
      | None => lazy_until_fence r
      end
  end.

(** [re.search(pattern, s, re.DOTALL)], giving [group(1)]. *)
Fixpoint search (s : string) : option string :=
  match match_here s with
  | Some g => Some g
  | None =>
      match s with
      | EmptyString => None
      | String _ s' => search s'
      end
  end.

End Re.

(** The extraction shared by [chat] (auto-execute) and [approval]. *)
Definition extract_query (content : string) : string :=
  match Re.search content with
  | Some group1 => Py.strip group1
  | None => Py.strip content
  end.

(** What the pattern captures between two fences with [body] in
    between: what follows the optional ["sql"] tag. *)
Definition block_content (body : string) : string :=
  default body (Py.strip_prefix "sql" body).

(** ** What the statements say of a text

    These predicates are written with string concatenation and literals
    only; [Py.isspace] tells which characters count as white space. *)

(** The text holds a fenced block: an opening fence and, after it, a
    closing one. *)
Definition has_fenced_block (text : string) : Prop :=
  exists pre body post,
    text = pre +:+ "```" +:+ body +:+ "```" +:+ post.

(** No fence occurs in [s]. *)
Definition fence_free (s : string) : Prop :=
  forall a b, s <> a +:+ "```" +:+ b.

(** [body] stands between the first fence of [text] and the fence that
    follows it: no fence starts before the opening one, and none starts
    within [body]. *)
Definition first_block (text body : string) : Prop :=
  exists pre post,
    text = pre +:+ "```" +:+ body +:+ "```" +:+ post
    /\ fence_free (pre +:+ "``")
    /\ fence_free (body +:+ "``").

(** [content] is [body] without its tag: what follows a leading ["sql"],
    and [body] itself when it does not start with ["sql"]. *)
Definition untagged (body content : string) : Prop :=
  (forall rest, body = "sql" +:+ rest -> content = rest)
  /\ ((forall rest, body <> "sql" +:+ rest) -> content = body).

(** White space only. *)
Fixpoint blank (s : string) : bool :=
  match s with
  | EmptyString => true
  | String c s' => Py.isspace c && blank s'
  end.

(** [q] is [s] without its leading and trailing white space. *)
Definition stripped_from (s q : string) : Prop :=
  (exists l r, s = l +:+ q +:+ r /\ blank l = true /\ blank r = true)
  /\ (forall c q', q = String c q' -> Py.isspace c = false)
  /\ (forall q' c, q = q' +:+ String c EmptyString -> Py.isspace c = false).

(** [q] is the query the text of a proposal stands for: the stripped
    content of its first fenced block, or the stripped text when it holds
    no fenced block. *)
Definition query_of (text q : string) : Prop :=
  (forall body,
      first_block text body ->
      exists content, untagged body content /\ stripped_from content q)
  /\ (~ has_fenced_block text -> stripped_from text q).

(** ** External collaborators *)

(** What one pass through the [try] block around the cursor yields:
    an exception with its [str(e)], or [cursor.description] (column names,
    [None] for a statement without a result set) with the fetched rows,
    every cell already rendered by [str(cell)]. *)
Inductive DbReply :=
| DbRaise (e : string)
| DbDone (description : option (list string)) (fetched : list (list string)).

Record Skill := {
  sk_name : string;
  sk_description : string;
  sk_content : string
}.

(** [repo.get_skill(name)]: an exception, or [Skill | None]. *)
Inductive RepoReply :=
| RepoRaise (e : string)
| RepoSkill (s : option Skill).

(** [if cursor.description: ... else: columns, results = [], []] *)
Definition cursor_result (description : option (list string))
    (fetched : list (list string)) : list string * list (list string) :=
  match description with
  | Some (c :: cs) => (c :: cs, fetched)
  | _ => ([], [])
  end.

Definition table_header (columns : list string) : string :=
  "| " +:+ Py.join " | " columns +:+ " |".

Definition table_separator (columns : list string) : string :=
  "| " +:+ Py.join " | " (replicate (length columns) "---") +:+ " |".

Definition table_row (row : list string) : string :=
  "| " +:+ Py.join " | " row +:+ " |".

(** ** Tools, nodes and the compiled graph *)

(** What a run leaves in the journal, in order. *)
Inductive Event :=
| NodeRun (n : Node)
| ModelCall (input : list Message)
| ToolRun (call : ToolCall)
| LocalQuery (query : string).

Inductive Exn :=
| IndexError
| ValueError
| GraphRecursionError.

(** A thread's checkpoint as [graph.get_state] shows it: the values of the
    [messages] channel and [snapshot.next] (this graph never schedules
    two nodes at once). *)
Record Checkpoint := {
  values : list Message;
  next : option Node
}.

Definition empty_checkpoint : Checkpoint := {| values := []; next := None |}.

(** How one [graph.stream] call ends: the loop stopped (no node left, or
    the interrupt), or an exception left it with the thread at [cp]. *)
Inductive Outcome :=
| Committed (cp : Checkpoint)
| Raised (e : Exn) (cp : Checkpoint).

Definition checkpoint_of (o : Outcome) : Checkpoint :=
  match o with Committed cp | Raised _ cp => cp end.

Section Graph.

(** [llm_with_tools.invoke]: content and tool calls of the reply. *)
Variable llm : list Message -> string * list ToolCall.
(** The database behind [get_db_connection], as seen by one query. *)
Variable db : string -> DbReply.
(** The skill repository. *)
Variable get_skill : string -> RepoReply.
Variable list_skills : list Skill.

Definition load_skill (skill_name : string) : string :=
  match get_skill skill_name with
  | RepoRaise e => "Error loading skill: " +:+ e
  | RepoSkill (Some skill) =>
      if Py.truthy (sk_content skill) then sk_content skill
      else "Skill '" +:+ skill_name +:+ "' not found."
  | RepoSkill None => "Skill '" +:+ skill_name +:+ "' not found."
  end.

(** The rows the tool prints: [results[:10]], then the note on the
    omitted ones. *)
Definition shown_rows (results : list (list string)) : list string :=
  let rows := table_row <$> take 10 results in
  if decide (10 < length results)
  then rows ++ ["... (" +:+ pretty (length results - 10) +:+ " more rows)"]
  else rows.

Definition execute_postgres_query (query : string) : string :=
  match db query with
  | DbRaise e => "Error executing query: " +:+ e
  | DbDone description fetched =>
      let '(columns, results) := cursor_result description fetched in
      match results with
      | [] => "Query executed successfully per row count: 0"
      | _ :: _ =>
          Py.join Py.nl
            ([table_header columns; table_separator columns]
               ++ shown_rows results)
      end
  end.

(** [execute_query_locally] of the API: result text, structured data
    and error. *)
Definition execute_query_locally (query : string)
  : string * option (list string * list (list string)) * option string :=
  match db query with
  | DbRaise e => ("Error executing query: " +:+ e, None, Some e)
  | DbDone description fetched =>
      let '(columns, results) := cursor_result description fetched in
      match results with
      | [] => ("[Execution Result]: No results found.", None, None)
      | _ :: _ =>
          (Py.join Py.nl
             ([table_header columns; table_separator columns]
                ++ (table_row <$> results)),
           Some (columns, results), None)
      end
  end.

(** The registry [tools = [load_skill, execute_postgres_query]] as the
    prebuilt [ToolNode] dispatches on it: an unknown name is answered
    with an error text, never raised. *)
Definition run_tool (call : ToolCall) : Message :=
  let text :=
    if decide (tc_name call = "load_skill") then load_skill (tc_arg call)
    else if decide (tc_name call = Routing.execute_tool_name)
    then execute_postgres_query (tc_arg call)
    else "Error: " +:+ tc_name call +:+
         " is not a valid tool, try one of [load_skill, execute_postgres_query]."
  in ToolMessage text (tc_name call) (tc_id call).

Definition system_prompt : string :=
  let skills_descriptions :=
    (fun skill => "- **" +:+ sk_name skill +:+ "**: " +:+ sk_description skill)
      <$> list_skills in
  let skills_prompt := Py.join Py.nl skills_descriptions in
  "You are a SQL query assistant that helps users write queries against business databases."
    +:+ Py.nl +:+
  "You MUST output valid PostgreSQL queries." +:+ Py.nl +:+
  "You MUST wrap the proposed SQL query in a markdown block, e.g., ```sql ... ```."
    +:+ Py.nl +:+ Py.nl +:+
  "## Available Skills" +:+ Py.nl +:+ Py.nl +:+
  skills_prompt +:+ Py.nl +:+ Py.nl +:+
  "Use the load_skill tool when you need detailed information " +:+
  "about handling a specific type of request. " +:+
  "Do not guess the schema; always load the relevant skill first.".

(** [llm_with_tools.invoke(input)]: the reply, and the call as the
    journal keeps it. *)
Definition invoke (input : list Message)
  : list Event * (string * list ToolCall) :=
  ([ModelCall input], llm input).

(** [agent_node]: the update [{"messages": [response]}], the model being
    invoked on [[SystemMessage(content=system_prompt)] + messages]. *)
Definition agent_node (messages : AgentState) : list Event * list Message :=
  let '(evs, (text, calls)) :=
    invoke (SystemMessage system_prompt :: messages) in
  (evs, [AIMessage text calls]).

(** [human_approval_node]: [pass]. *)
Definition human_approval_node (messages : AgentState) : list Message := [].

(** [ToolNode(tools)]: every call of the last message is run, in call
    order, and answered by one [ToolMessage]; anything but an [AIMessage]
    in last place raises. *)
Definition tool_node (messages : AgentState)
  : Exn + (list Event * list Message) :=
  match last messages with
  | Some (AIMessage _ calls) => inr (ToolRun <$> calls, run_tool <$> calls)
  | _ => inl ValueError
  end.

(** One node: the events it leaves and its update to [messages]. *)
Definition run_node (n : Node) (messages : AgentState)
  : Exn + (list Event * list Message) :=
  match n with
  | agent =>
      let '(evs, update) := agent_node messages in
      inr (NodeRun agent :: evs, update)
  | tools =>
      match tool_node messages with
      | inl e => inl e
      | inr (evs, update) => inr (NodeRun tools :: evs, update)
      end
  | human_approval =>
      inr ([NodeRun human_approval], human_approval_node messages)
  end.

(** [add_conditional_edges]: the router attached to each node. *)
Definition router (n : Node) : AgentState -> option Target :=
  match n with
  | agent => Routing.should_continue
  | tools => Routing.route_tool_output
  | human_approval => Routing.check_approval_outcome
  end.

(** [compile(..., interrupt_before=["human_approval"])] *)
Definition interrupt_before (n : Node) : bool :=
  bool_decide (n = human_approval).

(** The engine's loop from node [n] on log [messages].  [limit] counts
    the steps left before [GraphRecursionError]; [resuming] is set on the
    first step of [stream(None, ...)], where the interrupt that stopped
    the previous run is not taken again. *)
Fixpoint pregel_loop (limit : nat) (resuming : bool) (n : Node)
    (messages : AgentState) : list Event * Outcome :=
  match limit with
  | 0 => ([], Raised GraphRecursionError
                {| values := messages; next := Some n |})
  | S limit' =>
      if interrupt_before n && negb resuming
      then ([], Committed {| values := messages; next := Some n |})
      else
        match run_node n messages with
        | inl e => ([NodeRun n],
                    Raised e {| values := messages; next := Some n |})
        | inr (evs, update) =>
            let messages' := messages ++ update in
            match router n messages' with
            | None => (evs, Raised IndexError
                              {| values := messages'; next := None |})
            | Some END =>
                (evs, Committed {| values := messages'; next := None |})
            | Some (To n') =>
                let '(evs', out) := pregel_loop limit' false n' messages' in
                (evs ++ evs', out)
            end
        end
  end.

(** [config["recursion_limit"]]: every call site builds its config as
    [{"configurable": {"thread_id": thread_id}}] and so leaves the
    engine's default in force.  The statements on runs hold for every
    limit; those on the endpoints use only that the limit allows the two
    steps of a resume ([recursion_limit_two_steps]). *)
Definition recursion_limit : nat := 25.

(** [graph.stream(inputs, config)] on the thread's checkpoint: with
    inputs, [START -> agent] on the extended log; with [None], the
    pending node is resumed. *)
Definition stream (cp : Checkpoint) (inputs : option (list Message))
  : list Event * Outcome :=
  match inputs with
  | Some new => pregel_loop recursion_limit false agent (values cp ++ new)
  | None =>
      match next cp with
      | Some n => pregel_loop recursion_limit true n (values cp)
      | None => ([], Committed cp)
      end
  end.

(** [graph.update_state(config, {"messages": new})] on a thread stopped
    before [human_approval]: the update is applied as a write of the node
    that ran last, which is [agent], and that node's conditional edge is
    evaluated again on the extended log. *)
Definition update_state (cp : Checkpoint) (new : list Message) : Checkpoint :=
  let messages := values cp ++ new in
  {| values := messages;
     next := match Routing.should_continue messages with
             | Some (To n) => Some n
             | _ => None
             end |}.

End Graph.

(** ** The HTTP layer ([api.py]) *)

Record ChatRequest := {
  message : string;
  thread_id : option string;
  auto_execute : bool
}.

Record ApprovalRequest := {
  decision : string;
  feedback : option string;
  approval_thread_id : string
}.

(** [ChatResponse]; its [tool_calls] field is never assigned and is left
    out. *)
Record ChatResponse := {
  resp_thread_id : string;
  response : string;
  status : string;
  structured_data : option (list string * list (list string));
  query : option string
}.

(** What the client receives: a response body, or an HTTP error
    ([HTTPException], or status 500 for an exception that escapes). *)
Inductive Reply :=
| Ok (r : ChatResponse)
| HttpError (status_code : nat) (detail : string).

(** The process state the endpoints act on: the [MemorySaver] behind
    [app.state.graph] and the journal of effects so far. *)
Record World := {
  threads : gmap string Checkpoint;
  journal : list Event
}.

Definition get_state (w : World) (tid : string) : Checkpoint :=
  default empty_checkpoint (threads w !! tid).

Definition put_state (w : World) (tid : string) (cp : Checkpoint)
    (evs : list Event) : World :=
  {| threads := <[tid := cp]> (threads w); journal := journal w ++ evs |}.

(** [snapshot.next and "human_approval" in snapshot.next] *)
Definition awaiting_approval (snapshot : Checkpoint) : bool :=
  bool_decide (next snapshot = Some human_approval).

Definition control_message : Message :=
  HumanMessage "<SYSTEM: Execution Completed Locally>".

Definition rejection_message (text : string) : Message :=
  HumanMessage ("Rejected. Feedback: " +:+ text).

Definition exn_text (e : Exn) : string :=
  match e with
  | IndexError => "list index out of range"
  | ValueError => "Last message is not an AIMessage"
  | GraphRecursionError =>
      "Recursion limit of " +:+ pretty recursion_limit
        +:+ " reached without hitting a stop condition."
  end.

Section Api.

Variable llm : list Message -> string * list ToolCall.
Variable db : string -> DbReply.
Variable get_skill : string -> RepoReply.
Variable list_skills : list Skill.

(** [list(graph.stream(inputs, config, ...))] against the store. *)
Definition run_stream (w : World) (tid : string)
    (inputs : option (list Message)) : World * Outcome :=
  let '(evs, out) :=
    stream llm db get_skill list_skills (get_state w tid) inputs in
  (put_state w tid (checkpoint_of out) evs, out).

(** [graph.update_state(config, {"messages": new})] against the store. *)
Definition run_update_state (w : World) (tid : string)
    (new : list Message) : World :=
  put_state w tid (update_state (get_state w tid) new) [].

(** [process_run]: an exception of the engine is logged and raised
    again.  A thread without messages is the [not snapshot.values]
    case. *)
Definition process_run (w : World) (tid : string)
    (inputs : option (list Message)) : World * Reply :=
  let '(w', out) := run_stream w tid inputs in
  match out with
  | Raised e _ => (w', HttpError 500 (exn_text e))
  | Committed _ =>
      let snapshot := get_state w' tid in
      let status :=
        if awaiting_approval snapshot then "approval_required" else "done" in
      match last (values snapshot) with
      | None =>
          (w', Ok {| resp_thread_id := tid;
                     response := "Error: No state found.";
                     status := "done";
                     structured_data := None; query := None |})
      | Some last_message =>
          (w', Ok {| resp_thread_id := tid;
                     response := content_of last_message;
                     status := status;
                     structured_data := None; query := None |})
      end
  end.

(** [execute_query_locally] with its journal entry. *)
Definition run_local_query (w : World) (q : string)
  : World * (string * option (list string * list (list string))
             * option string) :=
  ({| threads := threads w; journal := journal w ++ [LocalQuery q] |},
   execute_query_locally db q).

(** [if error:] on [Optional[str]]. *)
Definition error_set (error : option string) : option string :=
  match error with
  | Some e => if Py.truthy e then Some e else None
  | None => None
  end.

(** [request.thread_id or str(uuid.uuid4())]; [uuid4] is the identifier
    [uuid.uuid4()] would draw. *)
Definition chat_thread (uuid4 : string) (request : ChatRequest) : string :=
  match thread_id request with
  | Some t => if Py.truthy t then t else uuid4
  | None => uuid4
  end.

(** POST /chat, first part: the interrupt check and [process_run]. *)
Definition chat_run (uuid4 : string) (request : ChatRequest) (w : World)
  : World * Reply :=
  let tid := chat_thread uuid4 request in
  let snapshot := get_state w tid in
  let waiting := awaiting_approval snapshot in
  let w1 :=
    if waiting
    then run_update_state w tid [rejection_message (message request)]
    else w in
  let inputs :=
    if waiting then None else Some [HumanMessage (message request)] in
  process_run w1 tid inputs.

(** POST /chat, second part: the auto-execute logic on the response of
    [process_run]. *)
Definition auto_execute_logic (tid : string) (request : ChatRequest)
    (w2 : World) (chat_response : ChatResponse) : World * Reply :=
  if auto_execute request
     && bool_decide (status chat_response = "approval_required")
  then
    let content := response chat_response in
    let q := extract_query content in
    let '(w3, (result_text, data, error)) := run_local_query w2 q in
    match error_set error with
    | Some e =>
        (w3, Ok {| resp_thread_id := tid;
                   response := "Error executing query (Auto-Mode): " +:+ e;
                   status := "done";
                   structured_data := None; query := Some q |})
    | None =>
        let w4 := run_update_state w3 tid [control_message] in
        let '(w5, out) := run_stream w4 tid None in
        match out with
        | Raised e _ =>
            (w5, Ok {| resp_thread_id := tid;
                       response :=
                         "System Error during auto-execution: "
                           +:+ exn_text e;
                       status := "done";
                       structured_data := None; query := None |})
        | Committed _ =>
            (w5, Ok {| resp_thread_id := tid;
                       response :=
                         "**Auto Execution Result**:" +:+ Py.nl +:+ Py.nl
                           +:+ result_text;
                       status := "done";
                       structured_data := data; query := Some q |})
        end
    end
  else (w2, Ok chat_response).

(** POST /chat *)
Definition chat (uuid4 : string) (request : ChatRequest) (w : World)
  : World * Reply :=
  let '(w2, reply) := chat_run uuid4 request w in
  match reply with
  | HttpError _ _ => (w2, reply)
  | Ok chat_response =>
      auto_execute_logic (chat_thread uuid4 request) request w2 chat_response
  end.

(** [request.feedback or "Rejected."] *)
Definition feedback_or_default (fb : option string) : string :=
  match fb with
  | Some f => if Py.truthy f then f else "Rejected."
  | None => "Rejected."
  end.

(** POST /approval *)
Definition approval (request : ApprovalRequest) (w : World)
  : World * Reply :=
  let tid := approval_thread_id request in
  let snapshot := get_state w tid in
  if negb (awaiting_approval snapshot)
  then (w, HttpError 400 "Conversation is not waiting for approval.")
  else if decide (decision request = "approve") then
    match last (values snapshot) with
    | None => (w, HttpError 500 (exn_text IndexError))
    | Some last_msg =>
        let content := content_of last_msg in
        let q := extract_query content in
        let '(w1, (result_text, data, error)) := run_local_query w q in
        match error_set error with
        | Some e =>
            (w1, Ok {| resp_thread_id := tid;
                       response := "Error executing query: " +:+ e;
                       status := "done";
                       structured_data := None; query := Some q |})
        | None =>
            let w2 := run_update_state w1 tid [control_message] in
            let '(w3, out) := run_stream w2 tid None in
            match out with
            | Raised e _ => (w3, HttpError 500 (exn_text e))
            | Committed _ =>
                (w3, Ok {| resp_thread_id := tid;
                           response :=
                             "**Execution Result**:" +:+ Py.nl +:+ Py.nl
                               +:+ result_text;
                           status := "done";
                           structured_data := data; query := Some q |})
            end
        end
    end
  else
    let fb := feedback_or_default (feedback request) in
    let w1 := run_update_state w tid [rejection_message fb] in
    process_run w1 tid None.

(** The worlds the two endpoints can produce, starting from an empty
    store. *)
Inductive reachable : World -> Prop :=
| reachable_start : reachable {| threads := ∅; journal := [] |}
| reachable_chat (uuid4 : string) (request : ChatRequest) (w : World) :
    reachable w -> reachable (chat uuid4 request w).1
| reachable_approval (request : ApprovalRequest) (w : World) :
    reachable w -> reachable (approval request w).1.

End Api.

(** A checkpoint waiting for approval holds a proposal: its log ends with
    an [AIMessage] without tool calls. *)
Definition holds_proposal (cp : Checkpoint) : Prop :=
  next cp = Some human_approval ->
  exists pre text, values cp = pre ++ [AIMessage text []].

(** Append-only growth of the journal and of a thread's log. *)
Definition grows (tid : string) (w w' : World) : Prop :=
  journal w `prefix_of` journal w'
  /\ values (get_state w tid) `prefix_of` values (get_state w' tid).

(** ** The skill repository ([skills/repository.py]) *)

Module Repository.

(** What [pathlib] shows of the skills directory: a regular file with
    its (decoded) text, or a directory with its entries in the order
    [iterdir] yields them.  A name stands for one path component. *)
#[warnings="-register-all"] Inductive Entry :=
| File (text : string)
| Dir (children : list (string * Entry)).

(** [skill_name] is one path component: not empty, not [.] or [..], and
    without separator; [skills_dir / skill_name] then names an entry of
    the directory itself. *)
Definition plain_name (name : string) : bool :=
  negb (Py.contains "/" name)
  && negb (bool_decide (name = EmptyString))
  && negb (bool_decide (name = "."))
  && negb (bool_decide (name = "..")).

(** [dir / name], when it exists. *)
Fixpoint child (name : string) (children : list (string * Entry))
  : option Entry :=
  match children with
  | [] => None
  | (n, e) :: rest => if decide (n = name) then Some e else child name rest
  end.

Definition is_dir (e : Entry) : bool :=
  match e with Dir _ => true | File _ => false end.

(** An entry that [list_skills] turns into a skill: a directory whose
    name does not start with two underscores and that holds a regular
    file description.txt. *)
Definition lists_as (name : string) (item : Entry) (skill : Skill) : Prop :=
  exists files d,
    item = Dir files
    /\ String.prefix "__" name = false
    /\ child "description.txt" files = Some (File d)
    /\ skill = {| sk_name := name; sk_description := Py.strip d;
                  sk_content := EmptyString |}.

(** What the file system guarantees of a directory: entries have
    distinct names, each one path component. *)
Definition well_formed (children : list (string * Entry)) : Prop :=
  NoDup children.*1 /\ Forall (fun n => plain_name n = true) children.*1.

Section Reading.

(** [str(e)] of the [OSError] that [read_text] raises on the directory
    of that name. *)
Variable read_error : string -> string.

(** [path.read_text(encoding="utf-8")] for an existing entry. *)
Definition read_text (name : string) (e : Entry) : string + string :=
  match e with
  | File text => inr text
  | Dir _ => inl (read_error name)
  end.

(** The loop body of [list_skills] on one entry: the skill to append, if
    any, or the exception. *)
Definition skill_of_entry (name : string) (item : Entry)
  : string + option Skill :=
  match item with
  | Dir files =>
      if String.prefix "__" name then inr None
      else
        match child "description.txt" files with
        | Some d =>
            match read_text "description.txt" d with
            | inl e => inl e
            | inr text =>
                inr (Some {| sk_name := name;
                             sk_description := Py.strip text;
                             sk_content := EmptyString |})
            end
        | None => inr None
        end
  | File _ => inr None
  end.

Fixpoint scan (children : list (string * Entry)) (skills : list Skill)
  : string + list Skill :=
  match children with
  | [] => inr skills
  | (name, item) :: rest =>
      match skill_of_entry name item with
      | inl e => inl e
      | inr (Some skill) => scan rest (skills ++ [skill])
      | inr None => scan rest skills
      end
  end.

(** [SkillRepository.list_skills].  [skills_dir] is the parent of the
    module's own file: its entries, or [None] when it does not exist. *)
Definition list_skills (skills_dir : option (list (string * Entry)))
  : string + list Skill :=
  match skills_dir with
  | None => inr []
  | Some children => scan children []
  end.

(** [SkillRepository.get_skill], for a plain [skill_name]. *)
Definition get_skill (skills_dir : option (list (string * Entry)))
    (skill_name : string) : RepoReply :=
  match skills_dir with
  | Some children =>
      match child skill_name children with
      | Some (Dir files) =>
          match child "description.txt" files, child "content.md" files with
          | Some d, Some c =>
              match read_text "description.txt" d with
              | inl e => RepoRaise e
              | inr description =>
                  match read_text "content.md" c with
                  | inl e => RepoRaise e
                  | inr content =>
                      RepoSkill
                        (Some {| sk_name := skill_name;
                                 sk_description := Py.strip description;
                                 sk_content := Py.strip content |})
                  end
              end
          | _, _ => RepoSkill None
          end
      | _ => RepoSkill None
      end
  | None => RepoSkill None
  end.

(** [SkillRepository.get_skill_names] *)
Definition get_skill_names (skills_dir : option (list (string * Entry)))
  : string + string :=
  match list_skills skills_dir with
  | inl e => inl e
  | inr skills => inr (Py.join ", " (sk_name <$> skills))
  end.

End Reading.

End Repository.

(** ** The connection pool ([database.py]) *)

Module Database.

Section Pooling.

(** The pool object of [psycopg2] and its connections stay abstract; the
    three methods used are given by their effect on the pool and their
    result, an exception being its [str(e)]. *)
Variables (Pool Conn : Type).
(** [get_settings()] and [ThreadedConnectionPool(minconn=1, maxconn=20,
    ...)]: the new pool or the exception. *)
Variable new_pool : string + Pool.
Variable getconn : Pool -> Pool * (string + Conn).
Variable putconn : Pool -> Conn -> Pool * (string + unit).
Variable closeall : Pool -> Pool * (string + unit).

(** The calls made to the library, in order. *)
Inductive Call :=
| NewPool
| NewPoolFailed
| GetFailed
| Got (c : Conn)
| Put (c : Conn)
| CloseAll.

(** [DatabasePool._pool] *)
Definition State : Type := option Pool.

(** [DatabasePool.initialize] *)
Definition initialize (st : State) : State * list Call * (string + unit) :=
  match st with
  | Some _ => (st, [], inr tt)
  | None =>
      match new_pool with
      | inl e => (None, [NewPoolFailed], inl e)
      | inr p => (Some p, [NewPool], inr tt)
      end
  end.

(** [DatabasePool.get_pool]: the state afterwards is the pool returned. *)
Definition get_pool (st : State) : State * list Call * (string + unit) :=
  match st with
  | Some _ => (st, [], inr tt)
  | None => initialize st
  end.

(** [DatabasePool.close_all]: the attribute keeps the closed pool. *)
Definition close_all (st : State) : State * list Call * (string + unit) :=
  match st with
  | Some p =>
      let '(p', r) := closeall p in (Some p', [CloseAll], r)
  | None => (None, [], inr tt)
  end.

(** [with get_db_connection() as conn: body]: the connection is handed
    back in the [finally] clause; an exception of [putconn] replaces the
    outcome of the body. *)
Definition with_db_connection {A : Type} (body : Conn -> string + A)
    (st : State) : State * list Call * (string + A) :=
  match get_pool st with
  | (st1, evs, inl e) => (st1, evs, inl e)
  | (None, evs, inr _) =>
      (None, evs, inl "'NoneType' object has no attribute 'getconn'")
  | (Some p, evs, inr _) =>
      match getconn p with
      | (p1, inl e) => (Some p1, evs ++ [GetFailed], inl e)
      | (p1, inr conn) =>
          let r := body conn in
          match putconn p1 conn with
          | (p2, inl e) => (Some p2, evs ++ [Got conn; Put conn], inl e)
          | (p2, inr _) => (Some p2, evs ++ [Got conn; Put conn], r)
          end
      end
  end.

(** The operations a caller can perform, and a sequence of them. *)
Inductive Op :=
| OpInitialize
| OpGetPool
| OpCloseAll
| OpWith (body : Conn -> string + unit).

Definition run_op (o : Op) (st : State) : State * list Call :=
  match o with
  | OpInitialize => (initialize st).1
  | OpGetPool => (get_pool st).1
  | OpCloseAll => (close_all st).1
  | OpWith body => (with_db_connection body st).1
  end.

Fixpoint run_ops (ops : list Op) (st : State) : State * list Call :=
  match ops with
  | [] => (st, [])
  | o :: rest =>
      let '(st1, evs1) := run_op o st in
      let '(st2, evs2) := run_ops rest st1 in
      (st2, evs1 ++ evs2)
  end.

Definition pools_created (evs : list Call) : nat :=
  length (omap (fun e => match e with NewPool => Some tt | _ => None end) evs).

End Pooling.

Arguments NewPool {Conn}.
Arguments NewPoolFailed {Conn}.
Arguments GetFailed {Conn}.
Arguments Got {Conn} c.
Arguments Put {Conn} c.
Arguments CloseAll {Conn}.
Arguments OpInitialize {Conn}.
Arguments OpGetPool {Conn}.
Arguments OpCloseAll {Conn}.
Arguments OpWith {Conn} body.

End Database.

(** ** Vocabulary of the further statements *)

(** The messages a node of the graph writes: the agent's reply and the
    tool results. *)
Definition written_by_node (m : Message) : bool :=
  match m with
  | AIMessage _ _ | ToolMessage _ _ _ => true
  | HumanMessage _ | SystemMessage _ => false
  end.

Definition is_node_run (e : Event) : bool :=
  match e with NodeRun _ => true | _ => false end.

(** ** Concrete collaborators and worlds used in the examples *)

Module Scenario.

Definition silent_repo : string -> RepoReply := fun _ => RepoSkill None.

(** A model that answers in prose, without tool calls. *)
Definition plain_llm : list Message -> string * list ToolCall :=
  fun _ => ("Hello", []).

Definition one_row_db : string -> DbReply :=
  fun _ => DbDone (Some ["n"]) [["1"]].

Definition twelve_rows_db : string -> DbReply :=
  fun _ => DbDone (Some ["n"]) (replicate 12 ["1"]).

Definition empty_db : string -> DbReply :=
  fun _ => DbDone (Some ["n"]) [].

Definition failing_db : string -> DbReply :=
  fun _ => DbRaise "relation orders does not exist".

Definition proposal : Message := AIMessage "```sql SELECT 1```" [].

Definition suspended_checkpoint : Checkpoint :=
  {| values := [HumanMessage "show 3 orders"] ++ [proposal];
     next := Some human_approval |}.

Definition idle_world : World := {| threads := ∅; journal := [] |}.

(** A model that proposes a query at once. *)
Definition proposing_llm : list Message -> string * list ToolCall :=
  fun _ => ("```sql SELECT 1```", []).

(** The world after a first chat turn on thread T1: the proposal waits
    for approval. *)
Definition suspended_world : World :=
  (chat proposing_llm one_row_db silent_repo [] "T1"
     {| message := "show 3 orders"; thread_id := None;
        auto_execute := false |}
     idle_world).1.

Definition newline : string := String "010"%char EmptyString.

(** A proposal as the system prompt asks for it: the query in a block
    tagged [sql], between two lines of prose. *)
Definition fenced_text : string :=
  "Here is the query:" +:+ newline +:+ "```sql" +:+ newline
    +:+ "SELECT * FROM orders LIMIT 3;" +:+ newline +:+ "```" +:+ newline
    +:+ "Shall I run it?".

Definition fenced_llm : list Message -> string * list ToolCall :=
  fun _ => (fenced_text, []).

(** The world after a first chat turn on thread T1 with that model. *)
Definition fenced_world : World :=
  (chat fenced_llm one_row_db silent_repo [] "T1"
     {| message := "show 3 orders"; thread_id := None;
        auto_execute := false |}
     idle_world).1.

(** A proposal without fenced block. *)
Definition bare_text : string :=
  "  SELECT 2 " +:+ newline.

Definition bare_llm : list Message -> string * list ToolCall :=
  fun _ => (bare_text, []).

Definition run_query_call : ToolCall :=
  {| tc_name := "execute_postgres_query"; tc_arg := "SELECT 1";
     tc_id := "call_1" |}.

Definition load_skill_call : ToolCall :=
  {| tc_name := "load_skill"; tc_arg := "sales_analytics";
     tc_id := "call_2" |}.

(** A model that asks for the query and for a skill in one reply, and
    answers in prose once the results are in the log. *)
Definition two_calls_llm : list Message -> string * list ToolCall :=
  fun input =>
    match last input with
    | Some (HumanMessage _) => ("Running.", [run_query_call; load_skill_call])
    | _ => ("Done.", [])
    end.

(** The world after a first chat turn on thread T2 with the model that
    answers in prose. *)
Definition greeted_world : World :=
  (chat plain_llm one_row_db silent_repo [] "T2"
     {| message := "hi"; thread_id := None; auto_execute := false |}
     idle_world).1.

End Scenario.

(** ** Further concrete collaborators *)

Module Sample.

Definition sales_skill : Skill :=
  {| sk_name := "sales_analytics";
     sk_description := "Database schema for sales";
     sk_content := "CREATE TABLE orders (order_id SERIAL)" |}.

Definition hollow_skill : Skill :=
  {| sk_name := "hollow"; sk_description := "Nothing yet";
     sk_content := EmptyString |}.

(** A repository with one full skill, one skill without content, and a
    name on which it fails. *)
Definition small_repo (name : string) : RepoReply :=
  if decide (name = "sales_analytics") then RepoSkill (Some sales_skill)
  else if decide (name = "hollow") then RepoSkill (Some hollow_skill)
  else if decide (name = "broken") then RepoRaise "Permission denied"
  else RepoSkill None.

Definition two_rows_db : string -> DbReply :=
  fun _ => DbDone (Some ["id"; "total"]) [["1"; "9.5"]; ["2"; "12"]].

(** Twelve rows of two columns. *)
Definition city_rows : list (list string) :=
  [ ["1"; "Oslo"]; ["2"; "Rome"]; ["3"; "Lima"]; ["4"; "Kiev"];
    ["5"; "Bonn"]; ["6"; "Bern"]; ["7"; "Doha"]; ["8"; "Riga"];
    ["9"; "Baku"]; ["10"; "Nice"]; ["11"; "Linz"]; ["12"; "Graz"] ].

Definition cities_db : string -> DbReply :=
  fun _ => DbDone (Some ["id"; "city"]) city_rows.

(** A statement without result set: [cursor.description] is [None]. *)
Definition no_result_set_db : string -> DbReply :=
  fun _ => DbDone None [].

(** A database that raises an exception whose text is empty. *)
Definition mute_failing_db : string -> DbReply :=
  fun _ => DbRaise EmptyString.

(** A skills directory as the repository ships it, with the module's own
    file, a cache directory, a directory without description and a skill
    without content. *)
Definition skills_dir : list (string * Repository.Entry) :=
  [ ("__pycache__",
     Repository.Dir [("description.txt", Repository.File "cache")]);
    ("repository.py", Repository.File "class SkillRepository");
    ("sales_analytics",
     Repository.Dir
       [("description.txt", Repository.File " Database schema for sales ");
        ("content.md", Repository.File " CREATE TABLE orders (id INT) ")]);
    ("drafts", Repository.Dir [("notes.txt", Repository.File "todo")]);
    ("inventory_management",
     Repository.Dir [("description.txt", Repository.File "Stock levels")]) ].

Definition os_error (name : string) : string :=
  "[Errno 21] Is a directory: " +:+ name.

End Sample.

(** ** Further concrete worlds *)

Module SampleWorlds.

Definition first_request : ChatRequest :=
  {| message := "show 3 orders"; thread_id := None; auto_execute := false |}.

Definition auto_request : ChatRequest :=
  {| message := "show 3 orders"; thread_id := None; auto_execute := true |}.

Definition approve_t1 : ApprovalRequest :=
  {| decision := "approve"; feedback := None; approval_thread_id := "T1" |}.

(** The world after a first chat turn on thread T1 with a model that
    proposes a query at once, over database [db]. *)
Definition waiting_world (db : string -> DbReply) : World :=
  (chat Scenario.proposing_llm db Scenario.silent_repo [] "T1"
     first_request Scenario.idle_world).1.

End SampleWorlds.

(** ** A concrete pool for the examples *)

Module SamplePool.

(** A pool that counts the connections it has handed out and refuses
    once it is closed. *)
Definition pool : Type := nat * bool.

Definition new_pool : string + pool := inr (0, false).

Definition getconn (p : pool) : pool * (string + nat) :=
  if p.2 then (p, inl "connection pool is closed")
  else ((S p.1, p.2), inr p.1).

Definition putconn (p : pool) (c : nat) : pool * (string + unit) :=
  if p.2 then (p, inl "connection pool is closed")
  else ((pred p.1, p.2), inr tt).

Definition closeall (p : pool) : pool * (string + unit) :=
  if p.2 then (p, inl "connection pool is closed")
  else ((p.1, true), inr tt).

Definition failing_body (c : nat) : string + unit := inl "syntax error".

Definition session : list (@Database.Op nat) :=
  [ Database.OpWith failing_body; Database.OpCloseAll;
    Database.OpInitialize; Database.OpWith failing_body ].

End SamplePool.

(** * Properties *)

(** ** Text and the fence pattern *)

Section TextFacts.

Lemma sapp_nil_l (s : string) : EmptyString +:+ s = s.
Proof. reflexivity. Qed.

Lemma sapp_cons (c : ascii) (s t : string) :
  String c s +:+ t = String c (s +:+ t).
Proof. reflexivity. Qed.

Lemma sapp_assoc (s t u : string) : (s +:+ t) +:+ u = s +:+ t +:+ u.
Proof.
  induction s as [|c s IH]; [reflexivity|].
  rewrite !sapp_cons, IH. reflexivity.
Qed.

Lemma strip_prefix_Some (p s r : string) :
  Py.strip_prefix p s = Some r <-> s = p +:+ r.
Proof.
  revert s. induction p as [|a p IH]; intros s.
  - destruct s; simpl; rewrite sapp_nil_l; split; congruence.
  - destruct s as [|b s]; simpl.
    + rewrite sapp_cons. split; discriminate.
    + rewrite sapp_cons. destruct (decide (a = b)) as [->|Hne].
      * rewrite IH. split; congruence.
      * split; [discriminate|]. congruence.
Qed.

Lemma strip_prefix_app (p r : string) : Py.strip_prefix p (p +:+ r) = Some r.
Proof. apply strip_prefix_Some. reflexivity. Qed.

Lemma contains_unfold (p s : string) :
  Py.contains p s =
  match Py.strip_prefix p s with
  | Some _ => true
  | None => match s with
            | EmptyString => false
            | String _ s' => Py.contains p s'
            end
  end.
Proof. destruct s; reflexivity. Qed.

Lemma contains_true (p s : string) :
  Py.contains p s = true <-> exists a b, s = a +:+ p +:+ b.
Proof.
  split.
  - induction s as [|c s IH]; simpl.
    + destruct (Py.strip_prefix p EmptyString) as [r|] eqn:Hp; [|discriminate].
      intros _. apply strip_prefix_Some in Hp. exists EmptyString, r. exact Hp.
    + destruct (Py.strip_prefix p (String c s)) as [r|] eqn:Hp.
      * intros _. apply strip_prefix_Some in Hp. exists EmptyString, r. exact Hp.
      * intros H. destruct (IH H) as (a & b & ->).
        exists (String c a), b. reflexivity.
  - intros (a & b & ->). induction a as [|c a IH].
    + rewrite sapp_nil_l, contains_unfold, strip_prefix_app. reflexivity.
    + rewrite sapp_cons, contains_unfold.
      destruct (Py.strip_prefix p _); [reflexivity|exact IH].
Qed.

(** *** The matcher against fenced text *)

Lemma fence_head (c : ascii) (a rest r : string) :
  Py.strip_prefix Re.fence (String c a +:+ Re.fence +:+ rest) = Some r ->
  Py.contains Re.fence (String c a +:+ "``") = true.
Proof.
  intros H. apply strip_prefix_Some in H. unfold Re.fence in *.
  destruct a as [|c2 [|c3 a]]; unfold String.append in H.
  - injection H as -> _. reflexivity.
  - injection H as -> -> _. reflexivity.
  - injection H as -> -> -> _.
    apply contains_true. exists EmptyString, (a +:+ "``"). reflexivity.
Qed.

Lemma contains_tail (p : string) (c : ascii) (s : string) :
  Py.contains p (String c s) = false -> Py.contains p s = false.
Proof.
  rewrite (contains_unfold p (String c s)).
  destruct (Py.strip_prefix p (String c s)); [discriminate|auto].
Qed.

Lemma lazy_until_fence_unfold (s : string) :
  Re.lazy_until_fence s =
  match Py.strip_prefix Re.fence s with
  | Some _ => Some EmptyString
  | None => match s with
            | EmptyString => None
            | String c s' => String c <$> Re.lazy_until_fence s'
            end
  end.
Proof. destruct s; reflexivity. Qed.

(** The lazy group stops at the first closing fence. *)
Lemma lazy_until_fence_first (body post : string) :
  Py.contains Re.fence (body +:+ "``") = false ->
  Re.lazy_until_fence (body +:+ Re.fence +:+ post) = Some body.
Proof.
  induction body as [|c body IH]; intros Hno.
  - rewrite sapp_nil_l, lazy_until_fence_unfold, strip_prefix_app.
    reflexivity.
  - rewrite lazy_until_fence_unfold.
    destruct (Py.strip_prefix Re.fence (String c body +:+ Re.fence +:+ post))
      as [r|] eqn:Hp.
    + apply fence_head in Hp. congruence.
    + rewrite sapp_cons, IH; [reflexivity|].
      rewrite sapp_cons in Hno. exact (contains_tail _ _ _ Hno).
Qed.

(** Whatever the lazy group returns is followed by a fence. *)
Lemma lazy_until_fence_sound (s g : string) :
  Re.lazy_until_fence s = Some g ->
  exists post, s = g +:+ Re.fence +:+ post.
Proof.
  revert g. induction s as [|c s IH]; intros g; rewrite lazy_until_fence_unfold.
  - destruct (Py.strip_prefix Re.fence EmptyString) as [r|] eqn:Hp; [|discriminate].
    intros [= <-]. apply strip_prefix_Some in Hp. exists r. exact Hp.
  - destruct (Py.strip_prefix Re.fence (String c s)) as [r|] eqn:Hp.
    + intros [= <-]. apply strip_prefix_Some in Hp. exists r. exact Hp.
    + destruct (Re.lazy_until_fence s) as [g'|]; [|discriminate].
      intros [= <-]. destruct (IH g' eq_refl) as [post ->].
      exists post. reflexivity.
Qed.

Lemma lazy_until_fence_None_tag (r' : string) :
  Re.lazy_until_fence r' = None -> Re.lazy_until_fence ("sql" +:+ r') = None.
Proof.
  intros H.
  change ("sql" +:+ r') with (String "s" (String "q" (String "l" r'))).
  do 3 (rewrite lazy_until_fence_unfold; simpl Py.strip_prefix; cbv iota).
  rewrite H. reflexivity.
Qed.

Lemma sql_tag_inside (body post r' : string) :
  Py.strip_prefix "sql" (body +:+ Re.fence +:+ post) = Some r' ->
  exists b', body = "sql" +:+ b' /\ r' = b' +:+ Re.fence +:+ post.
Proof.
  intros H. apply strip_prefix_Some in H. unfold Re.fence in *.
  destruct body as [|c1 [|c2 [|c3 b']]]; unfold String.append in H;
    try discriminate.
  injection H as -> -> -> H. exists b'. split; [reflexivity|].
  symmetry. exact H.
Qed.

Lemma block_content_untagged (body post : string) :
  Py.strip_prefix "sql" (body +:+ Re.fence +:+ post) = None ->
  block_content body = body.
Proof.
  intros H. unfold block_content.
  destruct (Py.strip_prefix "sql" body) as [b'|] eqn:Hb; [|reflexivity].
  apply strip_prefix_Some in Hb. subst body.
  rewrite sapp_assoc, strip_prefix_app in H. discriminate.
Qed.

Lemma match_here_block (body post : string) :
  Py.contains Re.fence (body +:+ "``") = false ->
  Re.match_here (Re.fence +:+ body +:+ Re.fence +:+ post)
  = Some (block_content body).
Proof.
  intros Hno. unfold Re.match_here. rewrite strip_prefix_app.
  destruct (Py.strip_prefix "sql" (body +:+ Re.fence +:+ post))
    as [r'|] eqn:Htag.
  - apply sql_tag_inside in Htag as (b' & -> & ->).
    unfold block_content. rewrite strip_prefix_app. cbn [default].
    rewrite lazy_until_fence_first; [reflexivity|].
    change ("sql" +:+ b') with (String "s" (String "q" (String "l" b'))) in Hno.
    rewrite !sapp_cons in Hno.
    do 3 apply contains_tail in Hno. exact Hno.
  - rewrite (block_content_untagged _ _ Htag).
    apply lazy_until_fence_first. exact Hno.
Qed.

Lemma match_here_fence (s g : string) :
  Re.match_here s = Some g ->
  exists body post, s = Re.fence +:+ body +:+ Re.fence +:+ post.
Proof.
  unfold Re.match_here.
  destruct (Py.strip_prefix Re.fence s) as [r|] eqn:Hr; [|discriminate].
  apply strip_prefix_Some in Hr. subst s.
  assert (Hlazy : forall g', Re.lazy_until_fence r = Some g' ->
            exists body post,
              Re.fence +:+ r = Re.fence +:+ body +:+ Re.fence +:+ post).
  { intros g' Hg. apply lazy_until_fence_sound in Hg as [post ->].
    exists g', post. reflexivity. }
  destruct (Py.strip_prefix "sql" r) as [r'|] eqn:Htag; [|apply Hlazy].
  destruct (Re.lazy_until_fence r') as [g'|] eqn:Hg; [|apply Hlazy].
  intros _. apply strip_prefix_Some in Htag. subst r.
  apply lazy_until_fence_sound in Hg as [post ->].
  exists ("sql" +:+ g'), post. rewrite sapp_assoc. reflexivity.
Qed.

Lemma search_unfold (s : string) :
  Re.search s =
  match Re.match_here s with
  | Some g => Some g
  | None => match s with
            | EmptyString => None
            | String _ s' => Re.search s'
            end
  end.
Proof. destruct s; reflexivity. Qed.

(** The search returns the first fenced block of the text. *)
Lemma search_first_block (pre body post : string) :
  Py.contains Re.fence (pre +:+ "``") = false ->
  Py.contains Re.fence (body +:+ "``") = false ->
  Re.search (pre +:+ Re.fence +:+ body +:+ Re.fence +:+ post)
  = Some (block_content body).
Proof.
  intros Hpre Hbody. induction pre as [|c pre IH].
  - rewrite sapp_nil_l, search_unfold, match_here_block by exact Hbody.
    reflexivity.
  - rewrite search_unfold.
    destruct (Re.match_here _) as [g|] eqn:Hm.
    + exfalso. unfold Re.match_here in Hm.
      destruct (Py.strip_prefix Re.fence
                  (String c pre +:+ Re.fence +:+ body +:+ Re.fence +:+ post))
        as [r|] eqn:Hp; [|discriminate].
      apply fence_head in Hp. congruence.
    + rewrite sapp_cons. apply IH.
      rewrite sapp_cons in Hpre. exact (contains_tail _ _ _ Hpre).
Qed.

(** The search succeeds only on a text with a fenced block. *)
Lemma search_sound (s g : string) :
  Re.search s = Some g -> has_fenced_block s.
Proof.
  induction s as [|c s IH]; rewrite search_unfold.
  - destruct (Re.match_here EmptyString) as [g'|] eqn:Hm; [|discriminate].
    intros _. apply match_here_fence in Hm as (body & post & Hs).
    exists EmptyString, body, post. exact Hs.
  - destruct (Re.match_here (String c s)) as [g'|] eqn:Hm.
    + intros _. apply match_here_fence in Hm as (body & post & Hs).
      exists EmptyString, body, post. exact Hs.
    + intros H. destruct (IH H) as (pre & body & post & ->).
      exists (String c pre), body, post. reflexivity.
Qed.

Lemma extract_query_first_block (pre body post : string) :
  Py.contains Re.fence (pre +:+ "``") = false ->
  Py.contains Re.fence (body +:+ "``") = false ->
  extract_query (pre +:+ Re.fence +:+ body +:+ Re.fence +:+ post)
  = Py.strip (block_content body).
Proof.
  intros Hpre Hbody. unfold extract_query.
  rewrite search_first_block by assumption. reflexivity.
Qed.

Lemma extract_query_no_block (text : string) :
  ~ has_fenced_block text -> extract_query text = Py.strip text.
Proof.
  intros Hno. unfold extract_query.
  destruct (Re.search text) as [g|] eqn:Hs; [|reflexivity].
  exfalso. exact (Hno (search_sound _ _ Hs)).
Qed.

(** *** Stripping *)

Lemma lstrip_head (s : string) (c : ascii) (t : string) :
  Py.lstrip s = String c t -> Py.isspace c = false.
Proof.
  induction s as [|a s IH]; cbn [Py.lstrip]; [discriminate|].
  destruct (Py.isspace a) eqn:Ha; [exact IH|].
  intros [= -> _]. exact Ha.
Qed.

Lemma rstrip_head (s : string) (c : ascii) (t : string) :
  Py.isspace c = false ->
  exists t', Py.rstrip (String c t) = String c t'.
Proof.
  intros Hc. cbn [Py.rstrip]. destruct (Py.rstrip t) as [|a r].
  - rewrite Hc. eauto.
  - eauto.
Qed.

Lemma rstrip_last (s pre : string) (c : ascii) :
  Py.rstrip s = pre +:+ String c EmptyString -> Py.isspace c = false.
Proof.
  revert pre. induction s as [|a s IH]; intros pre; cbn [Py.rstrip].
  - destruct pre; discriminate.
  - destruct (Py.rstrip s) as [|b r] eqn:Hr.
    + destruct (Py.isspace a) eqn:Ha.
      * destruct pre; discriminate.
      * destruct pre as [|p [|p' pre]]; try discriminate.
        intros [= ->]. exact Ha.
    + destruct pre as [|p pre].
      * discriminate.
      * rewrite sapp_cons. intros [= _ H]. exact (IH pre H).
Qed.

Lemma rstrip_idempotent (s : string) : Py.rstrip (Py.rstrip s) = Py.rstrip s.
Proof.
  induction s as [|a s IH]; [reflexivity|]. cbn [Py.rstrip].
  destruct (Py.rstrip s) as [|b r] eqn:Hr.
  - destruct (Py.isspace a) eqn:Ha; [reflexivity|].
    cbn [Py.rstrip]. rewrite Ha. reflexivity.
  - change (Py.rstrip (String a (String b r)))
      with (match Py.rstrip (String b r) with
            | EmptyString =>
                if Py.isspace a then EmptyString else String a EmptyString
            | r' => String a r'
            end).
    rewrite IH. reflexivity.
Qed.

Lemma strip_idempotent (s : string) : Py.strip (Py.strip s) = Py.strip s.
Proof.
  unfold Py.strip. destruct (Py.lstrip s) as [|c t] eqn:Hl; [reflexivity|].
  pose proof (lstrip_head _ _ _ Hl) as Hc.
  destruct (rstrip_head t c t Hc) as [t' Ht]. rewrite Ht.
  cbn [Py.lstrip]. rewrite Hc, <- Ht. apply rstrip_idempotent.
Qed.

Lemma rstrip_cons (c : ascii) (s : string) :
  Py.rstrip (String c s)
  = match Py.rstrip s with
    | EmptyString => if Py.isspace c then EmptyString else String c EmptyString
    | r => String c r
    end.
Proof. reflexivity. Qed.

Lemma lstrip_split (s : string) :
  exists l, s = l +:+ Py.lstrip s /\ blank l = true.
Proof.
  induction s as [|c s IH]; [exists EmptyString; split; reflexivity|].
  cbn [Py.lstrip]. destruct (Py.isspace c) eqn:Hc.
  - destruct IH as (l & Hs & Hl). exists (String c l). split.
    + rewrite sapp_cons, <- Hs. reflexivity.
    + cbn [blank]. rewrite Hc, Hl. reflexivity.
  - exists EmptyString. split; reflexivity.
Qed.

Lemma rstrip_split (s : string) :
  exists r, s = Py.rstrip s +:+ r /\ blank r = true.
Proof.
  induction s as [|c s IH]; [exists EmptyString; split; reflexivity|].
  destruct IH as (r & Hs & Hr). rewrite rstrip_cons.
  destruct (Py.rstrip s) as [|b t] eqn:Ht.
  - rewrite sapp_nil_l in Hs. subst r.
    destruct (Py.isspace c) eqn:Hc.
    + exists (String c s). split; [reflexivity|].
      cbn [blank]. rewrite Hc, Hr. reflexivity.
    + exists s. split; [reflexivity|exact Hr].
  - exists r. split; [|exact Hr]. rewrite sapp_cons, <- Hs. reflexivity.
Qed.

(** [Py.strip] removes white space at both ends, and nothing else. *)
Lemma strip_spec (s : string) : stripped_from s (Py.strip s).
Proof.
  unfold stripped_from, Py.strip. split; [|split].
  - destruct (lstrip_split s) as (l & Hs & Hl).
    destruct (rstrip_split (Py.lstrip s)) as (r & Hm & Hr).
    exists l, r. split; [|split; assumption].
    rewrite <- Hm. exact Hs.
  - intros c q' H.
    destruct (Py.lstrip s) as [|a t] eqn:Hl; [discriminate|].
    pose proof (lstrip_head _ _ _ Hl) as Ha.
    destruct (rstrip_head t a t Ha) as [t' Ht]. rewrite Ht in H.
    injection H as <- _. exact Ha.
  - intros q' c H. exact (rstrip_last _ _ _ H).
Qed.

Lemma lstrip_blank_app (l x : string) :
  blank l = true -> Py.lstrip (l +:+ x) = Py.lstrip x.
Proof.
  induction l as [|c l IH]; [reflexivity|]. cbn [blank].
  intros H. apply andb_true_iff in H as [Hc Hl].
  rewrite sapp_cons. cbn [Py.lstrip]. rewrite Hc. exact (IH Hl).
Qed.

Lemma lstrip_blank (r : string) : blank r = true -> Py.lstrip r = EmptyString.
Proof.
  induction r as [|c r IH]; [reflexivity|]. cbn [blank].
  intros H. apply andb_true_iff in H as [Hc Hr].
  cbn [Py.lstrip]. rewrite Hc. exact (IH Hr).
Qed.

Lemma rstrip_blank (r : string) : blank r = true -> Py.rstrip r = EmptyString.
Proof.
  induction r as [|c r IH]; [reflexivity|]. cbn [blank].
  intros H. apply andb_true_iff in H as [Hc Hr].
  rewrite rstrip_cons, (IH Hr), Hc. reflexivity.
Qed.

Lemma rstrip_app_blank (q r : string) :
  blank r = true -> Py.rstrip (q +:+ r) = Py.rstrip q.
Proof.
  intros Hr. induction q as [|c q IH].
  - rewrite sapp_nil_l. exact (rstrip_blank r Hr).
  - rewrite sapp_cons, !rstrip_cons, IH. reflexivity.
Qed.

Lemma rstrip_fixed (q : string) :
  (forall q' c, q = q' +:+ String c EmptyString -> Py.isspace c = false) ->
  Py.rstrip q = q.
Proof.
  induction q as [|a q IH]; intros Hlast; [reflexivity|].
  rewrite rstrip_cons. destruct q as [|b q'].
  - cbn [Py.rstrip]. rewrite (Hlast EmptyString a eq_refl). reflexivity.
  - rewrite IH; [reflexivity|].
    intros q'' c H. apply (Hlast (String a q'') c).
    rewrite sapp_cons, <- H. reflexivity.
Qed.

(** What [stripped_from] describes is one string. *)
Lemma stripped_from_unique (s q : string) :
  stripped_from s q -> q = Py.strip s.
Proof.
  intros [(l & r & -> & Hl & Hr) [Hfirst Hlast]]. unfold Py.strip.
  rewrite (lstrip_blank_app l _ Hl). destruct q as [|c q'].
  - rewrite sapp_nil_l, (lstrip_blank r Hr). reflexivity.
  - rewrite sapp_cons. cbn [Py.lstrip]. rewrite (Hfirst c q' eq_refl).
    rewrite <- sapp_cons, (rstrip_app_blank _ r Hr).
    symmetry. exact (rstrip_fixed _ Hlast).
Qed.

(** *** The query a text stands for *)

Lemma fence_free_contains (s : string) :
  fence_free s -> Py.contains Re.fence s = false.
Proof.
  intros Hfree. destruct (Py.contains Re.fence s) eqn:Hc; [|reflexivity].
  apply contains_true in Hc as (a & b & ->).
  exfalso. exact (Hfree a b eq_refl).
Qed.

Lemma contains_fence_free (s : string) :
  Py.contains Re.fence s = false -> fence_free s.
Proof.
  intros Hc a b ->.
  assert (Py.contains Re.fence (a +:+ "```" +:+ b) = true) as Ht
    by (apply contains_true; exists a, b; reflexivity).
  congruence.
Qed.

Lemma untagged_block_content (body : string) :
  untagged body (block_content body).
Proof.
  unfold untagged, block_content. split.
  - intros rest ->. rewrite strip_prefix_app. reflexivity.
  - intros Hno. destruct (Py.strip_prefix "sql" body) as [r|] eqn:Hp;
      [|reflexivity].
    apply strip_prefix_Some in Hp. exfalso. exact (Hno r Hp).
Qed.

Lemma untagged_unique (body content : string) :
  untagged body content -> content = block_content body.
Proof.
  intros [Htag Hplain]. unfold block_content.
  destruct (Py.strip_prefix "sql" body) as [r|] eqn:Hp; cbn [default].
  - apply strip_prefix_Some in Hp. exact (Htag r Hp).
  - apply Hplain. intros rest ->. rewrite strip_prefix_app in Hp.
    discriminate.
Qed.

(** [extract_query] yields the query the text stands for. *)
Lemma extract_query_spec (text : string) : query_of text (extract_query text).
Proof.
  split.
  - intros body (pre & post & -> & Hpre & Hbody).
    exists (block_content body). split; [apply untagged_block_content|].
    pose proof (extract_query_first_block pre body post
                  (fence_free_contains _ Hpre) (fence_free_contains _ Hbody))
      as Hq.
    unfold Re.fence in Hq. rewrite Hq. apply strip_spec.
  - intros Hno. rewrite (extract_query_no_block text Hno). apply strip_spec.
Qed.

(** The query of a text is determined by the text. *)
Lemma query_of_block (text body q : string) :
  query_of text q -> first_block text body ->
  q = Py.strip (block_content body).
Proof.
  intros [Hblock _] Hfirst.
  destruct (Hblock body Hfirst) as (content & Hc & Hq).
  rewrite <- (untagged_unique _ _ Hc). exact (stripped_from_unique _ _ Hq).
Qed.

Lemma query_of_plain (text q : string) :
  query_of text q -> ~ has_fenced_block text -> q = Py.strip text.
Proof.
  intros [_ Hplain] Hno. exact (stripped_from_unique _ _ (Hplain Hno)).
Qed.

Lemma first_block_intro (pre body post : string) :
  Py.contains Re.fence (pre +:+ "``") = false ->
  Py.contains Re.fence (body +:+ "``") = false ->
  first_block (pre +:+ "```" +:+ body +:+ "```" +:+ post) body.
Proof.
  intros Hpre Hbody. exists pre, post. split; [reflexivity|].
  split; apply contains_fence_free; assumption.
Qed.

(** The first fence of a text. *)
Lemma first_fence (s : string) :
  Py.contains Re.fence s = true ->
  exists a b,
    s = a +:+ "```" +:+ b /\ Py.contains Re.fence (a +:+ "``") = false.
Proof.
  induction s as [|c s IH]; rewrite contains_unfold.
  - discriminate.
  - destruct (Py.strip_prefix Re.fence (String c s)) as [r|] eqn:Hp.
    + intros _. apply strip_prefix_Some in Hp.
      exists EmptyString, r. split; [exact Hp|reflexivity].
    + intros H. destruct (IH H) as (a & b & -> & Hno).
      exists (String c a), b. split; [reflexivity|].
      rewrite sapp_cons, contains_unfold.
      destruct (Py.strip_prefix Re.fence (String c (a +:+ "``")))
        as [r|] eqn:Hq; [|exact Hno].
      exfalso. apply strip_prefix_Some in Hq.
      assert (Hs : Py.strip_prefix Re.fence (String c (a +:+ "```" +:+ b))
                   = Some (r +:+ "`" +:+ b)).
      { apply strip_prefix_Some.
        change (a +:+ "```" +:+ b) with (a +:+ "``" +:+ "`" +:+ b).
        rewrite <- (sapp_assoc a), <- sapp_cons, Hq, sapp_assoc.
        reflexivity. }
      congruence.
Qed.

(** After the first fence of a text with a fenced block there is another
    fence. *)
Lemma closing_fence_after (a : string) :
  forall p b q rest,
    a +:+ "```" +:+ rest = p +:+ "```" +:+ b +:+ "```" +:+ q ->
    Py.contains Re.fence (a +:+ "``") = false ->
    Py.contains Re.fence rest = true.
Proof.
  induction a as [|c a IH]; intros p b q rest Heq Hno.
  - rewrite sapp_nil_l in Heq. apply contains_true.
    destruct p as [|c1 [|c2 [|c3 p]]]; unfold String.append in Heq.
    + injection Heq as ->. exists b, q. reflexivity.
    + injection Heq as _ ->. exists (String "`" b), q. reflexivity.
    + injection Heq as _ _ ->. exists ("``" +:+ b), q. reflexivity.
    + injection Heq as _ _ _ ->.
      exists (p +:+ "```" +:+ b), q. rewrite !sapp_assoc. reflexivity.
  - destruct p as [|c' p].
    + exfalso.
      destruct a as [|c1 [|c2 a]]; unfold String.append in Heq.
      * injection Heq as -> _. discriminate Hno.
      * injection Heq as -> -> _. discriminate Hno.
      * injection Heq as -> -> -> _. discriminate Hno.
    + rewrite !sapp_cons in Heq. injection Heq as _ Heq.
      apply (IH p b q rest Heq).
      rewrite sapp_cons in Hno. exact (contains_tail _ _ _ Hno).
Qed.

(** A text with a fenced block has a first block. *)
Lemma fenced_block_has_first (text : string) :
  has_fenced_block text -> exists body, first_block text body.
Proof.
  intros (p & b & q & Htext).
  assert (Hc : Py.contains Re.fence text = true).
  { apply contains_true. exists p, (b +:+ "```" +:+ q). exact Htext. }
  destruct (first_fence text Hc) as (pre & rest & Hpre & Hno).
  assert (Hrest : Py.contains Re.fence rest = true).
  { apply (closing_fence_after pre p b q rest); [|exact Hno].
    rewrite <- Hpre. exact Htext. }
  destruct (first_fence rest Hrest) as (body & post & -> & Hbody).
  exists body, pre, post. split; [exact Hpre|].
  split; apply contains_fence_free; assumption.
Qed.

(** [query_of] describes one query, the one [extract_query] yields. *)
Lemma query_of_extract (text q : string) :
  query_of text q -> q = extract_query text.
Proof.
  intros Hq. destruct (Re.search text) as [g|] eqn:Hs.
  - destruct (fenced_block_has_first text (search_sound _ _ Hs))
      as (body & Hfirst).
    rewrite (query_of_block text body q Hq Hfirst).
    symmetry. apply (query_of_block text body); [|exact Hfirst].
    apply extract_query_spec.
  - assert (Hno : ~ has_fenced_block text).
    { intros Hb. destruct (fenced_block_has_first text Hb)
        as (body & pre & post & -> & Hpre & Hbody).
      pose proof (search_first_block pre body post
                    (fence_free_contains _ Hpre) (fence_free_contains _ Hbody))
        as Hfound.
      unfold Re.fence in Hfound. congruence. }
    rewrite (query_of_plain text q Hq Hno).
    symmetry. apply query_of_plain; [apply extract_query_spec|exact Hno].
Qed.

Lemma no_fenced_block_intro (text : string) :
  Py.contains Re.fence text = false -> ~ has_fenced_block text.
Proof.
  intros Hc (pre & body & post & H).
  assert (Ht : Py.contains Re.fence text = true).
  { apply contains_true. exists pre, (body +:+ "```" +:+ post). exact H. }
  congruence.
Qed.

End TextFacts.

(** ** Routing policy *)

Section RoutingFacts.
Import Routing.

Lemma last_snoc_msg (pre : list Message) (m : Message) :
  last (pre ++ [m]) = Some m.
Proof. apply last_snoc. Qed.

Lemma second_last_snoc (pre : list Message) (m : Message) :
  second_last (pre ++ [m]) = last pre.
Proof.
  unfold second_last.
  destruct pre as [|p pre' _] using rev_ind.
  - reflexivity.
  - rewrite !length_app. simpl.
    case_decide; [|lia].
    rewrite last_snoc.
    replace (length pre' + 1 + 1 - 2) with (length pre') by lia.
    rewrite lookup_app_l by (rewrite length_app; simpl; lia).
    apply list_lookup_middle. reflexivity.
Qed.

Lemma is_execute_result_true (m : Message) :
  is_execute_result m = true <->
  exists c id, m = ToolMessage c execute_tool_name id.
Proof.
  split.
  - destruct m as [| | c n id |]; unfold is_execute_result; try discriminate.
    intros H. case_bool_decide; [subst; eauto | discriminate].
  - intros (c & id & ->). reflexivity.
Qed.

Lemma should_continue_snoc (pre : list Message) (m : Message) :
  should_continue (pre ++ [m]) =
  Some (if has_tool_calls m then To tools
        else match last pre with
             | Some p => if is_execute_result p then END else To human_approval
             | None => To human_approval
             end).
Proof.
  unfold should_continue.
  rewrite last_snoc_msg, second_last_snoc.
  destruct (has_tool_calls m); [reflexivity|].
  destruct (last pre) as [p|]; [|reflexivity].
  destruct (is_execute_result p); reflexivity.
Qed.

Lemma route_tool_output_snoc (pre : list Message) (m : Message) :
  route_tool_output (pre ++ [m]) =
  Some (if is_execute_result m then END else To agent).
Proof.
  unfold route_tool_output. rewrite last_snoc_msg.
  destruct (is_execute_result m); reflexivity.
Qed.

End RoutingFacts.

(** C1. After the Agent node: on a log whose last message is an
    [AIMessage], the router goes to [tools] when the message carries at
    least one tool call; otherwise it ends when the message before it is a
    [ToolMessage] named [execute_postgres_query]; otherwise it goes to
    [human_approval]. *)
Theorem should_continue_after_agent
    (pre : list Message) (text : string) (calls : list ToolCall) :
  (calls <> [] ->
   Routing.should_continue (pre ++ [AIMessage text calls]) = Some (To tools))
  /\ (calls = [] ->
      (exists c id,
          last pre = Some (ToolMessage c "execute_postgres_query" id)) ->
      Routing.should_continue (pre ++ [AIMessage text calls]) = Some END)
  /\ (calls = [] ->
      (forall c id,
          last pre <> Some (ToolMessage c "execute_postgres_query" id)) ->
      Routing.should_continue (pre ++ [AIMessage text calls])
      = Some (To human_approval)).
Proof.
  rewrite should_continue_snoc.
  split; [|split].
  - intros Hne. destruct calls; [congruence|reflexivity].
  - intros -> (c & id & ->). reflexivity.
  - intros -> Hnot. simpl.
    destruct (last pre) as [p|] eqn:Hp; [|reflexivity].
    destruct (Routing.is_execute_result p) eqn:He; [|reflexivity].
    apply is_execute_result_true in He as (c & id & ->).
    exfalso. exact (Hnot c id eq_refl).
Qed.

Lemma should_continue_after_agent_witness :
  Routing.should_continue
    ([HumanMessage "q"]
       ++ [AIMessage "Loading." [ {| tc_name := "load_skill"; tc_arg := "sales_analytics";
                             tc_id := "call_1" |} ]])
  = Some (To tools)
  /\ Routing.should_continue
       ([HumanMessage "q"; ToolMessage "| n |" "execute_postgres_query" "call_2"]
          ++ [AIMessage "One row." []])
     = Some END
  /\ Routing.should_continue ([HumanMessage "q"] ++ [AIMessage "```sql SELECT 1```" []])
     = Some (To human_approval).
Proof.
  split; [|split].
  - apply (should_continue_after_agent [HumanMessage "q"] "Loading."). discriminate.
  - apply (should_continue_after_agent
             [HumanMessage "q"; ToolMessage "| n |" "execute_postgres_query" "call_2"]
             "One row." []); [reflexivity|].
    exists "| n |", "call_2". reflexivity.
  - apply (should_continue_after_agent [HumanMessage "q"] "```sql SELECT 1```" []);
      [reflexivity|]. intros c id. discriminate.
Defined.

(** C4. On resume from the interrupt with a [HumanMessage] in last place,
    the run ends when the text starts with ["<SYSTEM:"] and returns to the
    agent otherwise. *)
Theorem check_approval_outcome_user_message
    (pre : list Message) (text : string) :
  (String.prefix "<SYSTEM:" text = true ->
   Routing.check_approval_outcome (pre ++ [HumanMessage text]) = Some END)
  /\ (String.prefix "<SYSTEM:" text = false ->
      Routing.check_approval_outcome (pre ++ [HumanMessage text])
      = Some (To agent)).
Proof.
  unfold Routing.check_approval_outcome. rewrite last_snoc_msg.
  unfold Routing.control_prefix.
  split; intros ->; reflexivity.
Qed.

Lemma check_approval_outcome_user_message_witness :
  Routing.check_approval_outcome
    ([AIMessage "```sql SELECT 1```" []]
       ++ [HumanMessage "<SYSTEM: Execution Completed Locally>"])
  = Some END
  /\ Routing.check_approval_outcome
       ([AIMessage "```sql SELECT 1```" []]
          ++ [HumanMessage "Rejected. Feedback: use last 7 days"])
     = Some (To agent).
Proof.
  split.
  - apply (check_approval_outcome_user_message
             [AIMessage "```sql SELECT 1```" []]
             "<SYSTEM: Execution Completed Locally>").
    reflexivity.
  - apply (check_approval_outcome_user_message
             [AIMessage "```sql SELECT 1```" []]
             "Rejected. Feedback: use last 7 days").
    reflexivity.
Defined.

(** ** The engine *)

Section EngineFacts.
Context (llm : list Message -> string * list ToolCall)
        (db : string -> DbReply)
        (get_skill : string -> RepoReply)
        (list_skills : list Skill).

Local Abbreviation loop := (pregel_loop llm db get_skill list_skills).
Local Abbreviation minput log :=
  (SystemMessage (system_prompt list_skills) :: log).

Lemma pregel_loop_S (limit : nat) (resuming : bool) (n : Node)
    (messages : AgentState) :
  loop (S limit) resuming n messages =
  if interrupt_before n && negb resuming
  then ([], Committed {| values := messages; next := Some n |})
  else
    match run_node llm db get_skill list_skills n messages with
    | inl e => ([NodeRun n],
                Raised e {| values := messages; next := Some n |})
    | inr (evs, update) =>
        match router n (messages ++ update) with
        | None => (evs, Raised IndexError
                          {| values := messages ++ update; next := None |})
        | Some END =>
            (evs, Committed {| values := messages ++ update; next := None |})
        | Some (To n') =>
            let '(evs', out) := loop limit false n' (messages ++ update) in
            (evs ++ evs', out)
        end
    end.
Proof. reflexivity. Qed.

(** All that is used of the limit: it allows two steps. *)
Lemma recursion_limit_two_steps : exists k, recursion_limit = S (S k).
Proof. exists 23. reflexivity. Qed.

Lemma tool_node_snoc (pre : list Message) (text : string)
    (calls : list ToolCall) :
  tool_node db get_skill (pre ++ [AIMessage text calls])
  = inr (ToolRun <$> calls, run_tool db get_skill <$> calls).
Proof. unfold tool_node. rewrite last_snoc. reflexivity. Qed.

(** The agent step: one model call, on the system prompt followed by the
    log, whose reply is the update. *)
Lemma run_node_agent (messages : AgentState) :
  run_node llm db get_skill list_skills agent messages
  = inr ([NodeRun agent; ModelCall (minput messages)],
         [AIMessage (llm (minput messages)).1 (llm (minput messages)).2]).
Proof.
  unfold run_node, agent_node, invoke.
  destruct (llm (minput messages)) as [text calls]. reflexivity.
Qed.

Lemma run_node_tools_snoc (pre : list Message) (text : string)
    (calls : list ToolCall) :
  run_node llm db get_skill list_skills tools (pre ++ [AIMessage text calls])
  = inr (NodeRun tools :: (ToolRun <$> calls),
         run_tool db get_skill <$> calls).
Proof.
  unfold run_node. rewrite tool_node_snoc. reflexivity.
Qed.

Lemma run_tool_is_execute_result (call : ToolCall) :
  Routing.is_execute_result (run_tool db get_skill call)
  = bool_decide (tc_name call = "execute_postgres_query").
Proof. reflexivity. Qed.

(** The agent step always calls the model on the log it was given. *)
Lemma agent_step_events (limit : nat) (resuming : bool)
    (messages : AgentState) :
  exists evs,
    (loop (S limit) resuming agent messages).1
    = [NodeRun agent; ModelCall (minput messages)] ++ evs.
Proof.
  rewrite pregel_loop_S. simpl interrupt_before. cbn [andb].
  rewrite run_node_agent.
  destruct (llm (minput messages)) as [text calls]. cbn [fst snd].
  cbn [router]. rewrite should_continue_snoc.
  destruct (if Routing.has_tool_calls _ then _ else _) as [n'|].
  - destruct (loop limit false n' (messages ++ [AIMessage text calls]))
      as [evs' out]. exists evs'. reflexivity.
  - exists []. reflexivity.
Qed.

(** C2 (as amended). After the ToolDispatch node the router looks at
    the last tool message only.  The node answers the calls of the
    agent's message in call order, so the last tool message is the answer
    to the last call.  When that call is to [execute_postgres_query] the
    run ends at once and its events hold no agent step and no model call.
    When it is to any other tool the next step is the agent, called on
    the extended log, also when an earlier call of the same message
    ([cs] below) was to [execute_postgres_query]. *)
Theorem route_tool_output_after_tools
    (limit : nat) (resuming : bool) (pre : list Message) (text : string)
    (cs : list ToolCall) (call : ToolCall) :
  let log := pre ++ [AIMessage text (cs ++ [call])] in
  let produced := run_tool db get_skill <$> (cs ++ [call]) in
  let tool_events := NodeRun tools :: (ToolRun <$> (cs ++ [call])) in
  (forall before c name id,
      Routing.route_tool_output (before ++ [ToolMessage c name id])
      = Some (if decide (name = "execute_postgres_query")
              then END else To agent))
  /\ (tc_name call = "execute_postgres_query" ->
      loop (S limit) resuming tools log
      = (tool_events,
         Committed {| values := log ++ produced; next := None |})
      /\ Forall (fun e => e <> NodeRun agent /\ forall i, e <> ModelCall i)
                tool_events)
  /\ (tc_name call <> "execute_postgres_query" ->
      exists evs,
        (loop (S (S limit)) resuming tools log).1
        = tool_events
            ++ [NodeRun agent; ModelCall (minput (log ++ produced))]
            ++ evs).
Proof.
  intros log produced tool_events.
  assert (Hroute : Routing.route_tool_output (log ++ produced)
                   = Some (if bool_decide (tc_name call = "execute_postgres_query")
                           then END else To agent)).
  { subst produced. rewrite fmap_app. cbn [fmap list_fmap].
    rewrite app_assoc, route_tool_output_snoc, run_tool_is_execute_result.
    reflexivity. }
  split; [|split].
  - intros before c name id. rewrite route_tool_output_snoc.
    unfold Routing.is_execute_result, Routing.execute_tool_name.
    destruct (decide (name = "execute_postgres_query")) as [Heq|Hne].
    + rewrite bool_decide_eq_true_2 by exact Heq. reflexivity.
    + rewrite bool_decide_eq_false_2 by exact Hne. reflexivity.
  - intros Hname. split.
    + rewrite pregel_loop_S.
      change (interrupt_before tools) with false. cbn [andb].
      subst log. rewrite run_node_tools_snoc. cbn [router].
      fold produced. fold (pre ++ [AIMessage text (cs ++ [call])]).
      rewrite Hroute, bool_decide_eq_true_2 by exact Hname. reflexivity.
    + subst tool_events. constructor; [split; discriminate|].
      apply Forall_fmap, Forall_true. intros c. split; discriminate.
  - intros Hname.
    destruct (agent_step_events limit false (log ++ produced)) as [evs Hevs].
    exists evs.
    rewrite pregel_loop_S.
    change (interrupt_before tools) with false. cbn [andb].
    subst log. rewrite run_node_tools_snoc. cbn [router].
    fold produced.
    rewrite Hroute, bool_decide_eq_false_2 by exact Hname.
    destruct (loop (S limit) false agent _) as [evs' out] eqn:Hloop.
    simpl in Hevs |- *. rewrite Hevs. reflexivity.
Qed.

(** Where the router of a node can send the run. *)
Lemma router_tools_target (messages : AgentState) (n' : Node) :
  router tools messages = Some (To n') -> n' = agent.
Proof.
  cbn [router]. unfold Routing.route_tool_output.
  destruct (last messages) as [m|]; [|discriminate].
  destruct (Routing.is_execute_result m); congruence.
Qed.

Lemma router_human_approval_target (messages : AgentState) (n' : Node) :
  router human_approval messages = Some (To n') -> n' = agent.
Proof.
  cbn [router]. unfold Routing.check_approval_outcome.
  destruct (last messages) as [[c| | |]|]; try discriminate.
  destruct (String.prefix _ _); congruence.
Qed.

Lemma should_continue_to_approval (pre : list Message) (text : string)
    (calls : list ToolCall) :
  Routing.should_continue (pre ++ [AIMessage text calls])
  = Some (To human_approval) ->
  calls = [].
Proof.
  rewrite should_continue_snoc. destruct calls; [reflexivity|].
  discriminate.
Qed.

(** A run stops before [human_approval] only right after an agent step
    whose reply carries no tool call. *)
Lemma pregel_loop_interrupt (limit : nat) :
  forall (resuming : bool) (n : Node) (messages : AgentState)
         (evs : list Event) (cp : Checkpoint),
    loop limit resuming n messages = (evs, Committed cp) ->
    next cp = Some human_approval ->
    (n = human_approval -> resuming = true) ->
    exists log text evs0,
      values cp = log ++ [AIMessage text []]
      /\ llm (minput log) = (text, [])
      /\ evs = evs0 ++ [NodeRun agent; ModelCall (minput log)]
      /\ messages `prefix_of` log.
Proof.
  induction limit as [|limit IH]; intros resuming n messages evs cp Hrun Hnext Hres.
  { discriminate. }
  rewrite pregel_loop_S in Hrun.
  destruct (interrupt_before n && negb resuming) eqn:Hint.
  { apply andb_true_iff in Hint as [Hn Hr].
    apply bool_decide_eq_true in Hn. rewrite (Hres Hn) in Hr. discriminate. }
  destruct n.
  - (* agent *)
    rewrite run_node_agent in Hrun.
    destruct (llm (minput messages)) as [text calls] eqn:Hllm.
    cbn [fst snd router] in Hrun.
    destruct (Routing.should_continue (messages ++ [AIMessage text calls]))
      as [[n'|]|] eqn:Hroute.
    + destruct (decide (n' = human_approval)) as [->|Hn'].
      * apply should_continue_to_approval in Hroute as ->.
        destruct limit as [|limit'].
        { simpl in Hrun. inversion Hrun. }
        rewrite pregel_loop_S in Hrun. simpl in Hrun.
        inversion Hrun; subst. exists messages, text, [].
        repeat split; [exact Hllm|reflexivity].
      * destruct (loop limit false n' (messages ++ [AIMessage text calls]))
          as [evs' out] eqn:Hrec.
        inversion Hrun; subst.
        destruct (IH _ _ _ _ _ Hrec Hnext) as (log & t & evs0 & Hv & Hl & He & Hp).
        { intros ?. contradiction. }
        exists log, t, ([NodeRun agent; ModelCall (minput messages)] ++ evs0).
        repeat split; [exact Hv|exact Hl|rewrite He; reflexivity|].
        etrans; [|exact Hp]. apply prefix_app_r. reflexivity.
    + inversion Hrun; subst. discriminate.
    + inversion Hrun.
  - (* tools *)
    destruct (run_node llm db get_skill list_skills tools messages)
      as [e|[evs1 update]] eqn:Hnode; [inversion Hrun|].
    destruct (router tools (messages ++ update)) as [[n'|]|] eqn:Hroute.
    + apply router_tools_target in Hroute as ->.
      destruct (loop limit false agent (messages ++ update))
        as [evs' out] eqn:Hrec.
      inversion Hrun; subst.
      destruct (IH _ _ _ _ _ Hrec Hnext) as (log & t & evs0 & Hv & Hl & He & Hp).
      { discriminate. }
      exists log, t, (evs1 ++ evs0).
      repeat split; [exact Hv|exact Hl|rewrite He, app_assoc; reflexivity|].
      etrans; [|exact Hp]. apply prefix_app_r. reflexivity.
    + inversion Hrun; subst. discriminate.
    + inversion Hrun.
  - (* human_approval, resumed *)
    cbn [run_node] in Hrun. unfold human_approval_node in Hrun.
    destruct (router human_approval (messages ++ [])) as [[n'|]|] eqn:Hroute.
    + apply router_human_approval_target in Hroute as ->.
      destruct (loop limit false agent (messages ++ []))
        as [evs' out] eqn:Hrec.
      inversion Hrun; subst.
      destruct (IH _ _ _ _ _ Hrec Hnext) as (log & t & evs0 & Hv & Hl & He & Hp).
      { discriminate. }
      exists log, t, ([NodeRun human_approval] ++ evs0).
      repeat split; [exact Hv|exact Hl|rewrite He; reflexivity|].
      etrans; [|exact Hp]. apply prefix_app_r. reflexivity.
    + inversion Hrun; subst. discriminate.
    + inversion Hrun.
Qed.

(** Every run only appends to the log. *)
Lemma pregel_loop_extends (limit : nat) :
  forall (resuming : bool) (n : Node) (messages : AgentState),
    messages `prefix_of`
      values (checkpoint_of (loop limit resuming n messages).2).
Proof.
  induction limit as [|limit IH]; intros resuming n messages.
  { reflexivity. }
  rewrite pregel_loop_S.
  destruct (interrupt_before n && negb resuming); [reflexivity|].
  destruct (run_node llm db get_skill list_skills n messages)
    as [e|[evs update]]; [reflexivity|].
  destruct (router n (messages ++ update)) as [[n'|]|];
    try (apply prefix_app_r; reflexivity).
  specialize (IH false n' (messages ++ update)).
  destruct (loop limit false n' (messages ++ update)) as [evs' out].
  etrans; [|exact IH]. apply prefix_app_r. reflexivity.
Qed.

(** The reply of an agent step stays in the log, right after the log the
    model was called on. *)
Lemma agent_step_reply (limit : nat) (resuming : bool)
    (messages : AgentState) :
  (messages ++ [AIMessage (llm (minput messages)).1 (llm (minput messages)).2])
    `prefix_of`
    values (checkpoint_of (loop (S limit) resuming agent messages).2).
Proof.
  rewrite pregel_loop_S. simpl interrupt_before. cbn [andb].
  rewrite run_node_agent.
  set (fed := messages ++ [AIMessage _ _]).
  destruct (router agent fed) as [[n'|]|]; try reflexivity.
  pose proof (pregel_loop_extends limit false n' fed) as Hext.
  destruct (loop limit false n' fed) as [evs' out]. exact Hext.
Qed.

Lemma stream_extends (cp : Checkpoint) (inputs : option (list Message)) :
  values cp `prefix_of`
    values (checkpoint_of
              (stream llm db get_skill list_skills cp inputs).2).
Proof.
  unfold stream. destruct inputs as [new|].
  - etrans; [|apply pregel_loop_extends]. apply prefix_app_r. reflexivity.
  - destruct (next cp) as [n|]; [apply pregel_loop_extends|reflexivity].
Qed.

(** Whatever a run leaves behind, a checkpoint waiting for approval holds
    a proposal. *)
Lemma pregel_loop_holds_proposal (limit : nat) :
  forall (resuming : bool) (n : Node) (messages : AgentState),
    (n = human_approval ->
     (resuming = true /\ limit <> 0)
     \/ exists pre text, messages = pre ++ [AIMessage text []]) ->
    holds_proposal (checkpoint_of (loop limit resuming n messages).2).
Proof.
  induction limit as [|limit IH]; intros resuming n messages Hstart.
  { intros [= ->]. destruct (Hstart eq_refl) as [[_ ?]|?]; [congruence|assumption]. }
  rewrite pregel_loop_S.
  destruct (interrupt_before n && negb resuming) eqn:Hint.
  { apply andb_true_iff in Hint as [Hn Hr].
    apply bool_decide_eq_true in Hn. apply negb_true_iff in Hr.
    intros _. destruct (Hstart Hn) as [[? _]|?]; [congruence|assumption]. }
  destruct (run_node llm db get_skill list_skills n messages)
    as [e|[evs update]] eqn:Hnode.
  { destruct n;
      [rewrite run_node_agent in Hnode; discriminate Hnode
      |intros Hn; discriminate Hn
      |discriminate Hnode]. }
  destruct (router n (messages ++ update)) as [[n'|]|] eqn:Hroute;
    try discriminate.
  specialize (IH false n' (messages ++ update)).
  destruct (loop limit false n' (messages ++ update)) as [evs' out].
  apply IH. intros ->. right.
  destruct n.
  - rewrite run_node_agent in Hnode.
    destruct (llm (minput messages)) as [text calls].
    injection Hnode as _ <-. cbn [router] in Hroute.
    apply should_continue_to_approval in Hroute as ->. eauto.
  - apply router_tools_target in Hroute. discriminate.
  - apply router_human_approval_target in Hroute. discriminate.
Qed.

Lemma stream_holds_proposal (cp : Checkpoint)
    (inputs : option (list Message)) :
  holds_proposal
    (checkpoint_of (stream llm db get_skill list_skills cp inputs).2).
Proof.
  unfold stream. destruct inputs as [new|].
  - apply pregel_loop_holds_proposal. discriminate.
  - destruct (next cp) as [n|] eqn:Hn.
    + apply pregel_loop_holds_proposal. intros _. left. split; [reflexivity|].
      discriminate.
    + intros H. simpl in H. congruence.
Qed.

End EngineFacts.

(** ** The query tool *)

Section ToolFacts.
Context (db : string -> DbReply).

Lemma shown_rows_split (results : list (list string)) :
  shown_rows results
  = (table_row <$> take 10 results)
      ++ (if decide (10 < length results)
          then ["... (" +:+ pretty (length results - 10) +:+ " more rows)"]
          else []).
Proof.
  unfold shown_rows. destruct (decide (10 < length results)).
  - reflexivity.
  - rewrite app_nil_r. reflexivity.
Qed.

(** C10. [execute_postgres_query] always returns a text and never
    raises.  For an exception it is ["Error executing query: "] followed
    by the exception's text.  For an empty result (no rows, or a
    statement without columns) it is the fixed success text.  Otherwise
    it is a table, one line each, joined by line feeds: the column names
    between bars, a rule of ["---"] cells, the first ten rows at most,
    and after them the line ["... (N more rows)"] exactly when [N > 0]
    rows were left out.  The right-hand sides are written with the
    library's [String.concat] and literals only. *)
Theorem execute_postgres_query_result (q : string) :
  let line := fun cells : list string =>
    "| " +:+ String.concat " | " cells +:+ " |" in
  let line_feed := String "010"%char EmptyString in
  (forall e,
      db q = DbRaise e ->
      execute_postgres_query db q = "Error executing query: " +:+ e
      /\ String.prefix "Error executing query:" (execute_postgres_query db q)
         = true)
  /\ (forall description fetched,
         db q = DbDone description fetched ->
         description = None \/ description = Some [] \/ fetched = [] ->
         execute_postgres_query db q
         = "Query executed successfully per row count: 0")
  /\ (forall c cs row rows,
         db q = DbDone (Some (c :: cs)) (row :: rows) ->
         execute_postgres_query db q
         = String.concat line_feed
             (line (c :: cs)
                :: line (replicate (length (c :: cs)) "---")
                :: (line <$> take 10 (row :: rows))
                ++ (if decide (10 < length (row :: rows))
                    then ["... (" +:+ pretty (length (row :: rows) - 10)
                            +:+ " more rows)"]
                    else []))).
Proof.
  intros line line_feed. unfold execute_postgres_query. split; [|split].
  - intros e ->. split; reflexivity.
  - intros description fetched -> [-> | [-> | ->]]; [reflexivity..|].
    destruct description as [[|c cs]|]; reflexivity.
  - intros c cs row rows ->. cbn [cursor_result].
    rewrite shown_rows_split. reflexivity.
Qed.

End ToolFacts.

(** ** The endpoints *)

Section ApiFacts.
Context (llm : list Message -> string * list ToolCall)
        (db : string -> DbReply)
        (get_skill : string -> RepoReply)
        (list_skills : list Skill).

Local Abbreviation loop := (pregel_loop llm db get_skill list_skills).
Local Abbreviation minput log :=
  (SystemMessage (system_prompt list_skills) :: log).
Local Abbreviation resume := (stream llm db get_skill list_skills).

Lemma get_state_lookup (w : World) (tid : string) (cp : Checkpoint) :
  threads w !! tid = Some cp -> get_state w tid = cp.
Proof. unfold get_state. intros ->. reflexivity. Qed.

Lemma get_put_state (w : World) (tid : string) (cp : Checkpoint)
    (evs : list Event) :
  get_state (put_state w tid cp evs) tid = cp.
Proof. unfold get_state, put_state. simpl. rewrite lookup_insert_eq. reflexivity. Qed.

Lemma grows_refl (tid : string) (w : World) : grows tid w w.
Proof. split; reflexivity. Qed.

Lemma grows_trans (tid : string) (w1 w2 w3 : World) :
  grows tid w1 w2 -> grows tid w2 w3 -> grows tid w1 w3.
Proof. intros [? ?] [? ?]. split; etrans; eassumption. Qed.

Lemma run_local_query_grows (tid : string) (w : World) (q : string) :
  grows tid w (run_local_query db w q).1.
Proof. split; simpl; [apply prefix_app_r|]; reflexivity. Qed.

Lemma run_update_state_grows (tid : string) (w : World)
    (new : list Message) :
  grows tid w (run_update_state w tid new).
Proof.
  unfold run_update_state. split.
  - simpl. apply prefix_app_r. reflexivity.
  - rewrite get_put_state. simpl. apply prefix_app_r. reflexivity.
Qed.

Lemma run_stream_grows (tid : string) (w : World)
    (inputs : option (list Message)) :
  grows tid w (run_stream llm db get_skill list_skills w tid inputs).1.
Proof.
  unfold run_stream.
  pose proof (stream_extends llm db get_skill list_skills
                (get_state w tid) inputs) as Hext.
  destruct (resume (get_state w tid) inputs) as [evs out]. simpl in *.
  split.
  - simpl. apply prefix_app_r. reflexivity.
  - rewrite get_put_state. exact Hext.
Qed.

(** An update at the interrupt leaves the thread before
    [human_approval]. *)
Lemma update_state_proposal (pre : list Message) (text t : string)
    (nx : option Node) :
  update_state {| values := pre ++ [AIMessage text []]; next := nx |}
               [HumanMessage t]
  = {| values := (pre ++ [AIMessage text []]) ++ [HumanMessage t];
       next := Some human_approval |}.
Proof.
  unfold update_state. cbn [values].
  rewrite should_continue_snoc, last_snoc. reflexivity.
Qed.

(** Resuming on a control message ends the run at once. *)
Lemma resume_control (log : list Message) (t : string) :
  String.prefix "<SYSTEM:" t = true ->
  resume {| values := log ++ [HumanMessage t]; next := Some human_approval |}
         None
  = ([NodeRun human_approval],
     Committed {| values := log ++ [HumanMessage t]; next := None |}).
Proof.
  intros Ht. unfold stream. cbn [next values].
  destruct recursion_limit_two_steps as [k ->].
  rewrite pregel_loop_S. cbn [interrupt_before negb andb run_node].
  rewrite andb_false_r. unfold human_approval_node. rewrite app_nil_r.
  cbn [router]. unfold Routing.check_approval_outcome.
  rewrite last_snoc. unfold Routing.control_prefix. rewrite Ht.
  reflexivity.
Qed.

(** Resuming on any other user message calls the agent on the log. *)
Lemma resume_feedback (log : list Message) (t : string) :
  String.prefix "<SYSTEM:" t = false ->
  exists evs out,
    resume {| values := log ++ [HumanMessage t]; next := Some human_approval |}
           None
    = ([NodeRun human_approval; NodeRun agent;
        ModelCall (minput (log ++ [HumanMessage t]))] ++ evs, out)
    /\ (log ++ [HumanMessage t]) `prefix_of` values (checkpoint_of out).
Proof.
  intros Ht. unfold stream. cbn [next values].
  destruct recursion_limit_two_steps as [k ->].
  rewrite pregel_loop_S. cbn [interrupt_before negb andb run_node].
  rewrite andb_false_r. unfold human_approval_node. rewrite app_nil_r.
  cbn [router]. unfold Routing.check_approval_outcome.
  rewrite last_snoc. unfold Routing.control_prefix. rewrite Ht.
  destruct (agent_step_events llm db get_skill list_skills k false
              (log ++ [HumanMessage t])) as [evs Hevs].
  pose proof (pregel_loop_extends llm db get_skill list_skills (S k) false agent
                (log ++ [HumanMessage t])) as Hext.
  destruct (loop (S k) false agent (log ++ [HumanMessage t])) as [evs' out].
  simpl in Hevs, Hext. subst evs'.
  exists evs, out. split; [reflexivity|exact Hext].
Qed.

Lemma rejection_not_control (text : string) :
  String.prefix "<SYSTEM:" ("Rejected. Feedback: " +:+ text) = false.
Proof. reflexivity. Qed.

(** [process_run] on a thread that was just given feedback. *)
Lemma process_run_feedback (w : World) (tid : string)
    (log : list Message) (text : string) :
  get_state w tid
  = {| values := log ++ [rejection_message text];
       next := Some human_approval |} ->
  exists w' reply evs,
    process_run llm db get_skill list_skills w tid None = (w', reply)
    /\ journal w'
       = journal w
           ++ [NodeRun human_approval; NodeRun agent;
               ModelCall (minput (log ++ [rejection_message text]))]
           ++ evs
    /\ (log ++ [rejection_message text])
         `prefix_of` values (get_state w' tid).
Proof.
  intros Hst. unfold process_run, run_stream. rewrite Hst.
  destruct (resume_feedback log _ (rejection_not_control text))
    as (evs & out & Hrun & Hext).
  unfold rejection_message. rewrite Hrun.
  set (w' := put_state w tid (checkpoint_of out) _).
  assert (Hj : journal w' = journal w ++
               [NodeRun human_approval; NodeRun agent;
                ModelCall (minput (log ++ [HumanMessage
                   ("Rejected. Feedback: " +:+ text)]))] ++ evs)
    by reflexivity.
  assert (Hv : (log ++ [HumanMessage ("Rejected. Feedback: " +:+ text)])
                 `prefix_of` values (get_state w' tid)).
  { subst w'. rewrite get_put_state. exact Hext. }
  destruct out as [cp|e cp]; cbv zeta;
    [destruct (last (values (get_state w' tid)))|];
    (eexists _, _, evs; split; [reflexivity|split; [exact Hj|exact Hv]]).
Qed.

(** Rejection on a thread that holds a proposal. *)
Lemma approval_reject_on_proposal
    (request : ApprovalRequest) (w : World) (pre : list Message)
    (text : string) :
  threads w !! approval_thread_id request
  = Some {| values := pre ++ [AIMessage text []];
            next := Some human_approval |} ->
  decision request <> "approve" ->
  let fed :=
    (pre ++ [AIMessage text []])
      ++ [HumanMessage
            ("Rejected. Feedback: " +:+ feedback_or_default (feedback request))] in
  (forall f, feedback request = Some f -> f <> EmptyString ->
             feedback_or_default (feedback request) = f)
  /\ exists w' reply evs,
      approval llm db get_skill list_skills request w = (w', reply)
      /\ journal w'
         = journal w
             ++ [NodeRun human_approval; NodeRun agent; ModelCall (minput fed)]
             ++ evs
      /\ fed `prefix_of` values (get_state w' (approval_thread_id request)).
Proof.
  intros Hth Hdec fed. split.
  { intros f -> Hf. unfold feedback_or_default, Py.truthy.
    rewrite bool_decide_eq_false_2 by exact Hf. reflexivity. }
  unfold approval. rewrite (get_state_lookup _ _ _ Hth).
  change (awaiting_approval _) with true. cbn [negb].
  destruct (decide (decision request = "approve")) as [?|_]; [contradiction|].
  set (w1 := run_update_state _ _ _).
  assert (Hst : get_state w1 (approval_thread_id request)
                = {| values := (pre ++ [AIMessage text []])
                                 ++ [rejection_message
                                       (feedback_or_default (feedback request))];
                     next := Some human_approval |}).
  { subst w1. unfold run_update_state.
    rewrite get_put_state, (get_state_lookup _ _ _ Hth).
    apply update_state_proposal. }
  destruct (process_run_feedback w1 _ _ _ Hst)
    as (w' & reply & evs & Hrun & Hj & Hv).
  exists w', reply, evs. split; [exact Hrun|]. split; [|exact Hv].
  rewrite Hj. subst w1. unfold run_update_state, put_state. simpl.
  rewrite app_nil_r. reflexivity.
Qed.

(** C5 (as amended). An approval request on a thread that is not
    waiting is answered with HTTP 400 and leaves the world as it was.  A
    resume whose last message is not a [HumanMessage] is not rejected:
    the router ends the run and the pending marker is cleared. *)
Theorem invalid_resume :
  (forall (request : ApprovalRequest) (w : World),
      awaiting_approval (get_state w (approval_thread_id request)) = false ->
      approval llm db get_skill list_skills request w
      = (w, HttpError 400 "Conversation is not waiting for approval."))
  /\ (forall (pre : list Message) (m : Message),
         (forall t, m <> HumanMessage t) ->
         Routing.check_approval_outcome (pre ++ [m]) = Some END
         /\ resume {| values := pre ++ [m]; next := Some human_approval |} None
            = ([NodeRun human_approval],
               Committed {| values := pre ++ [m]; next := None |})).
Proof.
  split.
  - intros request w Hw. unfold approval. rewrite Hw. reflexivity.
  - intros pre m Hm.
    assert (Hend : Routing.check_approval_outcome (pre ++ [m]) = Some END).
    { unfold Routing.check_approval_outcome. rewrite last_snoc.
      destruct m as [t| | |]; [|reflexivity..].
      exfalso. exact (Hm t eq_refl). }
    split; [exact Hend|].
    unfold stream. cbn [next values].
    destruct recursion_limit_two_steps as [k ->].
    rewrite pregel_loop_S. cbn [interrupt_before negb andb run_node].
    rewrite andb_false_r. unfold human_approval_node. rewrite app_nil_r.
    cbn [router]. rewrite Hend. reflexivity.
Qed.

Lemma approval_approve_on_proposal
    (request : ApprovalRequest) (w : World) (pre : list Message)
    (text result_text : string)
    (data : option (list string * list (list string)))
    (error : option string) :
  threads w !! approval_thread_id request
  = Some {| values := pre ++ [AIMessage text []];
            next := Some human_approval |} ->
  decision request = "approve" ->
  execute_query_locally db (extract_query text)
  = (result_text, data, error) ->
  error_set error = None ->
  exists w',
    approval llm db get_skill list_skills request w
    = (w', Ok {| resp_thread_id := approval_thread_id request;
                 response := "**Execution Result**:" +:+ Py.nl
                               +:+ Py.nl +:+ result_text;
                 status := "done";
                 structured_data := data;
                 query := Some (extract_query text) |})
    /\ get_state w' (approval_thread_id request)
       = {| values := (pre ++ [AIMessage text []]) ++ [control_message];
            next := None |}
    /\ journal w'
       = journal w
           ++ [LocalQuery (extract_query text); NodeRun human_approval].
Proof.
  intros Hth Hdec Hq Herr.
  unfold approval. rewrite (get_state_lookup _ _ _ Hth).
  change (awaiting_approval _) with true. cbn [negb].
  destruct (decide (decision request = "approve")) as [_|?]; [|contradiction].
  cbn [values]. rewrite last_snoc. cbn [content_of].
  unfold run_local_query. rewrite Hq, Herr.
  assert (Hg : forall j,
             get_state {| threads := threads w; journal := j |}
                       (approval_thread_id request)
             = {| values := pre ++ [AIMessage text []];
                  next := Some human_approval |})
    by (intros j; apply get_state_lookup; exact Hth).
  unfold run_stream, run_update_state.
  rewrite !get_put_state, !Hg. unfold control_message.
  rewrite update_state_proposal, resume_control by reflexivity.
  eexists. split; [reflexivity|]. split.
  - rewrite get_put_state. reflexivity.
  - unfold put_state. cbn [journal]. rewrite app_nil_r, <- app_assoc.
    reflexivity.
Qed.

(** The engine never runs a local query. *)
Lemma pregel_loop_no_local_query (limit : nat) :
  forall (resuming : bool) (n : Node) (messages : AgentState),
    Forall (fun e => forall q, e <> LocalQuery q)
           (loop limit resuming n messages).1.
Proof.
  induction limit as [|limit IH]; intros resuming n messages.
  { constructor. }
  rewrite pregel_loop_S.
  destruct (interrupt_before n && negb resuming); [constructor|].
  destruct (run_node llm db get_skill list_skills n messages)
    as [e|[evs update]] eqn:Hnode.
  { repeat constructor. discriminate. }
  assert (Hevs : Forall (fun e => forall q, e <> LocalQuery q) evs).
  { destruct n.
    - rewrite run_node_agent in Hnode.
      injection Hnode as <- _. repeat constructor; discriminate.
    - cbn [run_node] in Hnode. unfold tool_node in Hnode.
      destruct (last messages) as [[| text calls | |]|]; try discriminate.
      injection Hnode as <- _. constructor; [discriminate|].
      apply Forall_fmap, Forall_true. intros c q. discriminate.
    - injection Hnode as <- _. repeat constructor; discriminate. }
  destruct (router n (messages ++ update)) as [[n'|]|]; try exact Hevs.
  specialize (IH false n' (messages ++ update)).
  destruct (loop limit false n' (messages ++ update)) as [evs' out].
  apply Forall_app. split; [exact Hevs|exact IH].
Qed.

Lemma stream_no_local_query (cp : Checkpoint)
    (inputs : option (list Message)) :
  Forall (fun e => forall q, e <> LocalQuery q) (resume cp inputs).1.
Proof.
  unfold stream. destruct inputs as [new|].
  - apply pregel_loop_no_local_query.
  - destruct (next cp); [apply pregel_loop_no_local_query|constructor].
Qed.

(** The auto-execute logic runs exactly one local query: the one
    extracted from the response text. *)
Lemma auto_execute_logic_query (tid : string) (request : ChatRequest)
    (w2 : World) (r : ChatResponse) :
  auto_execute request = true ->
  status r = "approval_required" ->
  exists w' reply evs,
    auto_execute_logic llm db get_skill list_skills tid request w2 r
    = (w', reply)
    /\ journal w'
       = journal w2 ++ [LocalQuery (extract_query (response r))] ++ evs
    /\ Forall (fun e => forall q, e <> LocalQuery q) evs.
Proof.
  intros Hauto Hstatus. unfold auto_execute_logic.
  rewrite Hauto, bool_decide_eq_true_2 by exact Hstatus. cbn [andb].
  unfold run_local_query.
  destruct (execute_query_locally db (extract_query (response r)))
    as [[result_text data] error].
  destruct (error_set error) as [e|].
  { eexists _, _, []. split; [reflexivity|]. split; [reflexivity|constructor]. }
  unfold run_stream.
  set (cp := get_state (run_update_state _ _ _) tid).
  pose proof (stream_no_local_query cp None) as Hno.
  destruct (resume cp None) as [evs out]. simpl in Hno.
  destruct out as [cp'|e cp'];
    (eexists _, _, evs; split; [reflexivity|]; split; [|exact Hno]);
    unfold run_update_state, put_state; cbn [journal];
    rewrite app_nil_r, <- app_assoc; reflexivity.
Qed.

Lemma auto_execute_logic_grows (tid : string) (request : ChatRequest)
    (w2 : World) (r : ChatResponse) :
  grows tid w2
    (auto_execute_logic llm db get_skill list_skills tid request w2 r).1.
Proof.
  unfold auto_execute_logic.
  destruct (auto_execute request && _); [|apply grows_refl].
  pose proof (run_local_query_grows tid w2 (extract_query (response r)))
    as H3.
  destruct (run_local_query db w2 (extract_query (response r)))
    as [w3 [[result_text data] error]]. simpl in H3.
  destruct (error_set error) as [e|]; [exact H3|].
  pose proof (run_update_state_grows tid w3 [control_message]) as H4.
  pose proof (run_stream_grows tid (run_update_state w3 tid [control_message])
                None) as H5.
  destruct (run_stream llm db get_skill list_skills
              (run_update_state w3 tid [control_message]) tid None)
    as [w5 out]. simpl in H5.
  assert (grows tid w2 w5)
    by (eapply grows_trans; [exact H3|eapply grows_trans; eassumption]).
  destruct out; assumption.
Qed.

(** A chat request on a thread that holds a proposal. *)
Lemma chat_on_proposal
    (uuid4 : string) (request : ChatRequest) (w : World) (tid : string)
    (pre : list Message) (text : string) :
  thread_id request = Some tid ->
  tid <> EmptyString ->
  threads w !! tid
  = Some {| values := pre ++ [AIMessage text []];
            next := Some human_approval |} ->
  let appended :=
    HumanMessage ("Rejected. Feedback: " +:+ message request) in
  let fed := (pre ++ [AIMessage text []]) ++ [appended] in
  let w1 := run_update_state w tid [appended] in
  chat_run llm db get_skill list_skills uuid4 request w
  = process_run llm db get_skill list_skills w1 tid None
  /\ get_state w1 tid = {| values := fed; next := Some human_approval |}
  /\ exists w' reply evs,
      chat llm db get_skill list_skills uuid4 request w = (w', reply)
      /\ journal w'
         = journal w
             ++ [NodeRun human_approval; NodeRun agent; ModelCall (minput fed)]
             ++ evs
      /\ fed `prefix_of` values (get_state w' tid).
Proof.
  intros Htid Hne Hth appended fed w1.
  assert (Hthread : chat_thread uuid4 request = tid).
  { unfold chat_thread, Py.truthy. rewrite Htid.
    rewrite bool_decide_eq_false_2 by exact Hne. reflexivity. }
  assert (Hrun : chat_run llm db get_skill list_skills uuid4 request w
                 = process_run llm db get_skill list_skills w1 tid None).
  { unfold chat_run. rewrite Hthread, (get_state_lookup _ _ _ Hth).
    reflexivity. }
  assert (Hst : get_state w1 tid
                = {| values := fed; next := Some human_approval |}).
  { subst w1. unfold run_update_state.
    rewrite get_put_state, (get_state_lookup _ _ _ Hth).
    apply update_state_proposal. }
  split; [exact Hrun|]. split; [exact Hst|].
  destruct (process_run_feedback w1 tid _ _ Hst)
    as (w2 & reply & evs & Hproc & Hj & Hv).
  assert (Hj2 : journal w2
                = journal w ++ [NodeRun human_approval; NodeRun agent;
                                ModelCall (minput fed)] ++ evs).
  { rewrite Hj. subst w1. unfold run_update_state, put_state. cbn [journal].
    rewrite app_nil_r. reflexivity. }
  unfold chat. rewrite Hrun, Hproc, Hthread.
  destruct reply as [r|code detail].
  - pose proof (auto_execute_logic_grows tid request w2 r) as [[k Hk] Hvals].
    destruct (auto_execute_logic llm db get_skill list_skills tid request w2 r)
      as [w' reply'].
    simpl in Hk, Hvals. exists w', reply', (evs ++ k).
    split; [reflexivity|]. split.
    + rewrite Hk, Hj2, <- !app_assoc. reflexivity.
    + etrans; [exact Hv|exact Hvals].
  - exists w2, (HttpError code detail), evs. auto.
Qed.

Lemma process_run_response (w : World) (tid : string)
    (inputs : option (list Message)) (w2 : World) (r : ChatResponse) :
  process_run llm db get_skill list_skills w tid inputs = (w2, Ok r) ->
  status r = "approval_required" ->
  exists m, last (values (get_state w2 tid)) = Some m
            /\ response r = content_of m.
Proof.
  unfold process_run.
  destruct (run_stream llm db get_skill list_skills w tid inputs)
    as [w' out].
  destruct out as [cp|e cp]; [|discriminate]. cbv zeta.
  destruct (last (values (get_state w' tid))) as [m|] eqn:Hlast.
  - intros [= <- <-] _. exists m. split; [exact Hlast|reflexivity].
  - intros [= <- <-]. discriminate.
Qed.

Lemma approval_approve_query (request : ApprovalRequest) (w : World)
    (m : Message) :
  awaiting_approval (get_state w (approval_thread_id request)) = true ->
  last (values (get_state w (approval_thread_id request))) = Some m ->
  decision request = "approve" ->
  exists w' reply evs,
    approval llm db get_skill list_skills request w = (w', reply)
    /\ journal w'
       = journal w ++ [LocalQuery (extract_query (content_of m))] ++ evs
    /\ Forall (fun e => forall q, e <> LocalQuery q) evs.
Proof.
  intros Hw Hlast Hdec. unfold approval. rewrite Hw. cbn [negb].
  destruct (decide (decision request = "approve")) as [_|?]; [|contradiction].
  rewrite Hlast. unfold run_local_query.
  destruct (execute_query_locally db (extract_query (content_of m)))
    as [[result_text data] error].
  destruct (error_set error) as [e|].
  { eexists _, _, []. split; [reflexivity|]. split; [reflexivity|constructor]. }
  unfold run_stream.
  set (cp := get_state (run_update_state _ _ _) (approval_thread_id request)).
  pose proof (stream_no_local_query cp None) as Hno.
  destruct (resume cp None) as [evs out]. simpl in Hno.
  destruct out as [cp'|e cp'];
    (eexists _, _, evs; split; [reflexivity|]; split; [|exact Hno]);
    unfold run_update_state, put_state; cbn [journal];
    rewrite app_nil_r, <- app_assoc; reflexivity.
Qed.

(** C8. On approval and on auto-execute exactly one query is handed to
    the database, and it is the query the text of the proposal stands
    for.  When the text holds a fenced block this is the content of the
    first one, stripped of surrounding white space: what stands between
    the first fence and the fence that follows it, without a leading
    ["sql"] tag (nothing else is taken for a tag).  When the text holds
    no fenced block it is the whole text, stripped.  The last part shows
    that this names one query for every text: a text with a fenced block
    has a first block, and [query_of] holds of one string at most. *)
Theorem executed_query_is_first_block :
  (forall (request : ApprovalRequest) (w : World) (m : Message),
      awaiting_approval (get_state w (approval_thread_id request)) = true ->
      last (values (get_state w (approval_thread_id request))) = Some m ->
      decision request = "approve" ->
      exists w' reply evs q,
        approval llm db get_skill list_skills request w = (w', reply)
        /\ journal w' = journal w ++ [LocalQuery q] ++ evs
        /\ Forall (fun e => forall q', e <> LocalQuery q') evs
        /\ query_of (content_of m) q)
  /\ (forall (uuid4 : string) (request : ChatRequest) (w w2 : World)
             (r : ChatResponse),
         chat_run llm db get_skill list_skills uuid4 request w = (w2, Ok r) ->
         auto_execute request = true ->
         status r = "approval_required" ->
         exists m w' reply evs q,
           last (values (get_state w2 (chat_thread uuid4 request))) = Some m
           /\ chat llm db get_skill list_skills uuid4 request w = (w', reply)
           /\ journal w' = journal w2 ++ [LocalQuery q] ++ evs
           /\ Forall (fun e => forall q', e <> LocalQuery q') evs
           /\ query_of (content_of m) q)
  /\ (forall text : string,
         (has_fenced_block text -> exists body, first_block text body)
         /\ (forall q q', query_of text q -> query_of text q' -> q = q')).
Proof.
  split; [|split]; cycle 2.
  { intros text. split; [apply fenced_block_has_first|].
    intros q q' Hq Hq'.
    rewrite (query_of_extract text q Hq), (query_of_extract text q' Hq').
    reflexivity. }
  - intros request w m Hw Hlast Hdec.
    destruct (approval_approve_query request w m Hw Hlast Hdec)
      as (w' & reply & evs & Happ & Hj & Hno).
    exists w', reply, evs, (extract_query (content_of m)).
    split; [exact Happ|]. split; [exact Hj|]. split; [exact Hno|].
    apply extract_query_spec.
  - intros uuid4 request w w2 r Hrun Hauto Hstatus.
    assert (Hm : exists m,
               last (values (get_state w2 (chat_thread uuid4 request))) = Some m
               /\ response r = content_of m).
    { unfold chat_run in Hrun.
      exact (process_run_response _ _ _ _ _ Hrun Hstatus). }
    destruct Hm as (m & Hlast & Hresp).
    destruct (auto_execute_logic_query (chat_thread uuid4 request) request
                w2 r Hauto Hstatus)
      as (w' & reply & evs & Hlogic & Hj & Hno).
    exists m, w', reply, evs, (extract_query (content_of m)).
    split; [exact Hlast|]. split.
    { unfold chat. rewrite Hrun. exact Hlogic. }
    rewrite <- Hresp. split; [exact Hj|]. split; [exact Hno|].
    apply extract_query_spec.
Qed.

(** *** Every reachable world keeps its suspended threads on a proposal *)

Lemma run_stream_holds_proposal (w : World) (tid : string)
    (inputs : option (list Message)) :
  (forall t cp, t <> tid -> threads w !! t = Some cp -> holds_proposal cp) ->
  forall t cp,
    threads (run_stream llm db get_skill list_skills w tid inputs).1 !! t
    = Some cp ->
    holds_proposal cp.
Proof.
  intros Hw t cp. unfold run_stream.
  pose proof (stream_holds_proposal llm db get_skill list_skills
                (get_state w tid) inputs) as Hout.
  destruct (resume (get_state w tid) inputs) as [evs out].
  unfold put_state. cbn [fst threads]. simpl in Hout.
  destruct (decide (tid = t)) as [->|Hne].
  - rewrite lookup_insert_eq. intros [= <-]. exact Hout.
  - rewrite lookup_insert_ne by exact Hne. apply Hw. congruence.
Qed.

Lemma run_update_state_others (w : World) (tid : string)
    (new : list Message) :
  (forall t cp, threads w !! t = Some cp -> holds_proposal cp) ->
  forall t cp,
    t <> tid ->
    threads (run_update_state w tid new) !! t = Some cp ->
    holds_proposal cp.
Proof.
  intros Hw t cp Hne. unfold run_update_state, put_state. cbn [threads].
  rewrite lookup_insert_ne by congruence. apply Hw.
Qed.

Lemma process_run_holds_proposal (w : World) (tid : string)
    (inputs : option (list Message)) :
  (forall t cp, t <> tid -> threads w !! t = Some cp -> holds_proposal cp) ->
  forall t cp,
    threads (process_run llm db get_skill list_skills w tid inputs).1 !! t
    = Some cp ->
    holds_proposal cp.
Proof.
  intros Hw. unfold process_run.
  pose proof (run_stream_holds_proposal w tid inputs Hw) as H.
  destruct (run_stream llm db get_skill list_skills w tid inputs)
    as [w' out]. cbn [fst] in H.
  destruct out as [cp'|e cp']; [|exact H]. cbv zeta.
  destruct (last (values (get_state w' tid))); exact H.
Qed.

Lemma auto_execute_logic_holds_proposal (tid : string)
    (request : ChatRequest) (w2 : World) (r : ChatResponse) :
  (forall t cp, threads w2 !! t = Some cp -> holds_proposal cp) ->
  forall t cp,
    threads (auto_execute_logic llm db get_skill list_skills tid request w2 r).1
      !! t = Some cp ->
    holds_proposal cp.
Proof.
  intros Hw. unfold auto_execute_logic.
  destruct (auto_execute request && _); [|exact Hw].
  unfold run_local_query.
  destruct (execute_query_locally db (extract_query (response r)))
    as [[result_text data] error].
  destruct (error_set error) as [e|]; [exact Hw|].
  set (w3 := {| threads := threads w2; journal := _ |}).
  pose proof (run_stream_holds_proposal
                (run_update_state w3 tid [control_message]) tid None
                (run_update_state_others w3 tid [control_message] Hw)) as H.
  destruct (run_stream llm db get_skill list_skills
              (run_update_state w3 tid [control_message]) tid None)
    as [w5 out]. cbn [fst] in H.
  destruct out; exact H.
Qed.

Lemma chat_holds_proposal (uuid4 : string) (request : ChatRequest)
    (w : World) :
  (forall t cp, threads w !! t = Some cp -> holds_proposal cp) ->
  forall t cp,
    threads (chat llm db get_skill list_skills uuid4 request w).1 !! t
    = Some cp ->
    holds_proposal cp.
Proof.
  intros Hw. unfold chat, chat_run.
  set (tid := chat_thread uuid4 request).
  set (w1 := if awaiting_approval (get_state w tid) then _ else w).
  assert (Hw1 : forall t cp, t <> tid -> threads w1 !! t = Some cp ->
                             holds_proposal cp).
  { subst w1. destruct (awaiting_approval (get_state w tid)).
    - apply run_update_state_others. exact Hw.
    - intros t cp _. apply Hw. }
  pose proof (process_run_holds_proposal w1 tid
                (if awaiting_approval (get_state w tid) then None
                 else Some [HumanMessage (message request)]) Hw1) as H.
  destruct (process_run llm db get_skill list_skills w1 tid _)
    as [w2 reply]. cbn [fst] in H.
  destruct reply as [r|code detail]; [|exact H].
  apply auto_execute_logic_holds_proposal. exact H.
Qed.

Lemma approval_holds_proposal (request : ApprovalRequest) (w : World) :
  (forall t cp, threads w !! t = Some cp -> holds_proposal cp) ->
  forall t cp,
    threads (approval llm db get_skill list_skills request w).1 !! t
    = Some cp ->
    holds_proposal cp.
Proof.
  intros Hw. unfold approval.
  set (tid := approval_thread_id request).
  destruct (negb (awaiting_approval (get_state w tid))); [exact Hw|].
  destruct (decide (decision request = "approve")) as [_|_].
  - destruct (last (values (get_state w tid))) as [m|]; [|exact Hw].
    unfold run_local_query.
    destruct (execute_query_locally db (extract_query (content_of m)))
      as [[result_text data] error].
    destruct (error_set error) as [e|]; [exact Hw|].
    set (w1 := {| threads := threads w; journal := _ |}).
    pose proof (run_stream_holds_proposal
                  (run_update_state w1 tid [control_message]) tid None
                  (run_update_state_others w1 tid [control_message] Hw)) as H.
    destruct (run_stream llm db get_skill list_skills
                (run_update_state w1 tid [control_message]) tid None)
      as [w3 out]. cbn [fst] in H.
    destruct out; exact H.
  - apply process_run_holds_proposal.
    apply run_update_state_others. exact Hw.
Qed.

Lemma reachable_holds_proposal (w : World) :
  reachable llm db get_skill list_skills w ->
  forall t cp, threads w !! t = Some cp -> holds_proposal cp.
Proof.
  induction 1 as [|uuid4 request w _ IH|request w _ IH].
  - intros t cp H. cbn [threads] in H. rewrite lookup_empty in H.
    discriminate.
  - apply chat_holds_proposal. exact IH.
  - apply approval_holds_proposal. exact IH.
Qed.

Lemma suspended_shape (w : World) (tid : string) (cp : Checkpoint) :
  reachable llm db get_skill list_skills w ->
  threads w !! tid = Some cp ->
  next cp = Some human_approval ->
  exists pre text,
    cp = {| values := pre ++ [AIMessage text []];
            next := Some human_approval |}.
Proof.
  intros Hreach Hth Hnext.
  destruct (reachable_holds_proposal w Hreach tid cp Hth Hnext)
    as (pre & text & Hv).
  exists pre, text. destruct cp as [vs nx]. simpl in *. congruence.
Qed.

(** C6 (as amended). Resuming a suspended thread on a message that
    starts with ["<SYSTEM:"] ends the run with the proposal kept in the
    log right before that message and without a model call.  The
    approval endpoint, which resumes this way after a successful local
    execution, reports the execution result to the caller. *)
Theorem control_resume_is_terminal :
  (forall (pre : list Message) (text t : string),
      String.prefix "<SYSTEM:" t = true ->
      resume (update_state
                {| values := pre ++ [AIMessage text []];
                   next := Some human_approval |}
                [HumanMessage t])
             None
      = ([NodeRun human_approval],
         Committed {| values := pre ++ [AIMessage text []; HumanMessage t];
                      next := None |}))
  /\ (forall (request : ApprovalRequest) (w : World) (cp : Checkpoint)
             (proposed : Message) (result_text : string)
             (data : option (list string * list (list string)))
             (error : option string),
         reachable llm db get_skill list_skills w ->
         threads w !! approval_thread_id request = Some cp ->
         next cp = Some human_approval ->
         last (values cp) = Some proposed ->
         decision request = "approve" ->
         execute_query_locally db (extract_query (content_of proposed))
         = (result_text, data, error) ->
         error_set error = None ->
         (exists text, proposed = AIMessage text [])
         /\ exists w',
             approval llm db get_skill list_skills request w
             = (w', Ok {| resp_thread_id := approval_thread_id request;
                          response := "**Execution Result**:" +:+ Py.nl
                                        +:+ Py.nl +:+ result_text;
                          status := "done";
                          structured_data := data;
                          query := Some (extract_query (content_of proposed)) |})
             /\ get_state w' (approval_thread_id request)
                = {| values := values cp ++ [control_message];
                     next := None |}
             /\ journal w'
                = journal w
                    ++ [LocalQuery (extract_query (content_of proposed));
                        NodeRun human_approval]).
Proof.
  split.
  - intros pre text t Ht.
    rewrite update_state_proposal, resume_control by exact Ht.
    rewrite <- app_assoc. reflexivity.
  - intros request w cp proposed result_text data error
           Hreach Hth Hnext Hlast Hdec Hq Herr.
    destruct (suspended_shape w _ cp Hreach Hth Hnext) as (pre & text & ->).
    cbn [values] in Hlast |- *. rewrite last_snoc in Hlast.
    injection Hlast as <-. split; [exists text; reflexivity|].
    exact (approval_approve_on_proposal request w pre text result_text data
             error Hth Hdec Hq Herr).
Qed.

(** C7. Rejecting a pending proposal appends the feedback, wrapped as
    ["Rejected. Feedback: ..."], in a [HumanMessage]; the resumed run
    passes [human_approval] and its next step is the agent, whose model
    call already sees the feedback message. *)
Theorem approval_reject_reenters_agent
    (request : ApprovalRequest) (w : World) (cp : Checkpoint) :
  reachable llm db get_skill list_skills w ->
  threads w !! approval_thread_id request = Some cp ->
  next cp = Some human_approval ->
  decision request <> "approve" ->
  (forall f, feedback request = Some f -> f <> EmptyString ->
             feedback_or_default (feedback request) = f)
  /\ exists w' reply evs,
      approval llm db get_skill list_skills request w = (w', reply)
      /\ journal w'
         = journal w
             ++ [NodeRun human_approval; NodeRun agent;
                 ModelCall
                   (minput
                      (values cp
                         ++ [HumanMessage
                               ("Rejected. Feedback: "
                                  +:+ feedback_or_default (feedback request))]))]
             ++ evs
      /\ (values cp
            ++ [HumanMessage
                  ("Rejected. Feedback: "
                     +:+ feedback_or_default (feedback request))])
           `prefix_of` values (get_state w' (approval_thread_id request)).
Proof.
  intros Hreach Hth Hnext Hdec.
  destruct (suspended_shape w _ cp Hreach Hth Hnext) as (pre & text & ->).
  exact (approval_reject_on_proposal request w pre text Hth Hdec).
Qed.

(** C9. A chat request on a thread stopped before [human_approval] does
    not start a turn on the submitted text: the text is appended as
    ["Rejected. Feedback: ..."] in a [HumanMessage] and the pending run
    is resumed without input, so that the first model call of the turn
    sees the log ending with that message. *)
Theorem chat_on_suspended_thread
    (uuid4 : string) (request : ChatRequest) (w : World) (tid : string)
    (cp : Checkpoint) :
  reachable llm db get_skill list_skills w ->
  thread_id request = Some tid ->
  tid <> EmptyString ->
  threads w !! tid = Some cp ->
  next cp = Some human_approval ->
  chat_run llm db get_skill list_skills uuid4 request w
  = process_run llm db get_skill list_skills
      (run_update_state w tid
         [HumanMessage ("Rejected. Feedback: " +:+ message request)])
      tid None
  /\ get_state
       (run_update_state w tid
          [HumanMessage ("Rejected. Feedback: " +:+ message request)])
       tid
     = {| values :=
            values cp
              ++ [HumanMessage ("Rejected. Feedback: " +:+ message request)];
          next := Some human_approval |}
  /\ exists w' reply evs,
      chat llm db get_skill list_skills uuid4 request w = (w', reply)
      /\ journal w'
         = journal w
             ++ [NodeRun human_approval; NodeRun agent;
                 ModelCall
                   (minput
                      (values cp
                         ++ [HumanMessage
                               ("Rejected. Feedback: " +:+ message request)]))]
             ++ evs
      /\ (values cp
            ++ [HumanMessage ("Rejected. Feedback: " +:+ message request)])
           `prefix_of` values (get_state w' tid).
Proof.
  intros Hreach Htid Hne Hth Hnext.
  destruct (suspended_shape w _ cp Hreach Hth Hnext) as (pre & text & ->).
  exact (chat_on_proposal uuid4 request w tid pre text Htid Hne Hth).
Qed.


(** C3 (as amended).  The checkpoints with [human_approval] pending
    are of two kinds.  Those a completed call of an endpoint leaves in
    the store, and those a run commits, have a log that ends with an
    [AIMessage] without tool calls; its text is not inspected.  The one
    [update_state] commits inside a call, on such a thread and before the
    resume that follows in the same call, still has [human_approval]
    pending and ends with the [HumanMessage] just appended, right after
    that [AIMessage]; the store it is applied to is that of a reachable
    world, the journal having grown by the local query at most.  A run that commits with [human_approval] pending
    stopped right after an agent step: the log ends with that step's
    [AIMessage] and the agent step is the last event of the run.
    Conversely an agent reply without tool calls that does not follow an
    [execute_postgres_query] result commits at once with [human_approval]
    pending.  The last part covers whatever a run leaves in the store,
    committed or after an exception. *)
Theorem human_approval_checkpoint :
  (forall (w : World) (tid : string) (cp : Checkpoint),
      reachable llm db get_skill list_skills w ->
      threads w !! tid = Some cp ->
      next cp = Some human_approval ->
      exists pre text, values cp = pre ++ [AIMessage text []])
  /\ (forall (cp : Checkpoint) (inputs : option (list Message))
          (evs : list Event) (cp' : Checkpoint),
      stream llm db get_skill list_skills cp inputs = (evs, Committed cp') ->
      next cp' = Some human_approval ->
      exists log text evs0,
        values cp' = log ++ [AIMessage text []]
        /\ llm (minput log) = (text, [])
        /\ evs = evs0 ++ [NodeRun agent; ModelCall (minput log)])
  /\ (forall (limit : nat) (resuming : bool) (messages : AgentState)
             (text : string),
         llm (minput messages) = (text, []) ->
         (forall c id,
             last messages <> Some (ToolMessage c "execute_postgres_query" id)) ->
         loop (S (S limit)) resuming agent messages
         = ([NodeRun agent; ModelCall (minput messages)],
            Committed {| values := messages ++ [AIMessage text []];
                         next := Some human_approval |}))
  /\ (forall (w0 w : World) (tid : string) (cp : Checkpoint) (t : string),
         reachable llm db get_skill list_skills w0 ->
         threads w = threads w0 ->
         threads w !! tid = Some cp ->
         next cp = Some human_approval ->
         exists pre text,
           values cp = pre ++ [AIMessage text []]
           /\ get_state (run_update_state w tid [HumanMessage t]) tid
              = {| values := pre ++ [AIMessage text []; HumanMessage t];
                   next := Some human_approval |})
  /\ (forall (cp : Checkpoint) (inputs : option (list Message)),
         next (checkpoint_of (resume cp inputs).2) = Some human_approval ->
         exists pre text,
           values (checkpoint_of (resume cp inputs).2)
           = pre ++ [AIMessage text []]).
Proof.
  split; [|split; [|split; [|split]]]; cycle 3.
  { intros w0 w tid cp t Hreach Hsame Hth Hnext.
    assert (Hth0 : threads w0 !! tid = Some cp) by (rewrite <- Hsame; exact Hth).
    destruct (suspended_shape w0 tid cp Hreach Hth0 Hnext) as (pre & text & ->).
    exists pre, text. split; [reflexivity|].
    unfold run_update_state.
    rewrite get_put_state, (get_state_lookup _ _ _ Hth).
    rewrite update_state_proposal, <- app_assoc. reflexivity. }
  { intros cp inputs.
    exact (stream_holds_proposal llm db get_skill list_skills cp inputs). }
  - intros w tid cp Hreach Hth. exact (reachable_holds_proposal w Hreach tid cp Hth).
  - intros cp inputs evs cp' Hrun Hnext. unfold stream in Hrun.
    destruct inputs as [new|].
    + destruct (pregel_loop_interrupt llm db get_skill list_skills
                    _ _ _ _ _ _ Hrun Hnext)
        as (log & text & evs0 & Hv & Hl & He & _); [discriminate|].
      exists log, text, evs0. auto.
    + destruct (next cp) as [n|] eqn:Hn.
      * destruct (pregel_loop_interrupt llm db get_skill list_skills
                    _ _ _ _ _ _ Hrun Hnext)
          as (log & text & evs0 & Hv & Hl & He & _); [reflexivity|].
        exists log, text, evs0. auto.
      * inversion Hrun; subst. congruence.
  - intros limit resuming messages text Hllm Hnot.
    rewrite pregel_loop_S.
    change (interrupt_before agent) with false. cbn [andb].
    rewrite run_node_agent, Hllm. cbn [fst snd router].
    rewrite should_continue_snoc. cbn [Routing.has_tool_calls].
    assert (Hto : match last messages with
                  | Some p => if Routing.is_execute_result p
                              then END else To human_approval
                  | None => To human_approval
                  end = To human_approval).
    { destruct (last messages) as [p|] eqn:Hp; [|reflexivity].
      destruct (Routing.is_execute_result p) eqn:He; [|reflexivity].
      apply is_execute_result_true in He as (c & id & ->).
      exfalso. exact (Hnot c id eq_refl). }
    rewrite Hto, pregel_loop_S. reflexivity.
Qed.

End ApiFacts.

(** ** The statements at concrete inputs *)

Import Scenario.

Lemma route_tool_output_after_tools_witness :
  pregel_loop plain_llm one_row_db silent_repo [] 1 false tools
    ([HumanMessage "q"] ++ [AIMessage "Running." ([] ++ [run_query_call])])
  = ([NodeRun tools; ToolRun run_query_call],
     Committed
       {| values :=
            ([HumanMessage "q"] ++ [AIMessage "Running." ([] ++ [run_query_call])])
              ++ (run_tool one_row_db silent_repo <$> ([] ++ [run_query_call]));
          next := None |})
  /\ (exists evs,
         (pregel_loop plain_llm one_row_db silent_repo [] 2 false tools
            ([HumanMessage "q"]
               ++ [AIMessage "Loading." ([] ++ [load_skill_call])])).1
         = (NodeRun tools :: (ToolRun <$> ([] ++ [load_skill_call])))
             ++ [NodeRun agent;
                 ModelCall
                   (SystemMessage (system_prompt []) ::
                      (([HumanMessage "q"]
                          ++ [AIMessage "Loading." ([] ++ [load_skill_call])])
                         ++ (run_tool one_row_db silent_repo
                               <$> ([] ++ [load_skill_call]))))]
             ++ evs)
  /\ (exists evs,
         (pregel_loop plain_llm one_row_db silent_repo [] 2 false tools
            ([HumanMessage "q"]
               ++ [AIMessage "Running."
                     ([run_query_call] ++ [load_skill_call])])).1
         = (NodeRun tools
              :: (ToolRun <$> ([run_query_call] ++ [load_skill_call])))
             ++ [NodeRun agent;
                 ModelCall
                   (SystemMessage (system_prompt []) ::
                      (([HumanMessage "q"]
                          ++ [AIMessage "Running."
                                ([run_query_call] ++ [load_skill_call])])
                         ++ (run_tool one_row_db silent_repo
                               <$> ([run_query_call] ++ [load_skill_call]))))]
             ++ evs).
Proof.
  split; [|split].
  - apply (route_tool_output_after_tools plain_llm one_row_db silent_repo []
             0 false [HumanMessage "q"] "Running." [] run_query_call).
    reflexivity.
  - apply (route_tool_output_after_tools plain_llm one_row_db silent_repo []
             0 false [HumanMessage "q"] "Loading." [] load_skill_call).
    discriminate.
  - apply (route_tool_output_after_tools plain_llm one_row_db silent_repo []
             0 false [HumanMessage "q"] "Running." [run_query_call]
             load_skill_call).
    discriminate.
Defined.

(** C2, as stated, fails: in this run the ToolDispatch step produces a
    result of [execute_postgres_query], yet the agent is invoked again in
    the same run, which then stops before [human_approval] instead of
    ending.  The model had asked for the query and for a skill in one
    reply, and the router looks at the last result only. *)
Lemma execute_result_followed_by_agent :
  exists i1 i2 cp,
    stream two_calls_llm one_row_db silent_repo [] empty_checkpoint
      (Some [HumanMessage "q"])
    = ([NodeRun agent; ModelCall i1;
        NodeRun tools; ToolRun run_query_call; ToolRun load_skill_call;
        NodeRun agent; ModelCall i2],
       Committed cp)
    /\ values cp
       = [HumanMessage "q";
          AIMessage "Running." [run_query_call; load_skill_call];
          ToolMessage ("| n |" +:+ newline +:+ "| --- |" +:+ newline
                         +:+ "| 1 |")
            "execute_postgres_query" "call_1";
          ToolMessage "Skill 'sales_analytics' not found." "load_skill"
            "call_2";
          AIMessage "Done." []]
    /\ next cp = Some human_approval.
Proof.
  eexists _, _, _. split; [vm_compute; reflexivity|].
  split; reflexivity.
Qed.

Lemma human_approval_checkpoint_witness :
  (exists pre text,
      [HumanMessage "hi"; AIMessage "Hello" []] = pre ++ [AIMessage text []])
  /\ (exists log text evs0,
         [HumanMessage "hi"; AIMessage "Hello" []] = log ++ [AIMessage text []]
         /\ plain_llm (SystemMessage (system_prompt []) :: log) = (text, [])
         /\ [NodeRun agent; ModelCall (SystemMessage (system_prompt []) :: [HumanMessage "hi"])]
            = evs0 ++ [NodeRun agent; ModelCall (SystemMessage (system_prompt []) :: log)])
  /\ pregel_loop plain_llm one_row_db silent_repo [] 2 false agent
       [HumanMessage "hi"]
     = ([NodeRun agent; ModelCall (SystemMessage (system_prompt []) :: [HumanMessage "hi"])],
        Committed {| values := [HumanMessage "hi"] ++ [AIMessage "Hello" []];
                     next := Some human_approval |})
  /\ (exists pre text,
         [HumanMessage "hi"; AIMessage "Hello" []] = pre ++ [AIMessage text []]
         /\ get_state
              (run_update_state greeted_world "T2" [HumanMessage "again"]) "T2"
            = {| values := pre ++ [AIMessage text []; HumanMessage "again"];
                 next := Some human_approval |})
  /\ (exists pre text,
         values
           (checkpoint_of
              (stream plain_llm one_row_db silent_repo [] empty_checkpoint
                 (Some [HumanMessage "hi"])).2)
         = pre ++ [AIMessage text []]).
Proof.
  pose proof (human_approval_checkpoint plain_llm one_row_db silent_repo [])
    as (Hreach & Hrun & Hstep & Hupdate & Hleft).
  split; [|split; [|split; [|split]]]; cycle 4.
  { apply (Hleft empty_checkpoint (Some [HumanMessage "hi"])). reflexivity. }
  - apply (Hreach greeted_world "T2"
             {| values := [HumanMessage "hi"; AIMessage "Hello" []];
                next := Some human_approval |});
      [|reflexivity|reflexivity].
    apply reachable_chat. apply reachable_start.
  - apply (Hrun empty_checkpoint (Some [HumanMessage "hi"])
             [NodeRun agent; ModelCall (SystemMessage (system_prompt []) :: [HumanMessage "hi"])]
             {| values := [HumanMessage "hi"; AIMessage "Hello" []];
                next := Some human_approval |});
      reflexivity.
  - apply (Hstep 0 false [HumanMessage "hi"] "Hello"); [reflexivity|].
    intros c id. discriminate.
  - apply (Hupdate greeted_world greeted_world "T2"
             {| values := [HumanMessage "hi"; AIMessage "Hello" []];
                next := Some human_approval |}
             "again");
      [|reflexivity|reflexivity|reflexivity].
    apply reachable_chat. apply reachable_start.
Defined.

(** C3, as stated, fails on both counts.  A reply in prose without tool
    calls leaves the thread before [human_approval], in a world the chat
    endpoint reaches from the empty store, although its text holds no
    fenced block.  And a second chat request on that thread first commits,
    through [update_state], a checkpoint that still has [human_approval]
    pending while its log ends with a [HumanMessage]; the run is resumed
    from that checkpoint. *)
Lemma human_approval_without_action_block :
  reachable plain_llm one_row_db silent_repo [] greeted_world
  /\ (exists cp,
         threads greeted_world !! "T2" = Some cp
         /\ next cp = Some human_approval
         /\ last (values cp) = Some (AIMessage "Hello" [])
         /\ ~ has_fenced_block "Hello")
  /\ chat_run plain_llm one_row_db silent_repo [] "T3"
       {| message := "again"; thread_id := Some "T2"; auto_execute := false |}
       greeted_world
     = process_run plain_llm one_row_db silent_repo []
         (run_update_state greeted_world "T2"
            [HumanMessage "Rejected. Feedback: again"])
         "T2" None
  /\ (exists cp,
         threads
           (run_update_state greeted_world "T2"
              [HumanMessage "Rejected. Feedback: again"])
           !! "T2" = Some cp
         /\ next cp = Some human_approval
         /\ last (values cp) = Some (HumanMessage "Rejected. Feedback: again")).
Proof.
  split; [apply reachable_chat; apply reachable_start|].
  split; [|split].
  - eexists. split; [reflexivity|]. split; [reflexivity|].
    split; [reflexivity|].
    apply no_fenced_block_intro. reflexivity.
  - reflexivity.
  - eexists. split; [reflexivity|]. split; reflexivity.
Qed.

Lemma invalid_resume_witness :
  approval plain_llm one_row_db silent_repo []
    {| decision := "approve"; feedback := None; approval_thread_id := "T9" |}
    idle_world
  = (idle_world, HttpError 400 "Conversation is not waiting for approval.")
  /\ Routing.check_approval_outcome ([HumanMessage "show 3 orders"] ++ [proposal])
     = Some END.
Proof.
  split.
  - apply (proj1 (invalid_resume plain_llm one_row_db silent_repo [])).
    reflexivity.
  - apply (proj2 (invalid_resume plain_llm one_row_db silent_repo [])
             [HumanMessage "show 3 orders"] proposal).
    intros t. discriminate.
Defined.

(** C5, as stated, fails: a resume of a suspended thread whose last
    message is the proposal itself, not a [HumanMessage], raises nothing
    and changes the checkpoint: the run ends and the pending marker is
    cleared. *)
Lemma resume_without_user_message_not_rejected :
  next suspended_checkpoint = Some human_approval
  /\ last (values suspended_checkpoint) = Some proposal
  /\ (forall t, proposal <> HumanMessage t)
  /\ exists cp',
      stream plain_llm one_row_db silent_repo [] suspended_checkpoint None
      = ([NodeRun human_approval], Committed cp')
      /\ cp' <> suspended_checkpoint.
Proof.
  split; [reflexivity|]. split; [reflexivity|].
  split; [intros t; discriminate|].
  eexists. split; [reflexivity|]. discriminate.
Qed.

Lemma suspended_world_reachable :
  reachable proposing_llm one_row_db silent_repo [] suspended_world.
Proof. apply reachable_chat. apply reachable_start. Defined.

Lemma control_resume_is_terminal_witness :
  stream proposing_llm one_row_db silent_repo []
    (update_state
       {| values := [HumanMessage "show 3 orders"]
                      ++ [AIMessage "```sql SELECT 1```" []];
          next := Some human_approval |}
       [HumanMessage "<SYSTEM: Execution Completed Locally>"])
    None
  = ([NodeRun human_approval],
     Committed
       {| values := [HumanMessage "show 3 orders"]
                      ++ [AIMessage "```sql SELECT 1```" [];
                          HumanMessage "<SYSTEM: Execution Completed Locally>"];
          next := None |})
  /\ exists w',
      approval proposing_llm one_row_db silent_repo []
        {| decision := "approve"; feedback := None;
           approval_thread_id := "T1" |}
        suspended_world
      = (w', Ok {| resp_thread_id := "T1";
                   response := "**Execution Result**:" +:+ Py.nl +:+ Py.nl
                                 +:+ "| n |" +:+ Py.nl +:+ "| --- |"
                                 +:+ Py.nl +:+ "| 1 |";
                   status := "done";
                   structured_data := Some (["n"], [["1"]]);
                   query := Some (extract_query (content_of proposal)) |})
      /\ get_state w' "T1"
         = {| values := values suspended_checkpoint ++ [control_message];
              next := None |}
      /\ journal w'
         = journal suspended_world
             ++ [LocalQuery (extract_query (content_of proposal));
                 NodeRun human_approval].
Proof.
  split.
  - apply (proj1 (control_resume_is_terminal proposing_llm one_row_db
                    silent_repo [])
             [HumanMessage "show 3 orders"] "```sql SELECT 1```"
             "<SYSTEM: Execution Completed Locally>").
    reflexivity.
  - apply (proj2 (control_resume_is_terminal proposing_llm one_row_db
                    silent_repo [])
             {| decision := "approve"; feedback := None;
                approval_thread_id := "T1" |}
             suspended_world suspended_checkpoint proposal _ _ None
             suspended_world_reachable);
      reflexivity.
Defined.

(** C6, as stated, fails in its last part: after an approval the thread is
    terminal and the proposal is still in the log, but the answer reported
    to the caller is the execution result, not the proposal. *)
Lemma approval_reports_execution_result :
  reachable proposing_llm one_row_db silent_repo [] suspended_world
  /\ get_state suspended_world "T1" = suspended_checkpoint
  /\ exists w' r,
      approval proposing_llm one_row_db silent_repo []
        {| decision := "approve"; feedback := None;
           approval_thread_id := "T1" |}
        suspended_world
      = (w', Ok r)
      /\ next (get_state w' "T1") = None
      /\ values (get_state w' "T1")
         = [HumanMessage "show 3 orders"; proposal; control_message]
      /\ response r <> content_of proposal.
Proof.
  split; [exact suspended_world_reachable|]. split; [reflexivity|].
  eexists _, _. split; [vm_compute; reflexivity|].
  split; [reflexivity|]. split; [reflexivity|]. discriminate.
Qed.

Lemma approval_reject_reenters_agent_witness :
  feedback_or_default (Some "use last 7 days") = "use last 7 days"
  /\ exists w' reply evs,
      approval proposing_llm one_row_db silent_repo []
        {| decision := "reject"; feedback := Some "use last 7 days";
           approval_thread_id := "T1" |}
        suspended_world
      = (w', reply)
      /\ journal w'
         = journal suspended_world
             ++ [NodeRun human_approval; NodeRun agent;
                 ModelCall
                   (SystemMessage (system_prompt []) ::
                      (values suspended_checkpoint
                         ++ [HumanMessage
                               ("Rejected. Feedback: "
                                  +:+ feedback_or_default
                                        (Some "use last 7 days"))]))]
             ++ evs
      /\ (values suspended_checkpoint
            ++ [HumanMessage
                  ("Rejected. Feedback: "
                     +:+ feedback_or_default (Some "use last 7 days"))])
           `prefix_of` values (get_state w' "T1").
Proof.
  pose proof (approval_reject_reenters_agent proposing_llm one_row_db
                silent_repo []
                {| decision := "reject"; feedback := Some "use last 7 days";
                   approval_thread_id := "T1" |}
                suspended_world suspended_checkpoint
                suspended_world_reachable eq_refl eq_refl) as H.
  destruct H as [Hf Hrun]; [discriminate|].
  split; [|exact Hrun].
  apply Hf; [reflexivity|discriminate].
Defined.

Lemma executed_query_is_first_block_witness :
  (exists w' reply evs,
      approval fenced_llm one_row_db silent_repo []
        {| decision := "approve"; feedback := None;
           approval_thread_id := "T1" |}
        fenced_world
      = (w', reply)
      /\ journal w'
         = journal fenced_world
             ++ [LocalQuery "SELECT * FROM orders LIMIT 3;"] ++ evs
      /\ Forall (fun e => forall q, e <> LocalQuery q) evs)
  /\ (exists w' reply evs,
         chat bare_llm one_row_db silent_repo [] "T2"
           {| message := "hi"; thread_id := None; auto_execute := true |}
           idle_world
         = (w', reply)
         /\ journal w'
            = journal
                (chat_run bare_llm one_row_db silent_repo [] "T2"
                   {| message := "hi"; thread_id := None;
                      auto_execute := true |}
                   idle_world).1
                ++ [LocalQuery "SELECT 2"] ++ evs
         /\ Forall (fun e => forall q, e <> LocalQuery q) evs).
Proof.
  split.
  - destruct (proj1 (executed_query_is_first_block fenced_llm one_row_db
                       silent_repo [])
                {| decision := "approve"; feedback := None;
                   approval_thread_id := "T1" |}
                fenced_world (AIMessage fenced_text []) eq_refl eq_refl eq_refl)
      as (w' & reply & evs & q & Happ & Hj & Hno & Hq).
    assert (Hquery : q = "SELECT * FROM orders LIMIT 3;").
    { apply (query_of_block fenced_text
               ("sql" +:+ newline +:+ "SELECT * FROM orders LIMIT 3;"
                  +:+ newline) q Hq).
      exact (first_block_intro ("Here is the query:" +:+ newline)
               ("sql" +:+ newline +:+ "SELECT * FROM orders LIMIT 3;"
                  +:+ newline)
               (newline +:+ "Shall I run it?") eq_refl eq_refl). }
    subst q. exists w', reply, evs. auto.
  - destruct (proj1 (proj2 (executed_query_is_first_block bare_llm one_row_db
                              silent_repo []))
                "T2"
                {| message := "hi"; thread_id := None; auto_execute := true |}
                idle_world
                (chat_run bare_llm one_row_db silent_repo [] "T2"
                   {| message := "hi"; thread_id := None;
                      auto_execute := true |}
                   idle_world).1
                {| resp_thread_id := "T2"; response := bare_text;
                   status := "approval_required";
                   structured_data := None; query := None |}
                eq_refl eq_refl eq_refl)
      as (m & w' & reply & evs & q & Hlast & Hchat & Hj & Hno & Hq).
    injection Hlast as <-.
    assert (Hquery : q = "SELECT 2").
    { apply (query_of_plain bare_text q Hq).
      apply no_fenced_block_intro. reflexivity. }
    subst q. exists w', reply, evs. auto.
Defined.

Lemma chat_on_suspended_thread_witness :
  exists w' reply evs,
    chat proposing_llm one_row_db silent_repo [] "T2"
      {| message := "use last 7 days"; thread_id := Some "T1";
         auto_execute := false |}
      suspended_world
    = (w', reply)
    /\ journal w'
       = journal suspended_world
           ++ [NodeRun human_approval; NodeRun agent;
               ModelCall
                 (SystemMessage (system_prompt []) ::
                    (values suspended_checkpoint
                       ++ [HumanMessage
                             ("Rejected. Feedback: " +:+ "use last 7 days")]))]
           ++ evs
    /\ (values suspended_checkpoint
          ++ [HumanMessage ("Rejected. Feedback: " +:+ "use last 7 days")])
         `prefix_of` values (get_state w' "T1").
Proof.
  apply (chat_on_suspended_thread proposing_llm one_row_db silent_repo [] "T2"
           {| message := "use last 7 days"; thread_id := Some "T1";
              auto_execute := false |}
           suspended_world "T1" suspended_checkpoint
           suspended_world_reachable);
    [reflexivity|discriminate|reflexivity|reflexivity].
Defined.

Lemma execute_postgres_query_result_witness :
  (execute_postgres_query failing_db "SELECT * FROM orders"
   = "Error executing query: relation orders does not exist"
   /\ String.prefix "Error executing query:"
        (execute_postgres_query failing_db "SELECT * FROM orders") = true)
  /\ execute_postgres_query empty_db "SELECT 1"
     = "Query executed successfully per row count: 0"
  /\ execute_postgres_query Sample.no_result_set_db "DELETE FROM orders"
     = "Query executed successfully per row count: 0"
  /\ execute_postgres_query Sample.two_rows_db "SELECT id, total FROM orders"
     = String.concat newline
         [ "| id | total |";
           "| --- | --- |";
           "| 1 | 9.5 |";
           "| 2 | 12 |" ]
  /\ execute_postgres_query Sample.cities_db "SELECT id, city FROM cities"
     = String.concat newline
         [ "| id | city |";
           "| --- | --- |";
           "| 1 | Oslo |";
           "| 2 | Rome |";
           "| 3 | Lima |";
           "| 4 | Kiev |";
           "| 5 | Bonn |";
           "| 6 | Bern |";
           "| 7 | Doha |";
           "| 8 | Riga |";
           "| 9 | Baku |";
           "| 10 | Nice |";
           "... (2 more rows)" ].
Proof.
  split; [|split; [|split; [|split]]].
  - exact (proj1 (execute_postgres_query_result failing_db
                    "SELECT * FROM orders")
             "relation orders does not exist" eq_refl).
  - exact (proj1 (proj2 (execute_postgres_query_result empty_db "SELECT 1"))
             (Some ["n"]) [] eq_refl (or_intror (or_intror eq_refl))).
  - exact (proj1 (proj2 (execute_postgres_query_result Sample.no_result_set_db
                           "DELETE FROM orders"))
             None [] eq_refl (or_introl eq_refl)).
  - exact (proj2 (proj2 (execute_postgres_query_result Sample.two_rows_db
                           "SELECT id, total FROM orders"))
             "id" ["total"] ["1"; "9.5"] [["2"; "12"]] eq_refl).
  - exact (proj2 (proj2 (execute_postgres_query_result Sample.cities_db
                           "SELECT id, city FROM cities"))
             "id" ["city"] ["1"; "Oslo"] (tail Sample.city_rows) eq_refl).
Defined.

(** * Further properties *)

(** ** Routers *)

(** X1. Each router raises (on [messages[-1]]) exactly on the empty
    log. *)
Theorem routers_raise_only_on_empty_log (messages : AgentState) :
  (Routing.should_continue messages = None <-> messages = [])
  /\ (Routing.route_tool_output messages = None <-> messages = [])
  /\ (Routing.check_approval_outcome messages = None <-> messages = []).
Proof.
  destruct messages as [|m messages] using rev_ind.
  - repeat split; reflexivity.
  - clear IHmessages.
    rewrite should_continue_snoc, route_tool_output_snoc.
    unfold Routing.check_approval_outcome. rewrite last_snoc.
    assert (Hne : messages ++ [m] <> []) by (destruct messages; discriminate).
    repeat split; try (intros H; exfalso; exact (Hne H)); try discriminate.
    destruct m as [c| | |]; try discriminate.
    destruct (String.prefix _ _); discriminate.
Qed.

Lemma routers_raise_only_on_empty_log_witness :
  Routing.should_continue [] = None
  /\ Routing.route_tool_output [] = None
  /\ Routing.check_approval_outcome [] = None.
Proof.
  destruct (routers_raise_only_on_empty_log []) as (H1 & H2 & H3).
  split; [|split]; [apply H1|apply H2|apply H3]; reflexivity.
Defined.

(** X2. The edges of the graph: after the agent the run goes to the
    tools, to the approval gate or ends, never back to the agent; after
    the tools and after the approval gate it goes to the agent or ends. *)
Theorem graph_transitions (messages : AgentState) (t : Target) :
  (Routing.should_continue messages = Some t ->
   t = To tools \/ t = To human_approval \/ t = END)
  /\ (Routing.route_tool_output messages = Some t -> t = To agent \/ t = END)
  /\ (Routing.check_approval_outcome messages = Some t ->
      t = To agent \/ t = END).
Proof.
  destruct messages as [|m messages _] using rev_ind.
  { repeat split; discriminate. }
  rewrite should_continue_snoc, route_tool_output_snoc.
  unfold Routing.check_approval_outcome. rewrite last_snoc.
  split; [|split].
  - destruct (Routing.has_tool_calls m); [intros [= <-]; auto|].
    destruct (last messages) as [p|]; [|intros [= <-]; auto].
    destruct (Routing.is_execute_result p); intros [= <-]; auto.
  - destruct (Routing.is_execute_result m); intros [= <-]; auto.
  - destruct m as [c| | |]; try (intros [= <-]; auto).
    destruct (String.prefix _ _); intros [= <-]; auto.
Qed.

Lemma graph_transitions_witness :
  (To human_approval = To tools \/ To human_approval = To human_approval
   \/ To human_approval = END)
  /\ (To agent = To agent \/ To agent = END)
  /\ (END = To agent \/ END = END).
Proof.
  split; [|split].
  - apply (proj1 (graph_transitions [HumanMessage "q"; AIMessage "Hello" []]
                    (To human_approval))).
    reflexivity.
  - apply (proj1 (proj2 (graph_transitions
                           [AIMessage "Loading." [Scenario.load_skill_call];
                            ToolMessage "schema" "load_skill" "call_2"]
                           (To agent)))).
    reflexivity.
  - apply (proj2 (proj2 (graph_transitions
                           [AIMessage "Hello" []; control_message] END))).
    reflexivity.
Defined.

(** ** Runs of the graph *)

Section RunFacts.
Context (llm : list Message -> string * list ToolCall)
        (db : string -> DbReply)
        (get_skill : string -> RepoReply)
        (list_skills : list Skill).

Local Abbreviation loop := (pregel_loop llm db get_skill list_skills).
Local Abbreviation minput log :=
  (SystemMessage (system_prompt list_skills) :: log).
Local Abbreviation run := (stream llm db get_skill list_skills).
Local Abbreviation step := (run_node llm db get_skill list_skills).

(** Induction along the steps of the loop. *)
Lemma pregel_loop_cases
    (P : nat -> bool -> Node -> AgentState -> list Event * Outcome -> Prop) :
  (forall resuming n messages,
      P 0 resuming n messages
        ([], Raised GraphRecursionError
               {| values := messages; next := Some n |})) ->
  (forall limit messages,
      P (S limit) false human_approval messages
        ([], Committed {| values := messages; next := Some human_approval |})) ->
  (forall limit resuming n messages e,
      (n = human_approval -> resuming = true) ->
      step n messages = inl e ->
      P (S limit) resuming n messages
        ([NodeRun n], Raised e {| values := messages; next := Some n |})) ->
  (forall limit resuming n messages evs update,
      (n = human_approval -> resuming = true) ->
      step n messages = inr (evs, update) ->
      router n (messages ++ update) = None ->
      P (S limit) resuming n messages
        (evs, Raised IndexError
                {| values := messages ++ update; next := None |})) ->
  (forall limit resuming n messages evs update,
      (n = human_approval -> resuming = true) ->
      step n messages = inr (evs, update) ->
      router n (messages ++ update) = Some END ->
      P (S limit) resuming n messages
        (evs, Committed {| values := messages ++ update; next := None |})) ->
  (forall limit resuming n messages evs update n' evs' out,
      (n = human_approval -> resuming = true) ->
      step n messages = inr (evs, update) ->
      router n (messages ++ update) = Some (To n') ->
      loop limit false n' (messages ++ update) = (evs', out) ->
      P limit false n' (messages ++ update) (evs', out) ->
      P (S limit) resuming n messages (evs ++ evs', out)) ->
  forall limit resuming n messages,
    P limit resuming n messages (loop limit resuming n messages).
Proof.
  intros Hzero Hstop Hraise Hnone Hend Hnext.
  induction limit as [|limit IH]; intros resuming n messages.
  { apply Hzero. }
  rewrite pregel_loop_S.
  destruct (interrupt_before n && negb resuming) eqn:Hint.
  { apply andb_true_iff in Hint as [Hn Hr].
    apply bool_decide_eq_true in Hn. apply negb_true_iff in Hr. subst.
    apply Hstop. }
  assert (Hres : n = human_approval -> resuming = true).
  { intros ->. cbn in Hint. destruct resuming; [reflexivity|discriminate]. }
  destruct (step n messages) as [e|[evs update]] eqn:Hnode.
  { apply Hraise; assumption. }
  destruct (router n (messages ++ update)) as [[n'|]|] eqn:Hroute.
  - destruct (loop limit false n' (messages ++ update)) as [evs' out] eqn:Hrec.
    eapply Hnext; try eassumption. rewrite <- Hrec. apply IH.
  - eapply Hend; eassumption.
  - eapply Hnone; eassumption.
Qed.

(** What one node contributes. *)
Lemma run_node_facts (n : Node) (messages : AgentState) (evs : list Event)
    (update : list Message) :
  step n messages = inr (evs, update) ->
  Forall (fun m => written_by_node m = true) update
  /\ (exists rest, evs = NodeRun n :: rest
                   /\ Forall (fun e => is_node_run e = false) rest)
  /\ Forall (fun e => forall i, e = ModelCall i ->
               i = minput messages
               /\ update = [AIMessage (llm i).1 (llm i).2]) evs
  /\ (forall k text calls k',
         update = k ++ AIMessage text calls :: k' ->
         k = [] /\ llm (minput messages) = (text, calls)
         /\ ModelCall (minput messages) ∈ evs).
Proof.
  destruct n; [rewrite run_node_agent|cbn [run_node]..].
  - intros [= <- <-]. refine (conj _ (conj _ (conj _ _))).
    + repeat constructor.
    + eexists. split; [reflexivity|]. repeat constructor.
    + apply Forall_cons. split; [intros i; discriminate|].
      apply Forall_cons. split; [|apply Forall_nil_2].
      intros i [= <-]. split; reflexivity.
    + intros k text calls k' Hk.
      destruct k as [|m k]; [|destruct k; discriminate Hk].
      injection Hk as Ht Hc _. split; [reflexivity|]. split.
      * rewrite <- Ht, <- Hc. destruct (llm (minput messages)); reflexivity.
      * apply list_elem_of_further, list_elem_of_here.
  - unfold tool_node.
    destruct (last messages) as [[| c calls | |]|]; try discriminate.
    intros [= <- <-]. refine (conj _ (conj _ (conj _ _))).
    + apply Forall_fmap, Forall_true. intros c'. reflexivity.
    + eexists. split; [reflexivity|].
      apply Forall_fmap, Forall_true. intros c'. reflexivity.
    + constructor; [discriminate|].
      apply Forall_fmap, Forall_true. intros c' i. discriminate.
    + intros k text cs k' Hk. exfalso.
      assert (Hin : AIMessage text cs
                      ∈ run_tool db get_skill <$> calls).
      { rewrite Hk. apply elem_of_app. right. apply list_elem_of_here. }
      apply list_elem_of_fmap in Hin as (c' & Hc' & _). discriminate Hc'.
  - intros [= <- <-]. refine (conj _ (conj _ (conj _ _))).
    + constructor.
    + eexists. split; [reflexivity|]. constructor.
    + apply Forall_cons. split; [intros i; discriminate|apply Forall_nil_2].
    + intros k text calls k' Hk. destruct k; discriminate Hk.
Qed.

Lemma pregel_loop_appends (limit : nat) (resuming : bool) (n : Node)
    (messages : AgentState) :
  exists added,
    values (checkpoint_of (loop limit resuming n messages).2)
    = messages ++ added
    /\ Forall (fun m => written_by_node m = true) added.
Proof.
  apply (pregel_loop_cases
           (fun _ _ _ messages r =>
              exists added,
                values (checkpoint_of r.2) = messages ++ added
                /\ Forall (fun m => written_by_node m = true) added));
    clear; intros; cbn [snd checkpoint_of values] in *;
    try (exists []; rewrite app_nil_r; split; [reflexivity|constructor]).
  - exists update. split; [reflexivity|].
    eapply run_node_facts; eassumption.
  - exists update. split; [reflexivity|].
    eapply run_node_facts; eassumption.
  - destruct H3 as (added & Hfinal & Hadded).
    exists (update ++ added). rewrite Hfinal, <- app_assoc.
    split; [reflexivity|]. apply Forall_app. split; [|exact Hadded].
    eapply run_node_facts; eassumption.
Qed.

(** Every model call of a run is made on the system prompt followed by
    the log of that moment, and its reply is what comes next in the
    log. *)
Lemma pregel_loop_model_inputs (limit : nat) (resuming : bool) (n : Node)
    (messages : AgentState) :
  Forall (fun e => forall i, e = ModelCall i ->
            exists l, i = minput l
                      /\ messages `prefix_of` l
                      /\ (l ++ [AIMessage (llm i).1 (llm i).2])
                           `prefix_of`
                           values (checkpoint_of
                                     (loop limit resuming n messages).2))
         (loop limit resuming n messages).1.
Proof.
  apply (pregel_loop_cases
           (fun _ _ _ messages r =>
              Forall (fun e => forall i, e = ModelCall i ->
                        exists l, i = minput l
                                  /\ messages `prefix_of` l
                                  /\ (l ++ [AIMessage (llm i).1 (llm i).2])
                                       `prefix_of` values (checkpoint_of r.2))
                     r.1));
    clear; intros; cbn [fst snd checkpoint_of values] in *;
    try (repeat constructor; discriminate).
  - destruct (run_node_facts _ _ _ _ H0) as (_ & _ & Hin & _).
    eapply Forall_impl; [exact Hin|]. intros e He i Hi.
    destruct (He i Hi) as [-> ->].
    exists messages. split; [reflexivity|]. split; reflexivity.
  - destruct (run_node_facts _ _ _ _ H0) as (_ & _ & Hin & _).
    eapply Forall_impl; [exact Hin|]. intros e He i Hi.
    destruct (He i Hi) as [-> ->].
    exists messages. split; [reflexivity|]. split; reflexivity.
  - destruct (run_node_facts _ _ _ _ H0) as (_ & _ & Hin & _).
    pose proof (pregel_loop_extends llm db get_skill list_skills limit false n'
                  (messages ++ update)) as Hext.
    rewrite H2 in Hext. cbn [snd] in Hext.
    apply Forall_app. split.
    + eapply Forall_impl; [exact Hin|]. intros e He i Hi.
      destruct (He i Hi) as [-> Hu]. rewrite Hu in Hext.
      exists messages. split; [reflexivity|].
      split; [reflexivity|exact Hext].
    + eapply Forall_impl; [exact H3|]. intros e He i Hi.
      destruct (He i Hi) as (l & Hl & Hp1 & Hp2). exists l.
      split; [exact Hl|]. split; [|exact Hp2].
      etrans; [|exact Hp1]. apply prefix_app_r. reflexivity.
Qed.

Lemma no_reply_before_start (messages k rest : list Message) (m : Message) :
  messages <> (messages ++ k) ++ m :: rest.
Proof.
  intros H. apply (f_equal length) in H.
  rewrite !length_app in H. cbn [length] in H. lia.
Qed.

(** Every reply found in the log after a run, past the log the run
    started from, is the model's answer to the system prompt followed by
    the log before that reply, and the run made that call. *)
Lemma pregel_loop_replies (limit : nat) (resuming : bool) (n : Node)
    (messages : AgentState) :
  forall l text calls rest,
    values (checkpoint_of (loop limit resuming n messages).2)
    = l ++ AIMessage text calls :: rest ->
    messages `prefix_of` l ->
    llm (minput l) = (text, calls)
    /\ ModelCall (minput l) ∈ (loop limit resuming n messages).1.
Proof.
  apply (pregel_loop_cases
           (fun _ _ _ messages r =>
              forall l text calls rest,
                values (checkpoint_of r.2) = l ++ AIMessage text calls :: rest ->
                messages `prefix_of` l ->
                llm (minput l) = (text, calls)
                /\ ModelCall (minput l) ∈ r.1));
    clear; intros; cbn [fst snd checkpoint_of values] in *.
  - destruct H0 as [k ->]. exfalso. exact (no_reply_before_start _ _ _ _ H).
  - destruct H0 as [k ->]. exfalso. exact (no_reply_before_start _ _ _ _ H).
  - destruct H2 as [k ->]. exfalso. exact (no_reply_before_start _ _ _ _ H1).
  - destruct H3 as [k ->]. rewrite <- app_assoc in H2.
    apply app_inv_head in H2.
    destruct (run_node_facts _ _ _ _ H0) as (_ & _ & _ & Hrep).
    destruct (Hrep _ _ _ _ H2) as (-> & Hllm & Hin).
    rewrite app_nil_r. split; assumption.
  - destruct H3 as [k ->]. rewrite <- app_assoc in H2.
    apply app_inv_head in H2.
    destruct (run_node_facts _ _ _ _ H0) as (_ & _ & _ & Hrep).
    destruct (Hrep _ _ _ _ H2) as (-> & Hllm & Hin).
    rewrite app_nil_r. split; assumption.
  - destruct H5 as [k ->].
    pose proof (pregel_loop_appends limit false n' (messages ++ update))
      as (added & Hfinal & _).
    rewrite H2 in Hfinal. cbn [snd] in Hfinal.
    assert (Hsplit : update ++ added = k ++ AIMessage text calls :: rest).
    { apply (app_inv_head messages).
      rewrite !app_assoc, <- Hfinal. exact H4. }
    destruct (run_node_facts _ _ _ _ H0) as (_ & _ & _ & Hrep).
    assert (Hlater : forall k0, k = update ++ k0 ->
               llm (minput (messages ++ k)) = (text, calls)
               /\ ModelCall (minput (messages ++ k)) ∈ evs ++ evs').
    { intros k0 ->.
      destruct (H3 (messages ++ update ++ k0) text calls rest) as [Hllm Hin].
      - exact H4.
      - rewrite app_assoc. apply prefix_app_r. reflexivity.
      - split; [exact Hllm|]. apply elem_of_app. right. exact Hin. }
    apply app_eq_inv in Hsplit as [(k0 & Hu & Hk0)|(k0 & Hk & _)].
    + destruct k0 as [|m k0].
      * apply (Hlater []). rewrite app_nil_r in Hu |- *. symmetry. exact Hu.
      * cbn [app] in Hk0. injection Hk0 as <- _.
        destruct (Hrep _ _ _ _ Hu) as (-> & Hllm & Hin).
        rewrite app_nil_r. split; [exact Hllm|].
        apply elem_of_app. left. exact Hin.
    + exact (Hlater k0 Hk).
Qed.

Lemma pregel_loop_gate (limit : nat) (resuming : bool) (n : Node)
    (messages : AgentState) :
  (NodeRun human_approval ∉ tail (loop limit resuming n messages).1)
  /\ (head (loop limit resuming n messages).1 = Some (NodeRun human_approval) ->
      n = human_approval /\ resuming = true).
Proof.
  apply (pregel_loop_cases
           (fun _ resuming n _ r =>
              (NodeRun human_approval ∉ tail r.1)
              /\ (head r.1 = Some (NodeRun human_approval) ->
                  n = human_approval /\ resuming = true)));
    clear; intros; cbn [fst] in *.
  - split; [apply not_elem_of_nil|discriminate].
  - split; [apply not_elem_of_nil|discriminate].
  - split; [apply not_elem_of_nil|]. cbn. intros [= ->]. auto.
  - destruct (run_node_facts _ _ _ _ H0) as (_ & (rest & -> & Hrest) & _).
    split.
    + cbn. intros Hin. rewrite Forall_forall in Hrest.
      specialize (Hrest _ Hin). discriminate.
    + cbn. intros [= ->]. auto.
  - destruct (run_node_facts _ _ _ _ H0) as (_ & (rest & -> & Hrest) & _).
    split.
    + cbn. intros Hin. rewrite Forall_forall in Hrest.
      specialize (Hrest _ Hin). discriminate.
    + cbn. intros [= ->]. auto.
  - destruct (run_node_facts _ _ _ _ H0) as (_ & (rest & -> & Hrest) & _).
    destruct H3 as [Htail Hhead].
    split.
    + cbn. intros Hin. apply elem_of_app in Hin as [Hin|Hin].
      * rewrite Forall_forall in Hrest. specialize (Hrest _ Hin). discriminate.
      * destruct evs' as [|e' evs']; [exact (not_elem_of_nil _ Hin)|].
        apply elem_of_cons in Hin as [<-|Hin].
        -- destruct (Hhead eq_refl) as [_ ?]. discriminate.
        -- exact (Htail Hin).
    + cbn. intros [= ->]. auto.
Qed.

(** X3. A run only appends to the log, and what it appends are replies
    of the agent and tool results: the input messages stay where they
    were, and neither a user message nor the system prompt is written by
    a node. *)
Theorem run_appends_node_messages
    (cp : Checkpoint) (inputs : option (list Message)) :
  exists added,
    values (checkpoint_of (run cp inputs).2)
    = (values cp ++ default [] inputs) ++ added
    /\ Forall (fun m => written_by_node m = true) added.
Proof.
  unfold stream. destruct inputs as [new|]; cbn [default].
  - apply pregel_loop_appends.
  - rewrite app_nil_r. destruct (next cp) as [n|].
    + apply pregel_loop_appends.
    + exists []. rewrite app_nil_r. split; [reflexivity|constructor].
Qed.

(** X5. The approval node runs only as the first step of a resume of a
    thread that waits for approval; a run never walks through the gate on
    its own. *)
Theorem approval_gate_runs_only_on_resume
    (cp : Checkpoint) (inputs : option (list Message)) :
  (NodeRun human_approval ∉ tail (run cp inputs).1)
  /\ (NodeRun human_approval ∈ (run cp inputs).1 ->
      inputs = None /\ next cp = Some human_approval).
Proof.
  assert (Hloop : forall resuming n messages,
             (NodeRun human_approval ∉ tail (loop recursion_limit resuming n messages).1)
             /\ (NodeRun human_approval ∈ (loop recursion_limit resuming n messages).1 ->
                 n = human_approval /\ resuming = true)).
  { intros resuming n messages.
    destruct (pregel_loop_gate recursion_limit resuming n messages)
      as [Htail Hhead].
    split; [exact Htail|]. intros Hin.
    destruct ((loop recursion_limit resuming n messages).1) as [|e evs];
      [exact (False_ind _ (not_elem_of_nil _ Hin))|].
    apply elem_of_cons in Hin as [<-|Hin]; [apply Hhead; reflexivity|].
    exfalso. exact (Htail Hin). }
  unfold stream. destruct inputs as [new|].
  - destruct (Hloop false agent (values cp ++ new)) as [Htail Hin].
    split; [exact Htail|]. intros H. destruct (Hin H) as [? _]. discriminate.
  - destruct (next cp) as [n|].
    + destruct (Hloop true n (values cp)) as [Htail Hin].
      split; [exact Htail|]. intros H. destruct (Hin H) as [-> _]. auto.
    + split; [apply not_elem_of_nil|].
      intros H. exact (False_ind _ (not_elem_of_nil _ H)).
Qed.

(** X6. What the model receives and what becomes of its answer.  Every
    reply a run adds to the log is the model's answer to the system
    prompt followed by the log exactly as it stood before that reply, and
    the run made that call.  Conversely every model call of a run is made
    on the system prompt followed by a log that extends the one the run
    started from, and the reply to that very input is the next message of
    the final log. *)
Theorem model_calls_see_prompt_and_log
    (cp : Checkpoint) (inputs : option (list Message)) :
  (forall l text calls rest,
      values (checkpoint_of (run cp inputs).2)
      = l ++ AIMessage text calls :: rest ->
      (values cp ++ default [] inputs) `prefix_of` l ->
      llm (SystemMessage (system_prompt list_skills) :: l) = (text, calls)
      /\ ModelCall (SystemMessage (system_prompt list_skills) :: l)
           ∈ (run cp inputs).1)
  /\ Forall (fun e => forall i, e = ModelCall i ->
               exists l,
                 i = SystemMessage (system_prompt list_skills) :: l
                 /\ (values cp ++ default [] inputs) `prefix_of` l
                 /\ (l ++ [AIMessage (llm i).1 (llm i).2])
                      `prefix_of` values (checkpoint_of (run cp inputs).2))
            (run cp inputs).1.
Proof.
  unfold stream. destruct inputs as [new|]; cbn [default].
  - split; [apply pregel_loop_replies|apply pregel_loop_model_inputs].
  - rewrite app_nil_r. destruct (next cp) as [n|].
    + split; [apply pregel_loop_replies|apply pregel_loop_model_inputs].
    + split; [|constructor].
      intros l text calls rest Hv [k ->]. exfalso.
      cbn [snd checkpoint_of] in Hv.
      exact (no_reply_before_start _ _ _ _ Hv).
Qed.

End RunFacts.

Lemma approval_gate_runs_only_on_resume_witness :
  @None (list Message) = None
  /\ next Scenario.suspended_checkpoint = Some human_approval.
Proof.
  apply (proj2 (approval_gate_runs_only_on_resume
                  Scenario.proposing_llm Scenario.one_row_db
                  Scenario.silent_repo [] Scenario.suspended_checkpoint None)).
  change (NodeRun human_approval ∈ [NodeRun human_approval]).
  apply list_elem_of_here.
Defined.

Lemma model_calls_see_prompt_and_log_witness :
  Scenario.plain_llm
    [SystemMessage (system_prompt []); HumanMessage "hi"]
  = ("Hello", [])
  /\ ModelCall [SystemMessage (system_prompt []); HumanMessage "hi"]
       ∈ [NodeRun agent;
          ModelCall [SystemMessage (system_prompt []); HumanMessage "hi"]].
Proof.
  apply (proj1 (model_calls_see_prompt_and_log
                  Scenario.plain_llm Scenario.one_row_db Scenario.silent_repo
                  [] empty_checkpoint (Some [HumanMessage "hi"]))
           [HumanMessage "hi"] "Hello" [] []).
  - reflexivity.
  - reflexivity.
Defined.

(** ** The tools and the local execution helper *)

Section HelperFacts.
Context (db : string -> DbReply) (get_skill : string -> RepoReply).

(** X7. [load_skill] always answers with a text: the content of the
    skill when the repository has it with a non-empty content; the
    not-found text when the repository has no such skill or only an empty
    content; the error text when the repository raises. *)
Theorem load_skill_result (skill_name : string) :
  (forall e,
      get_skill skill_name = RepoRaise e ->
      load_skill get_skill skill_name = "Error loading skill: " +:+ e)
  /\ (forall skill,
         get_skill skill_name = RepoSkill (Some skill) ->
         sk_content skill <> EmptyString ->
         load_skill get_skill skill_name = sk_content skill)
  /\ (forall skill,
         get_skill skill_name = RepoSkill (Some skill) ->
         sk_content skill = EmptyString ->
         load_skill get_skill skill_name
         = "Skill '" +:+ skill_name +:+ "' not found.")
  /\ (get_skill skill_name = RepoSkill None ->
      load_skill get_skill skill_name
      = "Skill '" +:+ skill_name +:+ "' not found.").
Proof.
  unfold load_skill, Py.truthy. split; [|split; [|split]].
  - intros e ->. reflexivity.
  - intros skill -> Hne. rewrite bool_decide_eq_false_2 by exact Hne.
    reflexivity.
  - intros skill -> ->. reflexivity.
  - intros ->. reflexivity.
Qed.

(** X8. The API helper and the agent's tool render the same thing for
    the same database reply as long as nothing is cut: the same error
    text for an exception, and the same table for a result of one to ten
    rows. *)
Theorem local_execution_agrees_with_tool (q : string) :
  (forall e,
      db q = DbRaise e ->
      (execute_query_locally db q).1.1 = execute_postgres_query db q)
  /\ (forall description fetched columns results,
         db q = DbDone description fetched ->
         cursor_result description fetched = (columns, results) ->
         results <> [] ->
         length results <= 10 ->
         (execute_query_locally db q).1.1 = execute_postgres_query db q).
Proof.
  unfold execute_query_locally, execute_postgres_query. split.
  - intros e ->. reflexivity.
  - intros description fetched columns results -> -> Hne Hlen.
    destruct results as [|row results']; [congruence|].
    cbn [fst]. rewrite shown_rows_split.
    rewrite take_ge by lia.
    destruct (decide (10 < length (row :: results'))); [lia|].
    rewrite app_nil_r. reflexivity.
Qed.

(** X9. What [execute_query_locally] returns: for an exception the
    error text and the exception's text as error; for an empty result
    the fixed text, no data and no error; otherwise no error, the column
    names and all the rows as structured data, and a table that lists
    every row, without the tool's limit of ten.  The table is written
    with the library's [String.concat] and literals only. *)
Theorem execute_query_locally_result (q : string) :
  let line := fun cells : list string =>
    "| " +:+ String.concat " | " cells +:+ " |" in
  let line_feed := String "010"%char EmptyString in
  (forall e,
      db q = DbRaise e ->
      execute_query_locally db q
      = ("Error executing query: " +:+ e, None, Some e))
  /\ (forall description fetched,
         db q = DbDone description fetched ->
         description = None \/ description = Some [] \/ fetched = [] ->
         execute_query_locally db q
         = ("[Execution Result]: No results found.", None, None))
  /\ (forall c cs row rows,
         db q = DbDone (Some (c :: cs)) (row :: rows) ->
         execute_query_locally db q
         = (String.concat line_feed
              (line (c :: cs)
                 :: line (replicate (length (c :: cs)) "---")
                 :: (line <$> (row :: rows))),
            Some (c :: cs, row :: rows), None)).
Proof.
  intros line line_feed. unfold execute_query_locally. split; [|split].
  - intros e ->. reflexivity.
  - intros description fetched -> [-> | [-> | ->]]; [reflexivity..|].
    destruct description as [[|c cs]|]; reflexivity.
  - intros c cs row rows ->. reflexivity.
Qed.

End HelperFacts.

Lemma load_skill_result_witness :
  load_skill Sample.small_repo "broken"
  = "Error loading skill: " +:+ "Permission denied"
  /\ load_skill Sample.small_repo "sales_analytics"
     = sk_content Sample.sales_skill
  /\ load_skill Sample.small_repo "hollow"
     = "Skill '" +:+ "hollow" +:+ "' not found."
  /\ load_skill Sample.small_repo "inventory"
     = "Skill '" +:+ "inventory" +:+ "' not found.".
Proof.
  split; [|split; [|split]].
  - apply (proj1 (load_skill_result Sample.small_repo "broken")).
    reflexivity.
  - apply (proj1 (proj2 (load_skill_result Sample.small_repo "sales_analytics")));
      [reflexivity|discriminate].
  - apply (proj1 (proj2 (proj2 (load_skill_result Sample.small_repo "hollow")))
             Sample.hollow_skill); reflexivity.
  - apply (proj2 (proj2 (proj2 (load_skill_result Sample.small_repo "inventory")))).
    reflexivity.
Defined.

Lemma local_execution_agrees_with_tool_witness :
  (execute_query_locally Scenario.failing_db "SELECT 1").1.1
  = execute_postgres_query Scenario.failing_db "SELECT 1"
  /\ (execute_query_locally Sample.two_rows_db "SELECT 1").1.1
     = execute_postgres_query Sample.two_rows_db "SELECT 1".
Proof.
  split.
  - apply (proj1 (local_execution_agrees_with_tool Scenario.failing_db "SELECT 1")
             "relation orders does not exist").
    reflexivity.
  - apply (proj2 (local_execution_agrees_with_tool Sample.two_rows_db "SELECT 1")
             (Some ["id"; "total"]) [["1"; "9.5"]; ["2"; "12"]]
             ["id"; "total"] [["1"; "9.5"]; ["2"; "12"]]);
      [reflexivity|reflexivity|discriminate|cbn; lia].
Defined.

Lemma execute_query_locally_result_witness :
  execute_query_locally Scenario.failing_db "SELECT 1"
  = ("Error executing query: relation orders does not exist", None,
     Some "relation orders does not exist")
  /\ execute_query_locally Scenario.empty_db "SELECT 1"
     = ("[Execution Result]: No results found.", None, None)
  /\ execute_query_locally Sample.cities_db "SELECT id, city FROM cities"
     = (String.concat Scenario.newline
          [ "| id | city |";
            "| --- | --- |";
            "| 1 | Oslo |";
            "| 2 | Rome |";
            "| 3 | Lima |";
            "| 4 | Kiev |";
            "| 5 | Bonn |";
            "| 6 | Bern |";
            "| 7 | Doha |";
            "| 8 | Riga |";
            "| 9 | Baku |";
            "| 10 | Nice |";
            "| 11 | Linz |";
            "| 12 | Graz |" ],
        Some (["id"; "city"], Sample.city_rows), None).
Proof.
  split; [|split].
  - exact (proj1 (execute_query_locally_result Scenario.failing_db "SELECT 1")
             "relation orders does not exist" eq_refl).
  - exact (proj1 (proj2 (execute_query_locally_result Scenario.empty_db
                           "SELECT 1"))
             (Some ["n"]) [] eq_refl (or_intror (or_intror eq_refl))).
  - exact (proj2 (proj2 (execute_query_locally_result Sample.cities_db
                           "SELECT id, city FROM cities"))
             "id" ["city"] ["1"; "Oslo"] (tail Sample.city_rows) eq_refl).
Defined.

(** ** The endpoints, further *)

Section EndpointFacts.
Context (llm : list Message -> string * list ToolCall)
        (db : string -> DbReply)
        (get_skill : string -> RepoReply)
        (list_skills : list Skill).

Local Abbreviation minput log :=
  (SystemMessage (system_prompt list_skills) :: log).
Local Abbreviation resume := (stream llm db get_skill list_skills).
Local Abbreviation api_chat := (chat llm db get_skill list_skills).
Local Abbreviation api_approval := (approval llm db get_skill list_skills).

(** *** Only the addressed thread changes *)

Lemma run_stream_others (w : World) (tid : string)
    (inputs : option (list Message)) (t : string) :
  t <> tid ->
  threads (run_stream llm db get_skill list_skills w tid inputs).1 !! t
  = threads w !! t.
Proof.
  intros Hne. unfold run_stream.
  destruct (resume (get_state w tid) inputs) as [evs out].
  unfold put_state. cbn [fst threads]. apply lookup_insert_ne. congruence.
Qed.

Lemma run_update_state_other (w : World) (tid : string)
    (new : list Message) (t : string) :
  t <> tid -> threads (run_update_state w tid new) !! t = threads w !! t.
Proof.
  intros Hne. unfold run_update_state, put_state. cbn [threads].
  apply lookup_insert_ne. congruence.
Qed.

Lemma process_run_others (w : World) (tid : string)
    (inputs : option (list Message)) (t : string) :
  t <> tid ->
  threads (process_run llm db get_skill list_skills w tid inputs).1 !! t
  = threads w !! t.
Proof.
  intros Hne. unfold process_run.
  pose proof (run_stream_others w tid inputs t Hne) as H.
  destruct (run_stream llm db get_skill list_skills w tid inputs)
    as [w' out]. cbn [fst] in H.
  destruct out as [cp|e cp]; [|exact H]. cbv zeta.
  destruct (last (values (get_state w' tid))); exact H.
Qed.

Lemma auto_execute_logic_others (tid : string) (request : ChatRequest)
    (w2 : World) (r : ChatResponse) (t : string) :
  t <> tid ->
  threads (auto_execute_logic llm db get_skill list_skills tid request w2 r).1
    !! t
  = threads w2 !! t.
Proof.
  intros Hne. unfold auto_execute_logic.
  destruct (auto_execute request && _); [|reflexivity].
  unfold run_local_query.
  destruct (execute_query_locally db (extract_query (response r)))
    as [[result_text data] error].
  destruct (error_set error) as [e|]; [reflexivity|].
  set (w3 := {| threads := threads w2; journal := _ |}).
  pose proof (run_stream_others (run_update_state w3 tid [control_message])
                tid None t Hne) as H.
  rewrite run_update_state_other in H by exact Hne.
  destruct (run_stream llm db get_skill list_skills
              (run_update_state w3 tid [control_message]) tid None)
    as [w5 out]. cbn [fst] in H.
  destruct out; exact H.
Qed.

Lemma chat_others (uuid4 : string) (request : ChatRequest) (w : World)
    (t : string) :
  t <> chat_thread uuid4 request ->
  threads (api_chat uuid4 request w).1 !! t = threads w !! t.
Proof.
  intros Hne. unfold chat, chat_run.
  set (tid := chat_thread uuid4 request) in *.
  set (w1 := if awaiting_approval (get_state w tid) then _ else w).
  assert (Hw1 : threads w1 !! t = threads w !! t).
  { subst w1. destruct (awaiting_approval (get_state w tid)); [|reflexivity].
    apply run_update_state_other. exact Hne. }
  pose proof (process_run_others w1 tid
                (if awaiting_approval (get_state w tid) then None
                 else Some [HumanMessage (message request)]) t Hne) as H.
  destruct (process_run llm db get_skill list_skills w1 tid _)
    as [w2 reply]. cbn [fst] in H.
  destruct reply as [r|code detail]; [|cbn [fst]; congruence].
  rewrite auto_execute_logic_others by exact Hne. congruence.
Qed.

Lemma approval_others (request : ApprovalRequest) (w : World) (t : string) :
  t <> approval_thread_id request ->
  threads (api_approval request w).1 !! t = threads w !! t.
Proof.
  intros Hne. unfold approval.
  set (tid := approval_thread_id request) in *.
  destruct (negb (awaiting_approval (get_state w tid))); [reflexivity|].
  destruct (decide (decision request = "approve")) as [_|_].
  - destruct (last (values (get_state w tid))) as [m|]; [|reflexivity].
    unfold run_local_query.
    destruct (execute_query_locally db (extract_query (content_of m)))
      as [[result_text data] error].
    destruct (error_set error) as [e|]; [reflexivity|].
    set (w1 := {| threads := threads w; journal := _ |}).
    pose proof (run_stream_others (run_update_state w1 tid [control_message])
                  tid None t Hne) as H.
    rewrite run_update_state_other in H by exact Hne.
    destruct (run_stream llm db get_skill list_skills
                (run_update_state w1 tid [control_message]) tid None)
      as [w3 out]. cbn [fst] in H.
    destruct out; exact H.
  - rewrite process_run_others by exact Hne.
    apply run_update_state_other. exact Hne.
Qed.

(** X10. A request touches one thread: chat leaves every thread but the
    one it addresses as it was, and so does approval. *)
Theorem endpoints_touch_one_thread :
  (forall (uuid4 : string) (request : ChatRequest) (w : World) (t : string),
      t <> chat_thread uuid4 request ->
      threads (api_chat uuid4 request w).1 !! t = threads w !! t)
  /\ (forall (request : ApprovalRequest) (w : World) (t : string),
         t <> approval_thread_id request ->
         threads (api_approval request w).1 !! t = threads w !! t).
Proof. split; [exact chat_others|exact approval_others]. Qed.

(** *** Logs only grow *)

Lemma process_run_grows (tid : string) (w : World)
    (inputs : option (list Message)) :
  grows tid w (process_run llm db get_skill list_skills w tid inputs).1.
Proof.
  unfold process_run.
  pose proof (run_stream_grows llm db get_skill list_skills tid w inputs) as H.
  destruct (run_stream llm db get_skill list_skills w tid inputs)
    as [w' out]. cbn [fst] in H.
  destruct out as [cp|e cp]; [|exact H]. cbv zeta.
  destruct (last (values (get_state w' tid))); exact H.
Qed.

Lemma chat_grows (uuid4 : string) (request : ChatRequest) (w : World) :
  grows (chat_thread uuid4 request) w (api_chat uuid4 request w).1.
Proof.
  unfold chat, chat_run. set (tid := chat_thread uuid4 request).
  set (w1 := if awaiting_approval (get_state w tid) then _ else w).
  assert (Hw1 : grows tid w w1).
  { subst w1. destruct (awaiting_approval (get_state w tid)).
    - apply (run_update_state_grows tid).
    - apply grows_refl. }
  pose proof (process_run_grows tid w1
                (if awaiting_approval (get_state w tid) then None
                 else Some [HumanMessage (message request)])) as H.
  destruct (process_run llm db get_skill list_skills w1 tid _)
    as [w2 reply]. cbn [fst] in H.
  destruct reply as [r|code detail].
  - eapply grows_trans; [exact Hw1|]. eapply grows_trans; [exact H|].
    apply auto_execute_logic_grows.
  - eapply grows_trans; eassumption.
Qed.

Lemma approval_grows (request : ApprovalRequest) (w : World) :
  grows (approval_thread_id request) w (api_approval request w).1.
Proof.
  unfold approval. set (tid := approval_thread_id request).
  destruct (negb (awaiting_approval (get_state w tid))); [apply grows_refl|].
  destruct (decide (decision request = "approve")) as [_|_].
  - destruct (last (values (get_state w tid))) as [m|]; [|apply grows_refl].
    pose proof (run_local_query_grows db tid w (extract_query (content_of m)))
      as H1.
    destruct (run_local_query db w (extract_query (content_of m)))
      as [w1 [[result_text data] error]]. cbn [fst] in H1.
    destruct (error_set error) as [e|]; [exact H1|].
    pose proof (run_update_state_grows tid w1 [control_message]) as H2.
    pose proof (run_stream_grows llm db get_skill list_skills tid
                  (run_update_state w1 tid [control_message]) None) as H3.
    destruct (run_stream llm db get_skill list_skills
                (run_update_state w1 tid [control_message]) tid None)
      as [w3 out]. cbn [fst] in H3.
    assert (grows tid w w3)
      by (eapply grows_trans; [exact H1|eapply grows_trans; eassumption]).
    destruct out; assumption.
  - eapply grows_trans; [apply (run_update_state_grows tid)|].
    apply process_run_grows.
Qed.

Lemma grows_everywhere (tid : string) (w w' : World) :
  grows tid w w' ->
  (forall t, t <> tid -> threads w' !! t = threads w !! t) ->
  journal w `prefix_of` journal w'
  /\ forall t, values (get_state w t) `prefix_of` values (get_state w' t).
Proof.
  intros [Hj Hv] Hothers. split; [exact Hj|]. intros t.
  destruct (decide (t = tid)) as [->|Hne]; [exact Hv|].
  unfold get_state. rewrite (Hothers t Hne). reflexivity.
Qed.

(** X11. Logs are append-only across requests: after a chat or an
    approval request the log of every thread extends the log it had
    before, and the journal of effects extends the earlier journal. *)
Theorem logs_are_append_only :
  (forall (uuid4 : string) (request : ChatRequest) (w : World),
      journal w `prefix_of` journal (api_chat uuid4 request w).1
      /\ forall t, values (get_state w t)
                     `prefix_of` values (get_state (api_chat uuid4 request w).1 t))
  /\ (forall (request : ApprovalRequest) (w : World),
         journal w `prefix_of` journal (api_approval request w).1
         /\ forall t, values (get_state w t)
                        `prefix_of`
                        values (get_state (api_approval request w).1 t)).
Proof.
  split.
  - intros uuid4 request w.
    apply (grows_everywhere (chat_thread uuid4 request)).
    + apply chat_grows.
    + intros t Hne. apply chat_others. exact Hne.
  - intros request w.
    apply (grows_everywhere (approval_thread_id request)).
    + apply approval_grows.
    + intros t Hne. apply approval_others. exact Hne.
Qed.

(** *** Approval: failures and repetitions *)

(** X12. When the approved query fails with a non-empty error text, the
    approval endpoint answers with that error and status done, but the
    store is left as it was: the thread still waits for approval, with the
    same proposal, and only the local query is added to the journal. *)
Theorem failed_approval_keeps_thread_pending
    (request : ApprovalRequest) (w : World) (m : Message) (e : string) :
  awaiting_approval (get_state w (approval_thread_id request)) = true ->
  last (values (get_state w (approval_thread_id request))) = Some m ->
  decision request = "approve" ->
  db (extract_query (content_of m)) = DbRaise e ->
  e <> EmptyString ->
  api_approval request w
  = ({| threads := threads w;
        journal := journal w ++ [LocalQuery (extract_query (content_of m))] |},
     Ok {| resp_thread_id := approval_thread_id request;
           response := "Error executing query: " +:+ e;
           status := "done";
           structured_data := None;
           query := Some (extract_query (content_of m)) |}).
Proof.
  intros Hw Hlast Hdec Hdb He. unfold approval. rewrite Hw. cbn [negb].
  destruct (decide (decision request = "approve")) as [_|?]; [|contradiction].
  rewrite Hlast. unfold run_local_query, execute_query_locally.
  rewrite Hdb. unfold error_set, Py.truthy.
  rewrite bool_decide_eq_false_2 by exact He. reflexivity.
Qed.

(** X13. An exception whose text is empty is not taken for an error
    ([if error:] on an empty string): the approval goes on as after a
    successful execution, closes the turn and reports the bare error
    prefix as the execution result. *)
Theorem empty_error_text_counts_as_success
    (request : ApprovalRequest) (w : World) (cp : Checkpoint) (m : Message) :
  reachable llm db get_skill list_skills w ->
  threads w !! approval_thread_id request = Some cp ->
  next cp = Some human_approval ->
  last (values cp) = Some m ->
  decision request = "approve" ->
  db (extract_query (content_of m)) = DbRaise EmptyString ->
  exists w',
    api_approval request w
    = (w', Ok {| resp_thread_id := approval_thread_id request;
                 response := "**Execution Result**:" +:+ Py.nl +:+ Py.nl
                               +:+ "Error executing query: ";
                 status := "done";
                 structured_data := None;
                 query := Some (extract_query (content_of m)) |})
    /\ get_state w' (approval_thread_id request)
       = {| values := values cp ++ [control_message]; next := None |}.
Proof.
  intros Hreach Hth Hnext Hlast Hdec Hdb.
  destruct (suspended_shape llm db get_skill list_skills w _ cp
              Hreach Hth Hnext) as (pre & text & ->).
  cbn [values] in Hlast |- *. rewrite last_snoc in Hlast.
  injection Hlast as <-. cbn [content_of] in Hdb |- *.
  destruct (approval_approve_on_proposal llm db get_skill list_skills
              request w pre text
              ("Error executing query: " +:+ EmptyString) None
              (Some EmptyString) Hth Hdec)
    as (w' & Hrun & Hst & _).
  { unfold execute_query_locally. rewrite Hdb. reflexivity. }
  { reflexivity. }
  exists w'. split; [exact Hrun|exact Hst].
Qed.

(** X14. After a successful approval the thread no longer waits, so any
    further approval request on it is refused with HTTP 400 and changes
    nothing: the approved query is not executed a second time. *)
Theorem second_approval_is_refused
    (request request2 : ApprovalRequest) (w : World) (cp : Checkpoint)
    (m : Message) :
  reachable llm db get_skill list_skills w ->
  threads w !! approval_thread_id request = Some cp ->
  next cp = Some human_approval ->
  last (values cp) = Some m ->
  decision request = "approve" ->
  error_set (execute_query_locally db (extract_query (content_of m))).2 = None ->
  approval_thread_id request2 = approval_thread_id request ->
  api_approval request2 (api_approval request w).1
  = ((api_approval request w).1,
     HttpError 400 "Conversation is not waiting for approval.").
Proof.
  intros Hreach Hth Hnext Hlast Hdec Herr Hsame.
  destruct (suspended_shape llm db get_skill list_skills w _ cp
              Hreach Hth Hnext) as (pre & text & ->).
  cbn [values] in Hlast. rewrite last_snoc in Hlast.
  injection Hlast as <-. cbn [content_of] in Herr.
  destruct (execute_query_locally db (extract_query text))
    as [[result_text data] error] eqn:Hq. cbn [snd] in Herr.
  destruct (approval_approve_on_proposal llm db get_skill list_skills
              request w pre text result_text data error Hth Hdec Hq Herr)
    as (w' & Hrun & Hst & _).
  rewrite Hrun. cbn [fst]. unfold approval. rewrite Hsame, Hst.
  reflexivity.
Qed.

(** *** Chat: a fresh turn *)

Lemma run_stream_state (w : World) (tid : string)
    (inputs : option (list Message)) :
  get_state (run_stream llm db get_skill list_skills w tid inputs).1 tid
  = checkpoint_of (run_stream llm db get_skill list_skills w tid inputs).2.
Proof.
  unfold run_stream.
  destruct (resume (get_state w tid) inputs) as [evs out].
  cbn [fst snd]. apply get_put_state.
Qed.

Lemma stream_extends_inputs (cp : Checkpoint)
    (inputs : option (list Message)) :
  (values cp ++ default [] inputs)
    `prefix_of` values (checkpoint_of (resume cp inputs).2).
Proof.
  unfold stream. destruct inputs as [new|]; cbn [default].
  - apply pregel_loop_extends.
  - rewrite app_nil_r. destruct (next cp) as [n|].
    + apply pregel_loop_extends.
    + reflexivity.
Qed.

(** The answer of [process_run] mirrors the thread it leaves. *)
Lemma process_run_reply (w : World) (tid : string)
    (inputs : option (list Message)) (w' : World) (r : ChatResponse) :
  values (get_state w tid) ++ default [] inputs <> [] ->
  process_run llm db get_skill list_skills w tid inputs = (w', Ok r) ->
  resp_thread_id r = tid
  /\ status r = (if awaiting_approval (get_state w' tid)
                 then "approval_required" else "done")
  /\ holds_proposal (get_state w' tid)
  /\ exists m, last (values (get_state w' tid)) = Some m
               /\ response r = content_of m.
Proof.
  intros Hne. unfold process_run.
  pose proof (run_stream_state w tid inputs) as Hst.
  pose proof (stream_holds_proposal llm db get_skill list_skills
                (get_state w tid) inputs) as Hprop.
  pose proof (stream_extends_inputs (get_state w tid) inputs)
    as (added & Hadd).
  unfold run_stream in *.
  destruct (resume (get_state w tid) inputs) as [evs out].
  cbn [fst snd] in *.
  destruct out as [cp|e cp]; [|discriminate]. cbv zeta. rewrite Hst.
  cbn [checkpoint_of] in *.
  destruct (last (values cp)) as [m|] eqn:Hlast.
  - intros [= <- <-]. rewrite Hst. cbn.
    split; [reflexivity|]. split; [reflexivity|]. split; [exact Hprop|].
    exists m. split; [exact Hlast|reflexivity].
  - exfalso. apply last_None in Hlast. rewrite Hlast in Hadd.
    symmetry in Hadd. apply app_eq_nil in Hadd as [Hadd _].
    exact (Hne Hadd).
Qed.

Lemma chat_run_reply (uuid4 : string) (request : ChatRequest) (w w2 : World)
    (r : ChatResponse) :
  chat_run llm db get_skill list_skills uuid4 request w = (w2, Ok r) ->
  resp_thread_id r = chat_thread uuid4 request
  /\ status r = (if awaiting_approval (get_state w2 (chat_thread uuid4 request))
                 then "approval_required" else "done")
  /\ holds_proposal (get_state w2 (chat_thread uuid4 request))
  /\ exists m, last (values (get_state w2 (chat_thread uuid4 request))) = Some m
               /\ response r = content_of m.
Proof.
  unfold chat_run. set (tid := chat_thread uuid4 request).
  destruct (awaiting_approval (get_state w tid)).
  - apply process_run_reply. unfold run_update_state.
    rewrite get_put_state. cbn. rewrite app_nil_r.
    intros H. apply app_eq_nil in H as [_ H]. discriminate.
  - apply process_run_reply. cbn [default].
    intros H. apply app_eq_nil in H as [_ H]. discriminate.
Qed.

(** X15. A chat request on a thread that does not wait for approval
    starts a turn: the submitted text is appended as it is in a
    [HumanMessage], the first step is the agent, and the message that
    follows in the log is the model's answer to the system prompt, the
    earlier log and that message, in this order. *)
Theorem chat_starts_fresh_turn
    (uuid4 : string) (request : ChatRequest) (w : World) :
  awaiting_approval (get_state w (chat_thread uuid4 request)) = false ->
  exists w' reply evs text calls,
    api_chat uuid4 request w = (w', reply)
    /\ llm (SystemMessage (system_prompt list_skills)
              :: values (get_state w (chat_thread uuid4 request))
              ++ [HumanMessage (message request)])
       = (text, calls)
    /\ (values (get_state w (chat_thread uuid4 request))
          ++ [HumanMessage (message request); AIMessage text calls])
         `prefix_of` values (get_state w' (chat_thread uuid4 request))
    /\ journal w'
       = journal w
           ++ [NodeRun agent;
               ModelCall
                 (SystemMessage (system_prompt list_skills)
                    :: values (get_state w (chat_thread uuid4 request))
                    ++ [HumanMessage (message request)])]
           ++ evs.
Proof.
  intros Hw. set (tid := chat_thread uuid4 request) in *.
  set (fed := values (get_state w tid) ++ [HumanMessage (message request)]).
  destruct (llm (minput fed)) as [text calls] eqn:Hllm.
  assert (Hrun : exists w2 reply evs,
             chat_run llm db get_skill list_skills uuid4 request w = (w2, reply)
             /\ journal w2
                = journal w ++ [NodeRun agent; ModelCall (minput fed)] ++ evs
             /\ (fed ++ [AIMessage text calls])
                  `prefix_of` values (get_state w2 tid)).
  { unfold chat_run. fold tid. rewrite Hw. unfold process_run.
    pose proof (run_stream_state w tid (Some [HumanMessage (message request)]))
      as Hst.
    unfold run_stream in *. unfold stream in *. fold fed in Hst |- *.
    destruct recursion_limit_two_steps as [k Hk].
    destruct (agent_step_events llm db get_skill list_skills (S k) false fed)
      as [evs Hevs].
    pose proof (agent_step_reply llm db get_skill list_skills (S k) false fed)
      as Hext.
    rewrite Hllm in Hext. cbn [fst snd] in Hext.
    rewrite <- Hk in Hevs, Hext.
    destruct (pregel_loop llm db get_skill list_skills recursion_limit false
                agent fed) as [evs' out].
    cbn [fst snd] in *. subst evs'.
    set (w2 := put_state w tid (checkpoint_of out) _) in *.
    assert (Hv : (fed ++ [AIMessage text calls])
                   `prefix_of` values (get_state w2 tid))
      by (rewrite Hst; exact Hext).
    destruct out as [cp|e cp]; cbv zeta;
      [destruct (last (values (get_state w2 tid)))|];
      (eexists _, _, evs; split; [reflexivity|split; [reflexivity|exact Hv]]). }
  destruct Hrun as (w2 & reply & evs & Hrun & Hj & Hv).
  assert (Hfed : values (get_state w tid)
                   ++ [HumanMessage (message request); AIMessage text calls]
                 = fed ++ [AIMessage text calls]).
  { subst fed. rewrite <- app_assoc. reflexivity. }
  unfold chat. rewrite Hrun. fold tid.
  destruct reply as [r|code detail].
  - pose proof (auto_execute_logic_grows llm db get_skill list_skills
                  tid request w2 r) as [[k Hk] Hvals].
    destruct (auto_execute_logic llm db get_skill list_skills tid request w2 r)
      as [w' reply'].
    cbn [fst] in Hk, Hvals. exists w', reply', (evs ++ k), text, calls.
    rewrite Hfed.
    split; [reflexivity|]. split; [reflexivity|]. split.
    + etrans; [exact Hv|exact Hvals].
    + rewrite Hk, Hj, <- !app_assoc. reflexivity.
  - exists w2, (HttpError code detail), evs, text, calls. rewrite Hfed. auto.
Qed.

(** X16. Without auto-execute, the answer of the chat endpoint mirrors
    the thread it leaves: the status is [approval_required] exactly when
    the thread waits for approval, the response is the text of the last
    message of the log, and the reply carries the thread's identifier. *)
Theorem chat_reply_mirrors_thread
    (uuid4 : string) (request : ChatRequest) (w w' : World)
    (r : ChatResponse) :
  auto_execute request = false ->
  api_chat uuid4 request w = (w', Ok r) ->
  resp_thread_id r = chat_thread uuid4 request
  /\ (status r = "approval_required"
      <-> awaiting_approval (get_state w' (chat_thread uuid4 request)) = true)
  /\ (status r = "done"
      <-> awaiting_approval (get_state w' (chat_thread uuid4 request)) = false)
  /\ exists m,
      last (values (get_state w' (chat_thread uuid4 request))) = Some m
      /\ response r = content_of m.
Proof.
  intros Hauto. unfold chat.
  destruct (chat_run llm db get_skill list_skills uuid4 request w)
    as [w2 reply] eqn:Hrun.
  destruct reply as [r2|code detail]; [|discriminate].
  unfold auto_execute_logic. rewrite Hauto. cbn [andb].
  intros [= <- <-].
  destruct (chat_run_reply _ _ _ _ _ Hrun) as (Hid & Hstatus & _ & Hlast).
  split; [exact Hid|]. split; [|split; [|exact Hlast]].
  - rewrite Hstatus.
    destruct (awaiting_approval (get_state w2 (chat_thread uuid4 request)));
      split; (reflexivity || discriminate).
  - rewrite Hstatus.
    destruct (awaiting_approval (get_state w2 (chat_thread uuid4 request)));
      split; (reflexivity || discriminate).
Qed.

(** *** Chat: auto-execute *)

Lemma chat_run_waiting (uuid4 : string) (request : ChatRequest)
    (w w2 : World) (r : ChatResponse) :
  chat_run llm db get_skill list_skills uuid4 request w = (w2, Ok r) ->
  status r = "approval_required" ->
  exists pre,
    get_state w2 (chat_thread uuid4 request)
    = {| values := pre ++ [AIMessage (response r) []];
         next := Some human_approval |}.
Proof.
  intros Hrun Hstatus.
  destruct (chat_run_reply _ _ _ _ _ Hrun) as (_ & Hst & Hprop & m & Hlast & Hr).
  destruct (get_state w2 (chat_thread uuid4 request)) as [vs nx] eqn:Hcp.
  assert (Hnx : nx = Some human_approval).
  { rewrite Hstatus in Hst. unfold awaiting_approval in Hst. cbn [next] in Hst.
    case_bool_decide; [assumption|discriminate]. }
  subst nx. destruct (Hprop eq_refl) as (pre & text & Hvs).
  cbn [values] in Hvs, Hlast. subst vs. rewrite last_snoc in Hlast.
  injection Hlast as <-. cbn [content_of] in Hr. subst text.
  exists pre. reflexivity.
Qed.

(** X17. With auto-execute, when the run stops for approval and the
    extracted query succeeds, the chat endpoint closes the turn itself:
    it appends the control message, resumes through the approval node
    to the end without a further model call, leaves the thread not
    waiting, and reports the execution result with status done. *)
Theorem auto_execute_closes_turn
    (uuid4 : string) (request : ChatRequest) (w w2 : World)
    (r : ChatResponse) (result_text : string)
    (data : option (list string * list (list string)))
    (error : option string) :
  chat_run llm db get_skill list_skills uuid4 request w = (w2, Ok r) ->
  auto_execute request = true ->
  status r = "approval_required" ->
  execute_query_locally db (extract_query (response r))
  = (result_text, data, error) ->
  error_set error = None ->
  exists w',
    api_chat uuid4 request w
    = (w', Ok {| resp_thread_id := chat_thread uuid4 request;
                 response := "**Auto Execution Result**:" +:+ Py.nl +:+ Py.nl
                               +:+ result_text;
                 status := "done";
                 structured_data := data;
                 query := Some (extract_query (response r)) |})
    /\ get_state w' (chat_thread uuid4 request)
       = {| values := values (get_state w2 (chat_thread uuid4 request))
                        ++ [control_message];
            next := None |}
    /\ journal w'
       = journal w2
           ++ [LocalQuery (extract_query (response r)); NodeRun human_approval].
Proof.
  intros Hrun Hauto Hstatus Hq Herr.
  destruct (chat_run_waiting _ _ _ _ _ Hrun Hstatus) as [pre Hcp].
  unfold chat. rewrite Hrun. unfold auto_execute_logic.
  rewrite Hauto, bool_decide_eq_true_2 by exact Hstatus. cbn [andb].
  unfold run_local_query. rewrite Hq, Herr.
  set (tid := chat_thread uuid4 request) in *.
  assert (Hg : forall j,
             get_state {| threads := threads w2; journal := j |} tid
             = {| values := pre ++ [AIMessage (response r) []];
                  next := Some human_approval |})
    by (intros j; exact Hcp).
  unfold run_stream, run_update_state.
  rewrite !get_put_state, !Hg. unfold control_message.
  rewrite update_state_proposal, resume_control by reflexivity.
  eexists. split; [reflexivity|]. split.
  - rewrite get_put_state, Hcp. reflexivity.
  - unfold put_state. cbn [journal]. rewrite app_nil_r, <- app_assoc.
    reflexivity.
Qed.

(** X18. With auto-execute, when the extracted query fails with a
    non-empty error text, the chat endpoint reports the error with status
    done while the thread is left waiting for approval with its
    proposal: the next chat message on it will be taken as feedback. *)
Theorem failed_auto_execute_keeps_thread_pending
    (uuid4 : string) (request : ChatRequest) (w w2 : World)
    (r : ChatResponse) (e : string) :
  chat_run llm db get_skill list_skills uuid4 request w = (w2, Ok r) ->
  auto_execute request = true ->
  status r = "approval_required" ->
  db (extract_query (response r)) = DbRaise e ->
  e <> EmptyString ->
  api_chat uuid4 request w
  = ({| threads := threads w2;
        journal := journal w2 ++ [LocalQuery (extract_query (response r))] |},
     Ok {| resp_thread_id := chat_thread uuid4 request;
           response := "Error executing query (Auto-Mode): " +:+ e;
           status := "done";
           structured_data := None;
           query := Some (extract_query (response r)) |})
  /\ awaiting_approval
       (get_state (api_chat uuid4 request w).1 (chat_thread uuid4 request))
     = true.
Proof.
  intros Hrun Hauto Hstatus Hdb He.
  destruct (chat_run_waiting _ _ _ _ _ Hrun Hstatus) as [pre Hcp].
  assert (Hchat : api_chat uuid4 request w
                  = ({| threads := threads w2;
                        journal := journal w2
                                     ++ [LocalQuery (extract_query (response r))] |},
                     Ok {| resp_thread_id := chat_thread uuid4 request;
                           response := "Error executing query (Auto-Mode): " +:+ e;
                           status := "done";
                           structured_data := None;
                           query := Some (extract_query (response r)) |})).
  { unfold chat. rewrite Hrun. unfold auto_execute_logic.
    rewrite Hauto, bool_decide_eq_true_2 by exact Hstatus. cbn [andb].
    unfold run_local_query, execute_query_locally. rewrite Hdb.
    unfold error_set, Py.truthy.
    rewrite bool_decide_eq_false_2 by exact He. reflexivity. }
  split; [exact Hchat|]. rewrite Hchat. cbn [fst].
  change (get_state {| threads := threads w2; journal := _ |}
            (chat_thread uuid4 request))
    with (get_state w2 (chat_thread uuid4 request)).
  rewrite Hcp. reflexivity.
Qed.

End EndpointFacts.

Import SampleWorlds.

Lemma waiting_world_reachable (db : string -> DbReply) :
  reachable Scenario.proposing_llm db Scenario.silent_repo []
    (waiting_world db).
Proof. apply reachable_chat. apply reachable_start. Defined.

Lemma endpoints_touch_one_thread_witness :
  threads
    (chat Scenario.proposing_llm Scenario.one_row_db Scenario.silent_repo []
       "T2" first_request (waiting_world Scenario.one_row_db)).1
    !! "T1"
  = threads (waiting_world Scenario.one_row_db) !! "T1"
  /\ threads
       (approval Scenario.proposing_llm Scenario.one_row_db
          Scenario.silent_repo [] approve_t1
          (waiting_world Scenario.one_row_db)).1
       !! "T7"
     = threads (waiting_world Scenario.one_row_db) !! "T7".
Proof.
  split.
  - apply (proj1 (endpoints_touch_one_thread Scenario.proposing_llm
                    Scenario.one_row_db Scenario.silent_repo [])).
    vm_compute. discriminate.
  - apply (proj2 (endpoints_touch_one_thread Scenario.proposing_llm
                    Scenario.one_row_db Scenario.silent_repo [])).
    vm_compute. discriminate.
Defined.

Lemma failed_approval_keeps_thread_pending_witness :
  approval Scenario.proposing_llm Scenario.failing_db Scenario.silent_repo []
    approve_t1 (waiting_world Scenario.failing_db)
  = ({| threads := threads (waiting_world Scenario.failing_db);
        journal := journal (waiting_world Scenario.failing_db)
                     ++ [LocalQuery
                           (extract_query (content_of Scenario.proposal))] |},
     Ok {| resp_thread_id := "T1";
           response := "Error executing query: "
                         +:+ "relation orders does not exist";
           status := "done";
           structured_data := None;
           query := Some (extract_query (content_of Scenario.proposal)) |}).
Proof.
  apply (failed_approval_keeps_thread_pending Scenario.proposing_llm
           Scenario.failing_db Scenario.silent_repo [] approve_t1
           (waiting_world Scenario.failing_db) Scenario.proposal
           "relation orders does not exist");
    [reflexivity|reflexivity|reflexivity|reflexivity|discriminate].
Defined.

Lemma empty_error_text_counts_as_success_witness :
  exists w',
    approval Scenario.proposing_llm Sample.mute_failing_db
      Scenario.silent_repo [] approve_t1
      (waiting_world Sample.mute_failing_db)
    = (w', Ok {| resp_thread_id := "T1";
                 response := "**Execution Result**:" +:+ Py.nl +:+ Py.nl
                               +:+ "Error executing query: ";
                 status := "done";
                 structured_data := None;
                 query := Some (extract_query (content_of Scenario.proposal)) |})
    /\ get_state w' "T1"
       = {| values := values Scenario.suspended_checkpoint ++ [control_message];
            next := None |}.
Proof.
  apply (empty_error_text_counts_as_success Scenario.proposing_llm
           Sample.mute_failing_db Scenario.silent_repo [] approve_t1
           (waiting_world Sample.mute_failing_db)
           Scenario.suspended_checkpoint Scenario.proposal
           (waiting_world_reachable Sample.mute_failing_db));
    reflexivity.
Defined.

Lemma second_approval_is_refused_witness :
  approval Scenario.proposing_llm Scenario.one_row_db Scenario.silent_repo []
    approve_t1
    (approval Scenario.proposing_llm Scenario.one_row_db Scenario.silent_repo []
       approve_t1 (waiting_world Scenario.one_row_db)).1
  = ((approval Scenario.proposing_llm Scenario.one_row_db Scenario.silent_repo
        [] approve_t1 (waiting_world Scenario.one_row_db)).1,
     HttpError 400 "Conversation is not waiting for approval.").
Proof.
  apply (second_approval_is_refused Scenario.proposing_llm Scenario.one_row_db
           Scenario.silent_repo [] approve_t1 approve_t1
           (waiting_world Scenario.one_row_db)
           Scenario.suspended_checkpoint Scenario.proposal
           (waiting_world_reachable Scenario.one_row_db));
    reflexivity.
Defined.

Lemma chat_starts_fresh_turn_witness :
  exists w' reply evs,
    chat Scenario.proposing_llm Scenario.one_row_db Scenario.silent_repo []
      "T1" first_request Scenario.idle_world
    = (w', reply)
    /\ [HumanMessage "show 3 orders"; AIMessage "```sql SELECT 1```" []]
         `prefix_of` values (get_state w' "T1")
    /\ journal w'
       = [NodeRun agent;
          ModelCall [SystemMessage (system_prompt []);
                     HumanMessage "show 3 orders"]]
           ++ evs.
Proof.
  destruct (chat_starts_fresh_turn Scenario.proposing_llm Scenario.one_row_db
              Scenario.silent_repo [] "T1" first_request Scenario.idle_world
              eq_refl)
    as (w' & reply & evs & text & calls & Hchat & Hllm & Hlog & Hj).
  injection Hllm as <- <-.
  exists w', reply, evs. split; [exact Hchat|]. split; [exact Hlog|exact Hj].
Defined.

Lemma chat_reply_mirrors_thread_witness :
  "T1" = chat_thread "T1" first_request
  /\ ("approval_required" = "approval_required"
      <-> awaiting_approval
            (get_state (waiting_world Scenario.one_row_db)
               (chat_thread "T1" first_request)) = true)
  /\ ("approval_required" = "done"
      <-> awaiting_approval
            (get_state (waiting_world Scenario.one_row_db)
               (chat_thread "T1" first_request)) = false)
  /\ exists m,
      last (values (get_state (waiting_world Scenario.one_row_db)
                      (chat_thread "T1" first_request))) = Some m
      /\ "```sql SELECT 1```" = content_of m.
Proof.
  apply (chat_reply_mirrors_thread Scenario.proposing_llm Scenario.one_row_db
           Scenario.silent_repo [] "T1" first_request Scenario.idle_world
           (waiting_world Scenario.one_row_db)
           {| resp_thread_id := "T1"; response := "```sql SELECT 1```";
              status := "approval_required";
              structured_data := None; query := None |});
    reflexivity.
Defined.

Lemma auto_execute_closes_turn_witness :
  exists w',
    chat Scenario.proposing_llm Scenario.one_row_db Scenario.silent_repo []
      "T1" auto_request Scenario.idle_world
    = (w', Ok {| resp_thread_id := chat_thread "T1" auto_request;
                 response := "**Auto Execution Result**:" +:+ Py.nl +:+ Py.nl
                               +:+ "| n |" +:+ Py.nl +:+ "| --- |"
                               +:+ Py.nl +:+ "| 1 |";
                 status := "done";
                 structured_data := Some (["n"], [["1"]]);
                 query := Some (extract_query "```sql SELECT 1```") |})
    /\ get_state w' (chat_thread "T1" auto_request)
       = {| values := values (get_state (waiting_world Scenario.one_row_db)
                                (chat_thread "T1" auto_request))
                        ++ [control_message];
            next := None |}
    /\ journal w'
       = journal (waiting_world Scenario.one_row_db)
           ++ [LocalQuery (extract_query "```sql SELECT 1```");
               NodeRun human_approval].
Proof.
  apply (auto_execute_closes_turn Scenario.proposing_llm Scenario.one_row_db
           Scenario.silent_repo [] "T1" auto_request Scenario.idle_world
           (waiting_world Scenario.one_row_db)
           {| resp_thread_id := "T1"; response := "```sql SELECT 1```";
              status := "approval_required";
              structured_data := None; query := None |}
           _ _ None);
    reflexivity.
Defined.

Lemma failed_auto_execute_keeps_thread_pending_witness :
  chat Scenario.proposing_llm Scenario.failing_db Scenario.silent_repo []
    "T1" auto_request Scenario.idle_world
  = ({| threads := threads (waiting_world Scenario.failing_db);
        journal := journal (waiting_world Scenario.failing_db)
                     ++ [LocalQuery (extract_query "```sql SELECT 1```")] |},
     Ok {| resp_thread_id := chat_thread "T1" auto_request;
           response := "Error executing query (Auto-Mode): "
                         +:+ "relation orders does not exist";
           status := "done";
           structured_data := None;
           query := Some (extract_query "```sql SELECT 1```") |})
  /\ awaiting_approval
       (get_state
          (chat Scenario.proposing_llm Scenario.failing_db Scenario.silent_repo
             [] "T1" auto_request Scenario.idle_world).1
          (chat_thread "T1" auto_request))
     = true.
Proof.
  apply (failed_auto_execute_keeps_thread_pending Scenario.proposing_llm
           Scenario.failing_db Scenario.silent_repo [] "T1" auto_request
           Scenario.idle_world (waiting_world Scenario.failing_db)
           {| resp_thread_id := "T1"; response := "```sql SELECT 1```";
              status := "approval_required";
              structured_data := None; query := None |}
           "relation orders does not exist");
    [reflexivity|reflexivity|reflexivity|reflexivity|discriminate].
Defined.

(** ** The extracted query *)

Section StripFacts.

(** X19. The query handed to the database carries no surrounding white
    space: stripping it again changes nothing, and neither its first nor
    its last character is a space character. *)
Theorem extract_query_is_stripped (content : string) :
  Py.strip (extract_query content) = extract_query content
  /\ (forall c rest,
         extract_query content = String c rest -> Py.isspace c = false)
  /\ (forall front c,
         extract_query content = front +:+ String c EmptyString ->
         Py.isspace c = false).
Proof.
  assert (Hshape : exists s, extract_query content = Py.strip s).
  { unfold extract_query. destruct (Re.search content); eauto. }
  destruct Hshape as [s ->]. split; [apply strip_idempotent|]. split.
  - intros c rest H. unfold Py.strip in H.
    destruct (Py.lstrip s) as [|a t] eqn:Hl; [discriminate|].
    pose proof (lstrip_head _ _ _ Hl) as Ha.
    destruct (rstrip_head t a t Ha) as [t' Ht]. rewrite Ht in H.
    injection H as <- _. exact Ha.
  - intros front c H. exact (rstrip_last _ _ _ H).
Qed.

End StripFacts.

Lemma extract_query_is_stripped_witness :
  Py.isspace "S"%char = false /\ Py.isspace ";"%char = false.
Proof.
  destruct (extract_query_is_stripped
              ("Try: ```sql" +:+ Py.nl +:+ "  SELECT 1;  " +:+ Py.nl +:+ "```"))
    as (_ & Hfirst & Hlast).
  split.
  - apply (Hfirst "S"%char "ELECT 1;"). reflexivity.
  - apply (Hlast "SELECT 1" ";"%char). reflexivity.
Defined.

(** ** The skill repository *)

Section RepositoryFacts.
Import Repository.
Context (read_error : string -> string).

Local Abbreviation repo_list := (Repository.list_skills read_error).
Local Abbreviation repo_get := (Repository.get_skill read_error).

Lemma child_elem (name : string) (children : list (string * Entry))
    (e : Entry) :
  child name children = Some e -> (name, e) ∈ children.
Proof.
  induction children as [|[n x] rest IH]; cbn [child]; [discriminate|].
  destruct (decide (n = name)) as [->|Hne].
  - intros [= ->]. apply list_elem_of_here.
  - intros H. apply list_elem_of_further, IH, H.
Qed.

Lemma child_unique (name : string) (children : list (string * Entry))
    (e : Entry) :
  NoDup children.*1 -> (name, e) ∈ children -> child name children = Some e.
Proof.
  induction children as [|[n x] rest IH]; cbn [child fmap list_fmap fst].
  - intros _ H. exact (False_ind _ (not_elem_of_nil _ H)).
  - intros Hnd Hin. apply NoDup_cons in Hnd as [Hn Hnd].
    apply elem_of_cons in Hin as [[= <- <-]|Hin].
    + destruct (decide (name = name)); [reflexivity|contradiction].
    + destruct (decide (n = name)) as [->|Hne]; [|exact (IH Hnd Hin)].
      exfalso. apply Hn. apply list_elem_of_fmap. exists (name, e).
      split; [reflexivity|exact Hin].
Qed.

Lemma skill_of_entry_Some (name : string) (item : Entry) (skill : Skill) :
  skill_of_entry read_error name item = inr (Some skill) <->
  lists_as name item skill.
Proof.
  unfold skill_of_entry, lists_as. split.
  - destruct item as [text|files]; [discriminate|].
    destruct (String.prefix "__" name) eqn:Hp; [discriminate|].
    destruct (child "description.txt" files) as [[d|sub]|] eqn:Hd;
      cbn [read_text]; try discriminate.
    intros [= <-]. exists files, d. auto.
  - intros (files & d & -> & -> & -> & ->). reflexivity.
Qed.

Lemma scan_spec (children : list (string * Entry)) :
  forall (acc skills : list Skill),
    scan read_error children acc = inr skills ->
    exists listed,
      skills = acc ++ listed
      /\ sublist (sk_name <$> listed) children.*1
      /\ (forall s, s ∈ listed ->
                    exists item, (sk_name s, item) ∈ children
                                 /\ lists_as (sk_name s) item s)
      /\ (forall name item s,
             (name, item) ∈ children -> lists_as name item s -> s ∈ listed).
Proof.
  induction children as [|[name item] rest IH]; intros acc skills;
    cbn [scan].
  - intros [= <-]. exists []. rewrite app_nil_r.
    split; [reflexivity|]. split; [constructor|]. split.
    + intros s H. exact (False_ind _ (not_elem_of_nil _ H)).
    + intros n i s H. exact (False_ind _ (not_elem_of_nil _ H)).
  - destruct (skill_of_entry read_error name item) as [e|[skill|]] eqn:Hent;
      [discriminate| |].
    + intros H. destruct (IH _ _ H) as (listed & -> & Hsub & Hsound & Hcomplete).
      apply skill_of_entry_Some in Hent.
      assert (Hname : sk_name skill = name).
      { destruct Hent as (files & d & _ & _ & _ & ->). reflexivity. }
      exists (skill :: listed). rewrite <- app_assoc.
      split; [reflexivity|]. split; [|split].
      * cbn [fmap list_fmap fst]. rewrite Hname. constructor. exact Hsub.
      * intros s Hs. apply elem_of_cons in Hs as [->|Hs].
        -- exists item. rewrite Hname.
           split; [apply list_elem_of_here|exact Hent].
        -- destruct (Hsound s Hs) as (i & Hi & Hl). exists i.
           split; [apply list_elem_of_further, Hi|exact Hl].
      * intros n i s Hin Hl. apply elem_of_cons in Hin as [[= -> ->]|Hin].
        -- apply skill_of_entry_Some in Hl, Hent.
           rewrite Hl in Hent. injection Hent as ->. apply list_elem_of_here.
        -- apply list_elem_of_further. exact (Hcomplete n i s Hin Hl).
    + intros H. destruct (IH _ _ H) as (listed & -> & Hsub & Hsound & Hcomplete).
      exists listed. split; [reflexivity|]. split; [|split].
      * cbn [fmap list_fmap fst]. apply sublist_cons. exact Hsub.
      * intros s Hs. destruct (Hsound s Hs) as (i & Hi & Hl). exists i.
        split; [apply list_elem_of_further, Hi|exact Hl].
      * intros n i s Hin Hl. apply elem_of_cons in Hin as [[= -> ->]|Hin].
        -- apply skill_of_entry_Some in Hl. rewrite Hl in Hent. discriminate.
        -- exact (Hcomplete n i s Hin Hl).
Qed.

(** X20. [list_skills] lists exactly the described directories: a skill
    is listed if and only if the skills directory has a directory of that
    name, not starting with two underscores, holding a regular file
    description.txt, whose stripped text is the skill's description; the
    content of a listed skill is empty; the skills come in directory
    order; and a missing skills directory gives the empty list. *)
Theorem list_skills_lists_described_directories
    (children : list (string * Entry)) (skills : list Skill) :
  repo_list (Some children) = inr skills ->
  sublist (sk_name <$> skills) children.*1
  /\ (forall s,
         s ∈ skills <->
         exists files d,
           (sk_name s, Dir files) ∈ children
           /\ String.prefix "__" (sk_name s) = false
           /\ child "description.txt" files = Some (File d)
           /\ sk_description s = Py.strip d
           /\ sk_content s = EmptyString)
  /\ repo_list None = inr [].
Proof.
  intros Hlist. cbn [Repository.list_skills] in Hlist.
  destruct (scan_spec children [] skills Hlist)
    as (listed & -> & Hsub & Hsound & Hcomplete).
  cbn [app]. split; [exact Hsub|]. split; [|reflexivity].
  intros s. split.
  - intros Hs. destruct (Hsound s Hs) as (item & Hin & files & d & -> & Hp & Hd & Hs').
    exists files, d. destruct s as [n de c].
    cbn [sk_name sk_description sk_content] in *.
    injection Hs' as -> ->. auto.
  - intros (files & d & Hin & Hp & Hd & Hdesc & Hcont).
    apply (Hcomplete (sk_name s) (Dir files) s Hin).
    exists files, d. split; [reflexivity|]. split; [exact Hp|].
    split; [exact Hd|]. destruct s as [n de c]. cbn in *. congruence.
Qed.

(** X21. What [list_skills] lists, [get_skill] finds: for a listed skill
    whose directory also holds a regular file content.md, [get_skill] of
    its name returns the same name and description together with the
    stripped content; without content.md it returns [None]. *)
Theorem listed_skill_can_be_fetched
    (children : list (string * Entry)) (skills : list Skill) (s : Skill) :
  well_formed children ->
  repo_list (Some children) = inr skills ->
  s ∈ skills ->
  plain_name (sk_name s) = true
  /\ exists files,
      child (sk_name s) children = Some (Dir files)
      /\ (forall c,
             child "content.md" files = Some (File c) ->
             repo_get (Some children) (sk_name s)
             = RepoSkill (Some {| sk_name := sk_name s;
                                  sk_description := sk_description s;
                                  sk_content := Py.strip c |}))
      /\ (child "content.md" files = None ->
          repo_get (Some children) (sk_name s) = RepoSkill None).
Proof.
  intros [Hnd Hplain] Hlist Hs. cbn [Repository.list_skills] in Hlist.
  destruct (scan_spec children [] skills Hlist)
    as (listed & -> & _ & Hsound & _).
  destruct (Hsound s Hs) as (item & Hin & files & d & -> & Hp & Hd & Hs').
  split.
  { rewrite Forall_forall in Hplain. apply Hplain.
    apply list_elem_of_fmap. exists (sk_name s, Dir files). auto. }
  exists files. pose proof (child_unique _ _ _ Hnd Hin) as Hchild.
  split; [exact Hchild|].
  cbn [Repository.get_skill]. rewrite Hchild, Hd. split.
  - intros c ->. cbn [read_text]. destruct s as [n de c0].
    cbn [sk_name sk_description sk_content] in *.
    injection Hs' as -> ->. reflexivity.
  - intros ->. reflexivity.
Qed.

(** X22. [load_skill] over the file-based repository: for a plain name
    without entry in the skills directory (or without skills directory)
    the answer is the not-found text; for a skill directory with both
    files it is the stripped content, unless that is empty, in which case
    the answer is the not-found text as well. *)
Theorem load_skill_from_repository
    (children : list (string * Entry)) (name : string) :
  plain_name name = true ->
  (child name children = None ->
   load_skill (repo_get (Some children)) name
   = "Skill '" +:+ name +:+ "' not found.")
  /\ (forall files d c,
         child name children = Some (Dir files) ->
         child "description.txt" files = Some (File d) ->
         child "content.md" files = Some (File c) ->
         load_skill (repo_get (Some children)) name
         = if decide (Py.strip c = EmptyString)
           then "Skill '" +:+ name +:+ "' not found."
           else Py.strip c)
  /\ load_skill (repo_get None) name = "Skill '" +:+ name +:+ "' not found.".
Proof.
  intros _. unfold load_skill. cbn [Repository.get_skill].
  split; [|split; [|reflexivity]].
  - intros ->. reflexivity.
  - intros files d c -> -> ->. cbn [read_text sk_content]. unfold Py.truthy.
    destruct (decide (Py.strip c = EmptyString)) as [Heq|Hne].
    + rewrite bool_decide_eq_true_2 by exact Heq. reflexivity.
    + rewrite bool_decide_eq_false_2 by exact Hne. reflexivity.
Qed.

End RepositoryFacts.

Lemma list_skills_lists_described_directories_witness :
  sublist
    (sk_name
       <$> [ {| sk_name := "sales_analytics";
                sk_description := "Database schema for sales";
                sk_content := EmptyString |};
             {| sk_name := "inventory_management";
                sk_description := "Stock levels";
                sk_content := EmptyString |} ])
    Sample.skills_dir.*1.
Proof.
  apply (list_skills_lists_described_directories Sample.os_error
           Sample.skills_dir
           [ {| sk_name := "sales_analytics";
                sk_description := "Database schema for sales";
                sk_content := EmptyString |};
             {| sk_name := "inventory_management";
                sk_description := "Stock levels";
                sk_content := EmptyString |} ]).
  reflexivity.
Defined.

Lemma sample_skills_dir_well_formed :
  Repository.well_formed Sample.skills_dir.
Proof.
  split.
  - apply (bool_decide_unpack _). reflexivity.
  - repeat constructor.
Defined.

Lemma listed_skill_can_be_fetched_witness :
  Repository.plain_name "sales_analytics" = true
  /\ exists files,
      Repository.child "sales_analytics" Sample.skills_dir
      = Some (Repository.Dir files)
      /\ (forall c,
             Repository.child "content.md" files = Some (Repository.File c) ->
             Repository.get_skill Sample.os_error (Some Sample.skills_dir)
               "sales_analytics"
             = RepoSkill (Some {| sk_name := "sales_analytics";
                                  sk_description := "Database schema for sales";
                                  sk_content := Py.strip c |}))
      /\ (Repository.child "content.md" files = None ->
          Repository.get_skill Sample.os_error (Some Sample.skills_dir)
            "sales_analytics"
          = RepoSkill None).
Proof.
  apply (listed_skill_can_be_fetched Sample.os_error Sample.skills_dir
           [ {| sk_name := "sales_analytics";
                sk_description := "Database schema for sales";
                sk_content := EmptyString |};
             {| sk_name := "inventory_management";
                sk_description := "Stock levels";
                sk_content := EmptyString |} ]
           {| sk_name := "sales_analytics";
              sk_description := "Database schema for sales";
              sk_content := EmptyString |}
           sample_skills_dir_well_formed eq_refl).
  apply list_elem_of_here.
Defined.

Lemma load_skill_from_repository_witness :
  load_skill (Repository.get_skill Sample.os_error (Some Sample.skills_dir))
    "non_existent"
  = "Skill '" +:+ "non_existent" +:+ "' not found."
  /\ load_skill (Repository.get_skill Sample.os_error (Some Sample.skills_dir))
       "sales_analytics"
     = "CREATE TABLE orders (id INT)".
Proof.
  split.
  - apply (proj1 (load_skill_from_repository Sample.os_error Sample.skills_dir
                    "non_existent" eq_refl)).
    reflexivity.
  - apply (proj1 (proj2 (load_skill_from_repository Sample.os_error
                           Sample.skills_dir "sales_analytics" eq_refl))
             [("description.txt", Repository.File " Database schema for sales ");
              ("content.md", Repository.File " CREATE TABLE orders (id INT) ")]
             " Database schema for sales " " CREATE TABLE orders (id INT) ");
      reflexivity.
Defined.

(** ** The system prompt *)

Section PromptFacts.

Lemma sapp_nil_r (s : string) : s +:+ EmptyString = s.
Proof.
  induction s as [|c s IH]; [reflexivity|].
  rewrite sapp_cons, IH. reflexivity.
Qed.

Lemma join_elem (sep x : string) (ls : list string) :
  x ∈ ls -> exists a b, Py.join sep ls = a +:+ x +:+ b.
Proof.
  unfold Py.join. induction ls as [|y ls IH].
  - intros H. exact (False_ind _ (not_elem_of_nil _ H)).
  - intros H. apply elem_of_cons in H as [->|H].
    + destruct ls as [|z ls].
      * exists EmptyString, EmptyString. cbn [String.concat].
        rewrite sapp_nil_l, sapp_nil_r. reflexivity.
      * exists EmptyString, (sep +:+ String.concat sep (z :: ls)).
        reflexivity.
    + destruct (IH H) as (a & b & Hab). destruct ls as [|z ls].
      * exact (False_ind _ (not_elem_of_nil _ H)).
      * exists (y +:+ sep +:+ a), b.
        change (String.concat sep (y :: z :: ls))
          with (y +:+ sep +:+ String.concat sep (z :: ls)).
        rewrite Hab, !sapp_assoc. reflexivity.
Qed.

Lemma contains_skip (x s t : string) :
  Py.contains x t = true -> Py.contains x (s +:+ t) = true.
Proof.
  intros H. apply contains_true in H as (a & b & ->).
  apply contains_true. exists (s +:+ a), b. rewrite sapp_assoc. reflexivity.
Qed.

Lemma contains_here (x t u : string) :
  Py.contains x t = true -> Py.contains x (t +:+ u) = true.
Proof.
  intros H. apply contains_true in H as (a & b & ->).
  apply contains_true. exists a, (b +:+ u). rewrite !sapp_assoc. reflexivity.
Qed.

(** X23. The system prompt advertises every listed skill: for each skill
    handed to the graph, the prompt contains the line made of its name in
    bold and its description; and it always contains the order to wrap
    the proposed query in a fenced block. *)
Theorem system_prompt_lists_every_skill (skills : list Skill) :
  (forall s,
      s ∈ skills ->
      Py.contains ("- **" +:+ sk_name s +:+ "**: " +:+ sk_description s)
                  (system_prompt skills) = true)
  /\ Py.contains
       "You MUST wrap the proposed SQL query in a markdown block"
       (system_prompt skills) = true.
Proof.
  split.
  - intros s Hs. unfold system_prompt. cbv zeta.
    do 10 apply contains_skip. apply contains_here.
    apply contains_true. apply join_elem.
    apply list_elem_of_fmap. exists s. split; [reflexivity|exact Hs].
  - unfold system_prompt. cbv zeta.
    do 4 apply contains_skip. apply contains_here.
    vm_compute. reflexivity.
Qed.

End PromptFacts.

Lemma system_prompt_lists_every_skill_witness :
  Py.contains
    ("- **" +:+ "sales_analytics" +:+ "**: " +:+ "Database schema for sales")
    (system_prompt [Sample.sales_skill; Sample.hollow_skill]) = true.
Proof.
  apply (proj1 (system_prompt_lists_every_skill
                  [Sample.sales_skill; Sample.hollow_skill])
           Sample.sales_skill).
  apply list_elem_of_here.
Defined.

(** ** The connection pool *)

Section PoolFacts.
Import Database.
Context {Pool Conn : Type}
        (new_pool : string + Pool)
        (getconn : Pool -> Pool * (string + Conn))
        (putconn : Pool -> Conn -> Pool * (string + unit))
        (closeall : Pool -> Pool * (string + unit)).

Local Abbreviation run1 := (run_op Pool Conn new_pool getconn putconn closeall).
Local Abbreviation runs := (run_ops Pool Conn new_pool getconn putconn closeall).

Lemma pools_created_app (evs evs' : list (@Call Conn)) :
  pools_created Conn (evs ++ evs')
  = pools_created Conn evs + pools_created Conn evs'.
Proof. unfold pools_created. rewrite omap_app, length_app. reflexivity. Qed.

Local Ltac pool_case :=
  cbn; split;
  [ intros Hs;
    first [ solve [destruct Hs as [? Hs]; discriminate Hs]
          | split; [eexists; reflexivity|reflexivity] ]
  | intros Hn;
    first [ discriminate Hn
          | left; split; [eexists; reflexivity|reflexivity]
          | right; split; reflexivity ] ].

(** One operation: what it does to the attribute and which calls it
    makes. *)
Lemma run_op_facts (o : Op Conn) (st : State Pool) :
  (is_Some st ->
   is_Some (run1 o st).1 /\ pools_created Conn (run1 o st).2 = 0)
  /\ (st = None ->
      (is_Some (run1 o st).1 /\ pools_created Conn (run1 o st).2 = 1)
      \/ ((run1 o st).1 = None /\ pools_created Conn (run1 o st).2 = 0)).
Proof.
  destruct o as [| | |body]; cbn [run_op].
  - unfold initialize.
    destruct st as [p|]; [|destruct new_pool as [e|p]]; pool_case.
  - unfold get_pool, initialize.
    destruct st as [p|]; [|destruct new_pool as [e|p]]; pool_case.
  - unfold close_all.
    destruct st as [p|]; [destruct (closeall p) as [p' r]|]; pool_case.
  - unfold with_db_connection, get_pool, initialize.
    destruct st as [p|].
    + destruct (getconn p) as [p1 [e|c]];
        [|destruct (putconn p1 c) as [p2 [e|u]]]; pool_case.
    + destruct new_pool as [e|p]; [pool_case|].
      destruct (getconn p) as [p1 [e|c]];
        [|destruct (putconn p1 c) as [p2 [e|u]]]; pool_case.
Qed.

Lemma run_ops_facts (ops : list (Op Conn)) :
  forall st : State Pool,
    pools_created Conn (runs ops st).2 <= 1
    /\ (is_Some st ->
        is_Some (runs ops st).1 /\ pools_created Conn (runs ops st).2 = 0).
Proof.
  induction ops as [|o ops IH]; intros st; cbn [run_ops].
  { cbn. split; [lia|]. auto. }
  destruct (run_op_facts o st) as (Hsome & Hnone).
  destruct (run1 o st) as [st1 evs1]. cbn [fst snd] in *.
  destruct (IH st1) as (Hone' & Hsome').
  destruct (runs ops st1) as [st2 evs2]. cbn [fst snd] in *.
  rewrite pools_created_app.
  split.
  - destruct st as [p|].
    + destruct Hsome as [Hs1 H0]; [eexists; reflexivity|].
      destruct (Hsome' Hs1) as [_ H0']. lia.
    + destruct (Hnone eq_refl) as [[Hs1 H1]|[-> H0]].
      * destruct (Hsome' Hs1) as [_ H0']. lia.
      * lia.
  - intros Hs. destruct (Hsome Hs) as [Hs1 H0].
    destruct (Hsome' Hs1) as [Hs2 H0']. split; [exact Hs2|lia].
Qed.

(** X24. The pool is a singleton that is never replaced: over any
    sequence of [initialize], [get_pool], [close_all] and [with
    get_db_connection()] blocks at most one pool is created; once the
    attribute holds a pool no further one is created and the attribute
    keeps holding one, also after [close_all] (the closed pool is kept
    and handed out again). *)
Theorem pool_is_created_once (ops : list (Op Conn)) (st : State Pool) :
  pools_created Conn (runs ops st).2 <= 1
  /\ (is_Some st ->
      is_Some (runs ops st).1 /\ pools_created Conn (runs ops st).2 = 0).
Proof. exact (run_ops_facts ops st). Qed.

End PoolFacts.

Lemma pool_is_created_once_witness :
  is_Some
    (Database.run_ops SamplePool.pool nat SamplePool.new_pool
       SamplePool.getconn SamplePool.putconn SamplePool.closeall
       SamplePool.session (Some (0, false))).1
  /\ Database.pools_created nat
       (Database.run_ops SamplePool.pool nat SamplePool.new_pool
          SamplePool.getconn SamplePool.putconn SamplePool.closeall
          SamplePool.session (Some (0, false))).2
     = 0.
Proof.
  apply (proj2 (pool_is_created_once SamplePool.new_pool SamplePool.getconn
                  SamplePool.putconn SamplePool.closeall SamplePool.session
                  (Some (0, false)))).
  eexists. reflexivity.
Defined.
